(** * FinOpenPOS: the orders and products API routes

    A shallow embedding of [src/app/api/orders/route.ts] and
    [src/app/api/products/route.ts]: the two zod schemas, the four route
    handlers, and the part of the hosted store the handlers talk to. *)

From Stdlib Require Import ZArith QArith List String Bool.
From Stdlib Require Import DecimalString.
Import ListNotations.
Local Open Scope string_scope.
Local Open Scope Z_scope.
Local Open Scope list_scope.
Set Warnings "-register-all".

(** ** JavaScript values *)

(** A JavaScript number as the routes observe it.  The handlers do no
    arithmetic; they only ask whether a number is NaN, whether it is an
    integer, and whether it is truthy.  A finite number is kept as the
    rational it denotes. *)
Inductive number : Type :=
| NaN
| Infinity (negative : bool)
| Finite (value : Q).

Definition num (z : Z) : number := Finite (inject_Z z).

Definition isNaN (n : number) : bool :=
  match n with NaN => true | _ => false end.

(** [Number.isInteger]: finite and without fractional part. *)
Definition isInteger (n : number) : bool :=
  match n with
  | Finite q => (Qnum q mod Zpos (Qden q)) =? 0
  | _ => false
  end.

(** [0 <= n] on numbers; NaN compares false with everything. *)
Definition nonNegative (n : number) : bool :=
  match n with
  | NaN => false
  | Infinity negative => negb negative
  | Finite q => 0 <=? Qnum q
  end.

(** Truthiness of a number: every number but 0 and NaN. *)
Definition truthy_number (n : number) : bool :=
  match n with
  | NaN => false
  | Infinity _ => true
  | Finite q => negb (Qnum q =? 0)
  end.

(** Truthiness of a string: every string but the empty one. *)
Definition truthy_string (s : string) : bool :=
  match s with EmptyString => false | String _ _ => true end.

Definition number_eqb (a b : number) : bool :=
  match a, b with
  | Infinity x, Infinity y => Bool.eqb x y
  | Finite p, Finite q => Qeq_bool p q
  | _, _ => false
  end.

(** What [request.json()] resolves to, and what [NextResponse.json] is
    given.  An object is its list of own properties in insertion order. *)
Inductive json : Type :=
| JNull
| JBool (b : bool)
| JNumber (n : number)
| JString (s : string)
| JArray (elements : list json)
| JObject (properties : list (string * json)).

(** Property read [obj[key]]; [None] is [undefined]. *)
Fixpoint get (key : string) (properties : list (string * json)) : option json :=
  match properties with
  | [] => None
  | (k, v) :: rest => if String.eqb k key then Some v else get key rest
  end.

(** What can be thrown: the store's error object, rethrown by a handler,
    the [SyntaxError] of [request.json()], and the [TypeError] of the
    runtime. *)
Inductive Thrown : Type :=
| PostgrestError (message : string)
| SyntaxError (message : string)
| TypeError (message : string).

Definition message (e : Thrown) : string :=
  match e with
  | PostgrestError m => m
  | SyntaxError m => m
  | TypeError m => m
  end.

(** Whether an object has the own property [key]. *)
Definition has_own (key : string) (properties : list (string * json)) : bool :=
  match get key properties with
  | Some _ => true
  | None => false
  end.

(** ** zod *)

Inductive PathSegment : Type :=
| Key (name : string)
| Index (i : nat).

Inductive ZodIssueCode : Type :=
| invalid_type
| invalid_enum_value.

(** An issue: for [invalid_type], what was expected and the type that was
    received; for [invalid_enum_value], the options and the string that
    was received. *)
Record ZodIssue : Type := {
  code : ZodIssueCode;
  expected : string;
  received : string;
  path : list PathSegment
}.

(** The pieces of the JavaScript runtime and of zod that the routes use
    but that are not part of this repository: the conversion of a string
    to a number, the conversion of a number to a string, and the message
    zod attaches to an issue. *)
Record Runtime : Type := {
  StringToNumber : string -> number;
  NumberToString : number -> string;
  errorMap : ZodIssue -> string
}.

(** How parsing with a schema can go wrong: it returns issues, or the
    coercion of a value throws and the exception leaves the parser. *)
Inductive Rejection : Type :=
| Issues (issues : list ZodIssue)
| Throws (e : Thrown).

(** The result of parsing with a schema: a rejection, or the typed value. *)
Definition Parsed (A : Type) : Type := (Rejection + A)%type.

Definition OK {A : Type} (a : A) : Parsed A := inr a.

Definition INVALID {A : Type} (c : ZodIssueCode) (e r : string)
    (p : list PathSegment) : Parsed A :=
  inl (Issues [{| code := c; expected := e; received := r; path := p |}]).

(** An object schema parses its keys in order and reports the issues of
    all of them; an exception thrown at a key stops the parsing there. *)
Definition ap {A B : Type} (f : Parsed (A -> B)) (a : Parsed A) : Parsed B :=
  match f, a with
  | inl (Throws e), _ => inl (Throws e)
  | _, inl (Throws e) => inl (Throws e)
  | inr g, inr x => inr (g x)
  | inr _, inl (Issues e) => inl (Issues e)
  | inl (Issues e), inr _ => inl (Issues e)
  | inl (Issues e1), inl (Issues e2) => inl (Issues (e1 ++ e2))
  end.

(** [getParsedType]: the name zod gives to the type of a value. *)
Definition parsedType (value : option json) : string :=
  match value with
  | None => "undefined"
  | Some JNull => "null"
  | Some (JBool _) => "boolean"
  | Some (JNumber NaN) => "nan"
  | Some (JNumber _) => "number"
  | Some (JString _) => "string"
  | Some (JArray _) => "array"
  | Some (JObject _) => "object"
  end.

Notation "f <*> a" := (ap f a) (at level 51, left associativity).

(** A schema is a parser of a possibly undefined value found at a path. *)
Definition Schema (A : Type) : Type :=
  list PathSegment -> option json -> Parsed A.

(** The two shapes a field of the product schema may take besides a
    value: [.optional().nullable()]. *)
Inductive Nullish (A : Type) : Type :=
| Undefined
| Null
| Defined (a : A).
Arguments Undefined {A}.
Arguments Null {A}.
Arguments Defined {A} a.

Inductive OrderStatus : Type := completed | pending | cancelled.

Definition OrderStatus_string (s : OrderStatus) : string :=
  match s with
  | completed => "completed"
  | pending => "pending"
  | cancelled => "cancelled"
  end.

Section Zod.
Variable rt : Runtime.

(** [Array.prototype.join] with a comma, over parts that may throw: the
    first exception stops the join. *)
Fixpoint join (parts : list (Thrown + string)) : Thrown + string :=
  match parts with
  | [] => inr ""
  | p :: rest =>
      match p, rest with
      | inl e, _ => inl e
      | inr s, [] => inr s
      | inr s, _ :: _ =>
          match join rest with
          | inl e => inl e
          | inr t => inr (s ++ "," ++ t)%string
          end
      end
  end.

(** [String(value)] of a defined value.  An array joins its elements
    with commas, [null] elements giving the empty string.  A parsed
    object has no callable property of its own: with an own [toString]
    the conversion finds no method that yields a primitive and throws;
    without one it is the inherited "[object Object]". *)
Fixpoint ToString (value : json) : Thrown + string :=
  match value with
  | JNull => inr "null"
  | JBool b => inr (if b then "true" else "false")
  | JNumber n => inr (NumberToString rt n)
  | JString s => inr s
  | JArray l =>
      join (map (fun e => match e with JNull => inr "" | _ => ToString e end) l)
  | JObject o =>
      if has_own "toString" o
      then inl (TypeError "Cannot convert object to primitive value")
      else inr "[object Object]"
  end.

(** What a template literal puts for [${value}]. *)
Definition interpolate (value : option json) : Thrown + string :=
  match value with
  | None => inr "undefined"
  | Some v => ToString v
  end.

(** [Number(value)], the coercion behind [z.coerce.number()].  An array
    or an object is first converted to a string, which may throw;
    "[object Object]" is no number. *)
Definition Number (value : option json) : Thrown + number :=
  match value with
  | None => inr NaN
  | Some JNull => inr (num 0)
  | Some (JBool b) => inr (if b then num 1 else num 0)
  | Some (JNumber n) => inr n
  | Some (JString s) => inr (StringToNumber rt s)
  | Some (JArray l) =>
      match ToString (JArray l) with
      | inl e => inl e
      | inr s => inr (StringToNumber rt s)
      end
  | Some (JObject o) =>
      match ToString (JObject o) with
      | inl e => inl e
      | inr _ => inr NaN
      end
  end.

(** [z.coerce.number()]: coerce, then refuse NaN (as zod 3 does, the
    infinities pass; [.int()] refuses them). *)
Definition z_coerce_number : Schema number :=
  fun p value =>
    match Number value with
    | inl e => inl (Throws e)
    | inr n => if isNaN n then INVALID invalid_type "number" "nan" p else OK n
    end.

(** [z.coerce.number().int()] *)
Definition z_coerce_number_int : Schema number :=
  fun p value =>
    match z_coerce_number p value with
    | inl e => inl e
    | inr n => if isInteger n then OK n
               else INVALID invalid_type "integer" "float" p
    end.

(** [z.string()] *)
Definition z_string : Schema string :=
  fun p value =>
    match value with
    | Some (JString s) => OK s
    | _ => INVALID invalid_type "string" (parsedType value) p
    end.

(** [z.enum(['completed', 'pending', 'cancelled'])] *)
Definition z_enum_status : Schema OrderStatus :=
  fun p value =>
    match value with
    | Some (JString s) =>
        if String.eqb s "completed" then OK completed
        else if String.eqb s "pending" then OK pending
        else if String.eqb s "cancelled" then OK cancelled
        else INVALID invalid_enum_value "'completed' | 'pending' | 'cancelled'" s p
    | _ =>
        INVALID invalid_type "'completed' | 'pending' | 'cancelled'"
          (parsedType value) p
    end.

(** [.optional()]: [undefined] is accepted as it is, without coercion. *)
Definition optional {A : Type} (inner : Schema A) : Schema (option A) :=
  fun p value =>
    match value with
    | None => OK None
    | Some _ =>
        match inner p value with
        | inl e => inl e
        | inr a => OK (Some a)
        end
    end.

(** [.optional().nullable()] *)
Definition optional_nullable {A : Type} (inner : Schema A) : Schema (Nullish A) :=
  fun p value =>
    match value with
    | None => OK Undefined
    | Some JNull => OK Null
    | Some _ =>
        match inner p value with
        | inl e => inl e
        | inr a => OK (Defined a)
        end
    end.

(** [.optional().default(d)]: [undefined] is replaced by [d] before
    parsing, so that [.optional()] never meets [undefined]. *)
Definition optional_default {A : Type} (inner : Schema A) (d : json) : Schema A :=
  fun p value =>
    match value with
    | None => inner p (Some d)
    | Some _ => inner p value
    end.

(** The elements of an array, each at its index. *)
Fixpoint z_elements {A : Type} (element : Schema A) (p : list PathSegment)
    (i : nat) (l : list json) : Parsed (list A) :=
  match l with
  | [] => OK []
  | x :: rest =>
      OK cons <*> element (p ++ [Index i]) (Some x)
              <*> z_elements element p (S i) rest
  end.

(** [z.array(element)] *)
Definition z_array {A : Type} (element : Schema A) : Schema (list A) :=
  fun p value =>
    match value with
    | Some (JArray l) => z_elements element p 0%nat l
    | _ => INVALID invalid_type "array" (parsedType value) p
    end.

(** [z.object({...})]: the value must be an object; [keys] parses its
    keys. *)
Definition z_object {A : Type}
    (keys : list PathSegment -> list (string * json) -> Parsed A) : Schema A :=
  fun p value =>
    match value with
    | Some (JObject o) => keys p o
    | _ => INVALID invalid_type "object" (parsedType value) p
    end.

(** The value of key [k] of an object, parsed by [s] at [p ++ [k]]. *)
Definition field {A : Type} (p : list PathSegment)
    (o : list (string * json)) (k : string) (s : Schema A) : Parsed A :=
  s (p ++ [Key k]) (get k o).

(** [schema.safeParse(body)] *)
Definition safeParse {A : Type} (schema : Schema A) (body : json) : Parsed A :=
  schema [] (Some body).

(** [error.flatten()]: the messages of the issues without a path, and
    the messages of the others under the first segment of their path. *)
Definition segment_name (seg : PathSegment) : string :=
  match seg with
  | Key k => k
  | Index i => NilEmpty.string_of_uint (Nat.to_uint i)
  end.

Fixpoint push (key message : string) (fieldErrors : list (string * list string))
    : list (string * list string) :=
  match fieldErrors with
  | [] => [(key, [message])]
  | (k, messages) :: rest =>
      if String.eqb k key then (k, messages ++ [message]) :: rest
      else (k, messages) :: push key message rest
  end.

Fixpoint flatten_issues (issues : list ZodIssue)
    (formErrors : list string) (fieldErrors : list (string * list string))
    : list string * list (string * list string) :=
  match issues with
  | [] => (formErrors, fieldErrors)
  | sub :: rest =>
      match path sub with
      | [] => flatten_issues rest (formErrors ++ [errorMap rt sub]) fieldErrors
      | seg :: _ =>
          flatten_issues rest formErrors
            (push (segment_name seg) (errorMap rt sub) fieldErrors)
      end
  end.

Definition flatten (issues : list ZodIssue) : json :=
  let '(formErrors, fieldErrors) := flatten_issues issues [] [] in
  JObject
    [("formErrors", JArray (map JString formErrors));
     ("fieldErrors",
      JObject (map (fun '(k, ms) => (k, JArray (map JString ms))) fieldErrors))].
End Zod.

(** ** The two schemas *)

Module OrderSchema.
Record product : Type := {
  id : number;
  quantity : number;
  price : number
}.

Record data : Type := {
  customerId : number;
  paymentMethodId : option number;
  total : number;
  status : option OrderStatus;
  created_at : option string;
  products : list product
}.
End OrderSchema.

Module ProductSchema.
Record data : Type := {
  name : string;
  description : Nullish string;
  price : number;
  in_stock : number;
  category : Nullish string
}.
End ProductSchema.

Section Schemas.
Variable rt : Runtime.

Definition orderProductSchema : Schema OrderSchema.product :=
  z_object (fun p o =>
    OK OrderSchema.Build_product
      <*> field p o "id" (z_coerce_number rt)
      <*> field p o "quantity" (z_coerce_number_int rt)
      <*> field p o "price" (z_coerce_number rt)).

Definition orderSchema : Schema OrderSchema.data :=
  z_object (fun p o =>
    OK OrderSchema.Build_data
      <*> field p o "customerId" (z_coerce_number rt)
      <*> field p o "paymentMethodId" (optional (z_coerce_number rt))
      <*> field p o "total" (z_coerce_number rt)
      <*> field p o "status" (optional z_enum_status)
      <*> field p o "created_at" (optional z_string)
      <*> field p o "products"
            (optional_default (z_array orderProductSchema) (JArray []))).

Definition productSchema : Schema ProductSchema.data :=
  z_object (fun p o =>
    OK ProductSchema.Build_data
      <*> field p o "name" z_string
      <*> field p o "description" (optional_nullable z_string)
      <*> field p o "price" (z_coerce_number rt)
      <*> field p o "in_stock" (z_coerce_number_int rt)
      <*> field p o "category" (optional_nullable z_string)).
End Schemas.

(** ** The store *)

(** Modelled from the spec: the relational store is an external
    collaborator (the Supabase client of [@/lib/supabase/server]); the
    routes reach it through per-table insert, select with an equality
    filter and one embedded resource, and delete by equality.  Each call
    either reports an error and changes nothing, or succeeds and takes
    effect on its one table. *)

(** A row is the list of its columns. *)
Definition Row : Type := list (string * json).

Record Store : Type := {
  tables : string -> list Row;
  sequence : Z;
  now : string
}.

Definition set_table (table : string) (rows : list Row) (s : Store) : Store :=
  {| tables := fun t => if String.eqb t table then rows else tables s t;
     sequence := sequence s;
     now := now s |}.

(** Equality of two column values, as the filter [eq] decides it. *)
Definition value_eqb (a b : json) : bool :=
  match a, b with
  | JString x, JString y => String.eqb x y
  | JNumber x, JNumber y => number_eqb x y
  | JBool x, JBool y => Bool.eqb x y
  | _, _ => false
  end.

(** [.eq(column, value)]; no row matches [undefined]. *)
Definition eq (column : string) (value : option json) (r : Row) : bool :=
  match value, get column r with
  | Some v, Some c => value_eqb v c
  | _, _ => false
  end.

Definition is_defined (value : option json) : bool :=
  match value with Some _ => true | None => false end.

(** The row the store keeps for the values of an insert: orders and
    products get their identifier from the store, and an order without a
    [created_at] gets the store's current time. *)
Definition stored (table : string) (s : Store) (values : Row) : Row :=
  (if String.eqb table "orders" || String.eqb table "products"
   then [("id", JNumber (num (sequence s)))] else [])
  ++ values
  ++ (if String.eqb table "orders" && negb (is_defined (get "created_at" values))
      then [("created_at", JString (now s))] else []).

Definition insert_row (table : string) (values : Row) (s : Store) : Store :=
  {| tables := tables (set_table table (tables s table ++ [stored table s values]) s);
     sequence := sequence s + 1;
     now := now s |}.

Fixpoint insert_rows (table : string) (values : list Row) (s : Store) : Store :=
  match values with
  | [] => s
  | v :: rest => insert_rows table rest (insert_row table v s)
  end.

(** The rows kept for [values], in order. *)
Fixpoint inserted (table : string) (values : list Row) (s : Store) : list Row :=
  match values with
  | [] => []
  | v :: rest => stored table s v :: inserted table rest (insert_row table v s)
  end.

Definition delete_rows (table column : string) (value : option json) (s : Store) : Store :=
  set_table table (filter (fun r => negb (eq column value r)) (tables s table)) s.

Definition select_rows (table column : string) (value : option json) (s : Store) : list Row :=
  filter (eq column value) (tables s table).

(** The embedded resource [customer:customers(name)]: the name of the
    customer the row's [customer_id] refers to, or [null]. *)
Definition embed_customer (s : Store) (r : Row) : Row :=
  r ++ [("customer",
         match find (eq "id" (get "customer_id" r)) (tables s "customers") with
         | Some c =>
             JObject [("name", match get "name" c with Some n => n | None => JNull end)]
         | None => JNull
         end)].

(** The listed columns of a row. *)
Definition columns (names : list string) (r : Row) : Row :=
  flat_map (fun c => match get c r with Some v => [(c, v)] | None => [] end) names.

(** What a call on a table asked for, as the store sees it. *)
Inductive StoreCall : Type :=
| Insert (table : string) (values : list Row)
| Delete (table column : string) (value : option json)
| Select (table column : string) (value : option json).

(** The answer of the store client: [{ data, error }]. *)
Inductive Reply (A : Type) : Type :=
| Data (data : A)
| Error (message : string).
Arguments Data {A} data.
Arguments Error {A} message.

(** ** Handlers as computations *)

(** The world a handler runs in: the store, what the store will answer to
    the coming calls ([Some m]: it reports the error [m]; [None], or
    nothing left: it succeeds), and the calls made so far. *)
Record World : Type := {
  store : Store;
  faults : list (option string);
  calls : list StoreCall
}.

Definition Async (A : Type) : Type := World -> (Thrown + A) * World.

Definition ret {A : Type} (a : A) : Async A := fun w => (inr a, w).

Definition bind {A B : Type} (c : Async A) (k : A -> Async B) : Async B :=
  fun w =>
    match c w with
    | (inl e, w') => (inl e, w')
    | (inr a, w') => k a w'
    end.

Definition throw {A : Type} (e : Thrown) : Async A := fun w => (inl e, w).

Definition try_catch {A : Type} (body : Async A) (handler : Thrown -> Async A) : Async A :=
  fun w =>
    match body w with
    | (inl e, w') => handler e w'
    | (inr a, w') => (inr a, w')
    end.

Notation "x <- c ;; k" := (bind c (fun x => k))
  (at level 61, c at next level, right associativity).
Notation "c ;;; k" := (bind c (fun _ => k))
  (at level 61, right associativity).

(** The store's answer to the call that comes [k] calls from now. *)
Definition answer (k : nat) (w : World) : option string :=
  nth k (faults w) None.

(** The world after the call [c] left the store as [s]: the call is
    logged and the store's answer to it is consumed. *)
Definition after (c : StoreCall) (s : Store) (w : World) : World :=
  {| store := s; faults := tl (faults w); calls := calls w ++ [c] |}.

(** One call on a table: it is logged, consumes the store's next answer,
    and takes effect only when that answer is a success. *)
Definition perform {A : Type} (c : StoreCall)
    (effect : Store -> Store) (result : Store -> A) : Async (Reply A) :=
  fun w =>
    match answer 0 w with
    | Some m => (inr (Error m), after c (store w) w)
    | None => (inr (Data (result (store w))), after c (effect (store w)) w)
    end.

(** [supabase.from(table).insert(values)] *)
Definition insert (table : string) (values : list Row) : Async (Reply unit) :=
  perform (Insert table values) (insert_rows table values) (fun _ => tt).

(** [supabase.from(table).insert(values).select()] *)
Definition insert_select (table : string) (values : list Row) : Async (Reply (list Row)) :=
  perform (Insert table values) (insert_rows table values) (inserted table values).

(** [supabase.from('orders').insert(values).select('*, customer:customers(name)').single()] *)
Definition insert_select_customer_single (values : Row) : Async (Reply Row) :=
  perform (Insert "orders" [values]) (insert_row "orders" values)
    (fun s => embed_customer s (stored "orders" s values)).

(** [supabase.from(table).delete().eq(column, value)] *)
Definition delete_eq (table column : string) (value : option json) : Async (Reply unit) :=
  perform (Delete table column value) (delete_rows table column value) (fun _ => tt).

(** [supabase.from(table).select('*').eq(column, value)] *)
Definition select_eq (table column : string) (value : option json) : Async (Reply (list Row)) :=
  perform (Select table column value) (fun s => s) (select_rows table column value).

(** The select of GET /orders: six columns and the embedded customer. *)
Definition select_orders_eq (column : string) (value : option json) : Async (Reply (list Row)) :=
  perform (Select "orders" column value) (fun s => s)
    (fun s =>
       map (fun r =>
              embed_customer s
                (columns ["id"; "customer_id"; "total_amount"; "user_uid";
                          "status"; "created_at"] r))
           (select_rows "orders" column value s)).

(** ** Requests and responses *)

Module User.
Record t : Type := { id : string }.
End User.

(** A request: the user its credentials resolve to, if any, and what
    [request.json()] gives: the parsed body, or the error it throws. *)
Record Request : Type := {
  session : option User.t;
  json_body : string + json
}.

Record Response : Type := {
  status : Z;
  body : json
}.

(** [NextResponse.json(body, { status })]; the status is 200 when not given. *)
Definition NextResponse_json (b : json) (st : option Z) : Response :=
  {| status := match st with Some n => n | None => 200 end; body := b |}.

(** [supabase.auth.getUser()] *)
Definition auth_getUser (request : Request) : option User.t := session request.

(** [request.json()] *)
Definition request_json (request : Request) : Async json :=
  match json_body request with
  | inl m => throw (SyntaxError m)
  | inr b => ret b
  end.

(** [{ key: value }] as part of an object literal: a key whose value is
    [undefined] is not sent. *)
Definition prop (key : string) (value : option json) : Row :=
  match value with
  | Some v => [(key, v)]
  | None => []
  end.

Definition nullish (key : string) (value : Nullish string) : Row :=
  match value with
  | Undefined => []
  | Null => [(key, JNull)]
  | Defined s => [(key, JString s)]
  end.

Definition error_body (m : string) : json := JObject [("error", JString m)].

Definition Unauthorized : Response :=
  NextResponse_json (error_body "Unauthorized") (Some 401).

(** ** src/app/api/orders/route.ts *)

Section Routes.
Variable rt : Runtime.

Definition GET_orders (request : Request) : Async Response :=
  match auth_getUser request with
  | None => ret Unauthorized
  | Some user =>
      r <- select_orders_eq "user_uid" (Some (JString (User.id user))) ;;
      match r with
      | Error m => ret (NextResponse_json (error_body m) (Some 500))
      | Data data => ret (NextResponse_json (JArray (map JObject data)) None)
      end
  end.

(** The values of the order insert. *)
Definition order_values (user : User.t) (d : OrderSchema.data) : Row :=
  [("customer_id", JNumber (OrderSchema.customerId d));
   ("total_amount", JNumber (OrderSchema.total d));
   ("user_uid", JString (User.id user));
   ("status", JString (OrderStatus_string
                match OrderSchema.status d with
                | Some s => s
                | None => completed
                end))]
  ++ match OrderSchema.created_at d with
     | Some c => if truthy_string c then [("created_at", JString c)] else []
     | None => []
     end.

(** [products.map(...)] *)
Definition order_items (orderData : Row) (products : list OrderSchema.product)
    : list Row :=
  map (fun product =>
         prop "order_id" (get "id" orderData)
         ++ [("product_id", JNumber (OrderSchema.id product));
             ("quantity", JNumber (OrderSchema.quantity product));
             ("price", JNumber (OrderSchema.price product))])
      products.

(** The values of the transaction insert; the template literal of the
    description converts the identifier to a string, which may throw. *)
Definition transaction_values (user : User.t) (orderData : Row)
    (paymentMethodId total : number) : Thrown + Row :=
  match interpolate rt (get "id" orderData) with
  | inl e => inl e
  | inr id =>
      inr (prop "order_id" (get "id" orderData)
           ++ [("payment_method_id", JNumber paymentMethodId);
               ("amount", JNumber total);
               ("user_uid", JString (User.id user));
               ("status", JString "completed");
               ("category", JString "selling");
               ("type", JString "income");
               ("description", JString ("Payment for order #" ++ id)%string)])
  end.

(** The [try { ... } catch (error) { ... }] of POST: the Order Creation
    Workflow.  [if (paymentMethodId)] holds for a number that is there and
    is truthy. *)
Definition create_order (user : User.t) (d : OrderSchema.data) : Async Response :=
  try_catch
    (r <- insert_select_customer_single (order_values user d) ;;
     match r with
     | Error orderError => throw (PostgrestError orderError)
     | Data orderData =>
         let orderItems := order_items orderData (OrderSchema.products d) in
         (if (0 <? Z.of_nat (List.length orderItems))
          then
            r <- insert "order_items" orderItems ;;
            match r with
            | Error itemsError =>
                delete_eq "orders" "id" (get "id" orderData) ;;;
                throw (PostgrestError itemsError)
            | Data _ => ret tt
            end
          else ret tt) ;;;
         match OrderSchema.paymentMethodId d with
         | Some paymentMethodId =>
             if truthy_number paymentMethodId
             then
               match transaction_values user orderData paymentMethodId
                       (OrderSchema.total d) with
               | inl e => throw e
               | inr values =>
                   r <- insert "transactions" [values] ;;
                   match r with
                   | Error transactionError =>
                       delete_eq "orders" "id" (get "id" orderData) ;;;
                       (if (0 <? Z.of_nat (List.length orderItems))
                        then delete_eq "order_items" "order_id" (get "id" orderData) ;;;
                             ret tt
                        else ret tt) ;;;
                       throw (PostgrestError transactionError)
                   | Data _ => ret tt
                   end
               end
             else ret tt
         | None => ret tt
         end ;;;
         ret (NextResponse_json (JObject orderData) None)
     end)
    (fun error =>
       ret (NextResponse_json (error_body (message error)) (Some 500))).

Definition POST_orders (request : Request) : Async Response :=
  match auth_getUser request with
  | None => ret Unauthorized
  | Some user =>
      body <- request_json request ;;
      match safeParse (orderSchema rt) body with
      | inl (Throws e) => throw e
      | inl (Issues issues) =>
          ret (NextResponse_json
                 (JObject [("error", JString "Invalid request");
                           ("details", flatten rt issues)])
                 (Some 400))
      | inr d => create_order user d
      end
  end.

(** ** src/app/api/products/route.ts *)

Definition GET_products (request : Request) : Async Response :=
  match auth_getUser request with
  | None => ret Unauthorized
  | Some user =>
      r <- select_eq "products" "user_uid" (Some (JString (User.id user))) ;;
      match r with
      | Error m => ret (NextResponse_json (error_body m) (Some 500))
      | Data data => ret (NextResponse_json (JArray (map JObject data)) None)
      end
  end.

(** [{ ...newProduct, user_uid: user.id }] *)
Definition product_values (user : User.t) (newProduct : ProductSchema.data) : Row :=
  [("name", JString (ProductSchema.name newProduct))]
  ++ nullish "description" (ProductSchema.description newProduct)
  ++ [("price", JNumber (ProductSchema.price newProduct));
      ("in_stock", JNumber (ProductSchema.in_stock newProduct))]
  ++ nullish "category" (ProductSchema.category newProduct)
  ++ [("user_uid", JString (User.id user))].

Definition POST_products (request : Request) : Async Response :=
  match auth_getUser request with
  | None => ret Unauthorized
  | Some user =>
      body <- request_json request ;;
      match safeParse (productSchema rt) body with
      | inl (Throws e) => throw e
      | inl (Issues issues) =>
          ret (NextResponse_json
                 (JObject [("error", JString "Invalid request");
                           ("details", flatten rt issues)])
                 (Some 400))
      | inr newProduct =>
          r <- insert_select "products" [product_values user newProduct] ;;
          match r with
          | Error m => ret (NextResponse_json (error_body m) (Some 500))
          | Data data =>
              match data with
              | first :: _ => ret (NextResponse_json (JObject first) None)
              | [] => throw (TypeError "Value is not JSON serializable")
              end
          end
      end
  end.
End Routes.



(** ** The worlds the Order Creation Workflow goes through *)

(** The store after a call is attempted with the store's next answer. *)
Definition attempt (w : World) (effect : Store -> Store) : Store :=
  match answer 0 w with
  | Some _ => store w
  | None => effect (store w)
  end.

(** The world after the call [c] with effect [effect] is made in [w]. *)
Definition did (c : StoreCall) (effect : Store -> Store) (w : World) : World :=
  after c (attempt w effect) w.

Section WorkflowWorlds.
Variable rt : Runtime.
Variable user : User.t.
Variable d : OrderSchema.data.

(** The row the store keeps for the new order, what the insert returns,
    the identifier the store gave it, the rows of its items and of its
    transaction. *)
Definition new_order (s : Store) : Row :=
  stored "orders" s (order_values user d).

Definition orderData (s : Store) : Row :=
  embed_customer s (new_order s).

Definition order_id (s : Store) : option json :=
  Some (JNumber (num (sequence s))).

Definition orderItems (s : Store) : list Row :=
  order_items (orderData s) (OrderSchema.products d).

Definition transaction (s : Store) (paymentMethodId : number) : Row :=
  [("order_id", JNumber (num (sequence s)));
   ("payment_method_id", JNumber paymentMethodId);
   ("amount", JNumber (OrderSchema.total d));
   ("user_uid", JString (User.id user));
   ("status", JString "completed");
   ("category", JString "selling");
   ("type", JString "income");
   ("description",
    JString ("Payment for order #" ++ NumberToString rt (num (sequence s)))%string)].

(** How many calls insert the items: none when there are no products. *)
Definition item_calls : nat :=
  match OrderSchema.products d with
  | [] => 0
  | _ :: _ => 1
  end.

(** The world once the order is inserted. *)
Definition order_inserted (w : World) : World :=
  after (Insert "orders" [order_values user d])
        (insert_row "orders" (order_values user d) (store w)) w.

(** The world once the order and its items, if any, are inserted. *)
Definition items_inserted (w : World) : World :=
  match OrderSchema.products d with
  | [] => order_inserted w
  | _ :: _ =>
      after (Insert "order_items" (orderItems (store w)))
            (insert_rows "order_items" (orderItems (store w))
               (store (order_inserted w)))
            (order_inserted w)
  end.

(** The world once the transaction is inserted too. *)
Definition transaction_inserted (w : World) (paymentMethodId : number) : World :=
  after (Insert "transactions" [transaction (store w) paymentMethodId])
        (insert_rows "transactions" [transaction (store w) paymentMethodId]
           (store (items_inserted w)))
        (items_inserted w).

(** The world once the insert of the items has failed and the delete of
    the order has been attempted. *)
Definition items_refused (w : World) : World :=
  did (Delete "orders" "id" (order_id (store w)))
      (delete_rows "orders" "id" (order_id (store w)))
      (after (Insert "order_items" (orderItems (store w)))
             (store (order_inserted w)) (order_inserted w)).

(** The world once the insert of the transaction has failed: the delete
    of the order has been attempted and then, if there were items, the
    delete of the items. *)
Definition transaction_refused (w : World) (paymentMethodId : number) : World :=
  let order_deleted :=
    did (Delete "orders" "id" (order_id (store w)))
        (delete_rows "orders" "id" (order_id (store w)))
        (after (Insert "transactions" [transaction (store w) paymentMethodId])
               (store (items_inserted w)) (items_inserted w)) in
  match OrderSchema.products d with
  | [] => order_deleted
  | _ :: _ =>
      did (Delete "order_items" "order_id" (order_id (store w)))
          (delete_rows "order_items" "order_id" (order_id (store w)))
          order_deleted
  end.
End WorkflowWorlds.

(** Whether an optional number is truthy: it is there, and is neither 0
    nor NaN. *)
Definition truthy_optional (n : option number) : bool :=
  match n with
  | Some x => truthy_number x
  | None => false
  end.

(** The status of the response of a handler that returned one. *)
Definition status_of (r : Thrown + Response) : option Z :=
  match r with
  | inl _ => None
  | inr response => Some (status response)
  end.

(** The rows a handler returned: the objects of the array in the body of
    its response; none when it returned no array. *)
Definition listed (r : Thrown + Response) : list Row :=
  match r with
  | inr {| status := _; body := JArray elements |} =>
      flat_map (fun e => match e with JObject row => [row] | _ => [] end) elements
  | _ => []
  end.

(** The rows that the calls [cs] asked to insert into [transactions]. *)
Definition transaction_inserts (cs : list StoreCall) : list Row :=
  flat_map (fun c =>
              match c with
              | Insert table values =>
                  if String.eqb table "transactions" then values else []
              | _ => []
              end) cs.

(** A row whose quantity is an integer. *)
Definition integer_quantity (r : Row) : Prop :=
  exists q, get "quantity" r = Some (JNumber q) /\ isInteger q = true.

(** ** Rows, views and keys *)

(** The names of the columns of a row. *)
Definition keys (r : Row) : list string := map fst r.

(** The row the store keeps for a new product. *)
Definition product_row (s : Store) (user : User.t) (newProduct : ProductSchema.data) : Row :=
  stored "products" s (product_values user newProduct).

(** An order as GET /orders shows it: six columns and the customer. *)
Definition order_view (s : Store) (r : Row) : Row :=
  embed_customer s
    (columns ["id"; "customer_id"; "total_amount"; "user_uid"; "status"; "created_at"] r).

(** The names under which [flatten] files the issues that have a path. *)
Definition first_segments (issues : list ZodIssue) : list string :=
  flat_map (fun i => match path i with
                     | [] => []
                     | seg :: _ => [segment_name seg]
                     end) issues.

(** The issues without a path. *)
Definition form_issues (issues : list ZodIssue) : list ZodIssue :=
  filter (fun i => match path i with [] => true | _ :: _ => false end) issues.

(** The keys of the two schemas. *)
Definition order_keys : list string :=
  ["customerId"; "paymentMethodId"; "total"; "status"; "created_at"; "products"].

Definition product_keys : list string :=
  ["name"; "description"; "price"; "in_stock"; "category"].

(** The transaction rows the workflow adds for a payment method. *)
Definition new_transactions (rt : Runtime) (user : User.t) (d : OrderSchema.data)
    (s : Store) : list Row :=
  match OrderSchema.paymentMethodId d with
  | Some p => if truthy_number p then [transaction rt user d s p] else []
  | None => []
  end.

(** The row of the items table for one product of an order. *)
Definition item_row (order : option json) (product : OrderSchema.product) : Row :=
  prop "order_id" order
  ++ [("product_id", JNumber (OrderSchema.id product));
      ("quantity", JNumber (OrderSchema.quantity product));
      ("price", JNumber (OrderSchema.price product))].

(** The message [m] is filed under the key [k]. *)
Definition filed (fieldErrors : list (string * list string)) (k m : string) : Prop :=
  exists ms, In (k, ms) fieldErrors /\ In m ms.

(** The path of the issue is [p] or below it. *)
Definition under (p : list PathSegment) (i : ZodIssue) : Prop :=
  exists rest, path i = p ++ rest.

(** A returned failure reports at least one issue, and reports issues at
    [p] or below only. *)
Definition placed {A : Type} (p : list PathSegment) (r : Parsed A) : Prop :=
  match r with
  | inl (Issues e) => e <> [] /\ Forall (under p) e
  | _ => True
  end.

(** The path of the issue starts with one of the keys. *)
Definition keyed (ks : list string) (i : ZodIssue) : Prop :=
  exists k rest, path i = Key k :: rest /\ In k ks.

(** The issue of a body that is not an object. *)
Definition not_an_object (b : json) : ZodIssue :=
  {| code := invalid_type; expected := "object";
     received := parsedType (Some b); path := [] |}.

(** The issue of a key that does not hold what is expected. *)
Definition invalid_key (k e r : string) : ZodIssue :=
  {| code := invalid_type; expected := e; received := r; path := [Key k] |}.

(** The result is no acceptance, and if it is a list of issues, [i] is
    one of them. *)
Definition reports {A : Type} (i : ZodIssue) (r : Parsed A) : Prop :=
  match r with
  | inr _ => False
  | inl (Throws _) => True
  | inl (Issues e) => In i e
  end.

(** A returned failure reports at least one issue, and only issues whose
    path starts with one of the keys. *)
Definition all_keyed {A : Type} (ks : list string) (r : Parsed A) : Prop :=
  match r with
  | inl (Issues e) => e <> [] /\ Forall (keyed ks) e
  | _ => True
  end.

(** The call is an insert: neither a select nor a delete. *)
Definition is_insert (c : StoreCall) : Prop :=
  match c with
  | Insert _ _ => True
  | _ => False
  end.
(** ** A runtime for the examples

    The theorems hold for every runtime.  The examples need one: this
    one is right on integers, which is all the examples convert. *)

Definition example_StringToNumber (s : string) : number :=
  match NilZero.int_of_string s with
  | Some i => num (Z.of_int i)
  | None => NaN
  end.

Definition example_NumberToString (n : number) : string :=
  match n with
  | NaN => "NaN"
  | Infinity negative => if negative then "-Infinity" else "Infinity"
  | Finite q => NilZero.string_of_int (Z.to_int (Qnum q / Zpos (Qden q)))
  end.

(** zod's default messages. *)
Definition example_errorMap (i : ZodIssue) : string :=
  match code i with
  | invalid_type =>
      if String.eqb (received i) "undefined" then "Required"
      else ("Expected " ++ expected i ++ ", received " ++ received i)%string
  | invalid_enum_value =>
      ("Invalid enum value. Expected " ++ expected i ++ ", received '"
       ++ received i ++ "'")%string
  end.

Definition example_runtime : Runtime :=
  {| StringToNumber := example_StringToNumber;
     NumberToString := example_NumberToString;
     errorMap := example_errorMap |}.

Definition alice : User.t := {| User.id := "alice" |}.
Definition bob : User.t := {| User.id := "bob" |}.


(** A store with a customer, two orders and two products, of two users. *)
Definition shop : Store :=
  {| tables := fun t =>
       if String.eqb t "customers" then
         [[("id", JNumber (num 1)); ("name", JString "Carol")]]
       else if String.eqb t "orders" then
         [[("id", JNumber (num 1)); ("customer_id", JNumber (num 1));
           ("total_amount", JNumber (num 30)); ("user_uid", JString "alice");
           ("status", JString "completed");
           ("created_at", JString "2023-12-30T09:00:00Z")];
          [("id", JNumber (num 2)); ("customer_id", JNumber (num 1));
           ("total_amount", JNumber (num 12)); ("user_uid", JString "bob");
           ("status", JString "pending");
           ("created_at", JString "2023-12-31T09:00:00Z")]]
       else if String.eqb t "products" then
         [[("id", JNumber (num 5)); ("name", JString "tea");
           ("price", JNumber (num 5)); ("in_stock", JNumber (num 7));
           ("user_uid", JString "alice")];
          [("id", JNumber (num 6)); ("name", JString "mug");
           ("price", JNumber (num 9)); ("in_stock", JNumber (num 1));
           ("user_uid", JString "bob")]]
       else [];
     sequence := 3;
     now := "2024-01-01T00:00:00Z" |}.

(** The shop, with the answers the store will give. *)
Definition world (answers : list (option string)) : World :=
  {| store := shop; faults := answers; calls := [] |}.

Definition authenticated (user : User.t) (b : json) : Request :=
  {| session := Some user; json_body := inr b |}.

(** An order of two packets of tea, paid with payment method 2; the
    total comes as a string. *)
Definition order_body : json :=
  JObject
    [("customerId", JNumber (num 1));
     ("paymentMethodId", JNumber (num 2));
     ("total", JString "10");
     ("products",
      JArray [JObject [("id", JNumber (num 5)); ("quantity", JNumber (num 2));
                       ("price", JNumber (num 5))]])].

Definition order_data : OrderSchema.data :=
  {| OrderSchema.customerId := num 1;
     OrderSchema.paymentMethodId := Some (num 2);
     OrderSchema.total := num 10;
     OrderSchema.status := None;
     OrderSchema.created_at := None;
     OrderSchema.products :=
       [{| OrderSchema.id := num 5; OrderSchema.quantity := num 2;
           OrderSchema.price := num 5 |}] |}.

(** The row the shop keeps for this order. *)
Definition order_row : Row :=
  [("id", JNumber (num 3)); ("customer_id", JNumber (num 1));
   ("total_amount", JNumber (num 10)); ("user_uid", JString "alice");
   ("status", JString "completed");
   ("created_at", JString "2024-01-01T00:00:00Z")].

(** The same order with payment method 0. *)
Definition order_body_payment_zero : json :=
  JObject
    [("customerId", JNumber (num 1));
     ("paymentMethodId", JNumber (num 0));
     ("total", JNumber (num 10))].

Definition order_data_payment_zero : OrderSchema.data :=
  {| OrderSchema.customerId := num 1;
     OrderSchema.paymentMethodId := Some (num 0);
     OrderSchema.total := num 10;
     OrderSchema.status := None;
     OrderSchema.created_at := None;
     OrderSchema.products := [] |}.

(** An order whose [created_at] is the empty string, and one with a date. *)
Definition order_body_created_at (c : string) : json :=
  JObject
    [("customerId", JNumber (num 1));
     ("total", JNumber (num 10));
     ("status", JString "pending");
     ("created_at", JString c)].

Definition order_data_created_at (c : string) : OrderSchema.data :=
  {| OrderSchema.customerId := num 1;
     OrderSchema.paymentMethodId := None;
     OrderSchema.total := num 10;
     OrderSchema.status := Some pending;
     OrderSchema.created_at := Some c;
     OrderSchema.products := [] |}.

(** An order of minus one packet of tea. *)
Definition order_body_negative : json :=
  JObject
    [("customerId", JNumber (num 1));
     ("total", JNumber (num 10));
     ("products",
      JArray [JObject [("id", JNumber (num 5)); ("quantity", JNumber (num (-1)));
                       ("price", JNumber (num 5))]])].

Definition order_data_negative : OrderSchema.data :=
  {| OrderSchema.customerId := num 1;
     OrderSchema.paymentMethodId := None;
     OrderSchema.total := num 10;
     OrderSchema.status := None;
     OrderSchema.created_at := None;
     OrderSchema.products :=
       [{| OrderSchema.id := num 5; OrderSchema.quantity := num (-1);
           OrderSchema.price := num 5 |}] |}.

(** A product whose price is not a number. *)
Definition product_body_invalid : json :=
  JObject [("name", JString "tea"); ("price", JString "cheap");
           ("in_stock", JNumber (num 7))].

(** An order whose [customerId] is an object with a [toString] of its
    own. *)
Definition order_body_unconvertible : json :=
  JObject
    [("customerId", JObject [("toString", JNumber (num 1))]);
     ("total", JNumber (num 1))].

(** A product whose body also carries an [id] and somebody else's
    [user_uid]. *)
Definition product_body : json :=
  JObject
    [("name", JString "tea"); ("description", JNull); ("price", JString "5");
     ("in_stock", JNumber (num 7)); ("user_uid", JString "bob");
     ("id", JNumber (num 99))].

Definition product_data : ProductSchema.data :=
  {| ProductSchema.name := "tea";
     ProductSchema.description := Null;
     ProductSchema.price := num 5;
     ProductSchema.in_stock := num 7;
     ProductSchema.category := Undefined |}.

(** The row the shop keeps for this product when alice posts it. *)
Definition product_kept : Row :=
  [("id", JNumber (num 3)); ("name", JString "tea"); ("description", JNull);
   ("price", JNumber (num 5)); ("in_stock", JNumber (num 7));
   ("user_uid", JString "alice")].

(** The item the shop keeps for the example order. *)
Definition item_kept : Row :=
  [("order_id", JNumber (num 3)); ("product_id", JNumber (num 5));
   ("quantity", JNumber (num 2)); ("price", JNumber (num 5))].

(** The order of alice that the shop has from the start, as listed. *)
Definition order_listed : Row :=
  [("id", JNumber (num 1)); ("customer_id", JNumber (num 1));
   ("total_amount", JNumber (num 30)); ("user_uid", JString "alice");
   ("status", JString "completed");
   ("created_at", JString "2023-12-30T09:00:00Z");
   ("customer", JObject [("name", JString "Carol")])].

(** The example order, as listed once posted. *)
Definition order_posted_listed : Row :=
  [("id", JNumber (num 3)); ("customer_id", JNumber (num 1));
   ("total_amount", JNumber (num 10)); ("user_uid", JString "alice");
   ("status", JString "completed");
   ("created_at", JString "2024-01-01T00:00:00Z");
   ("customer", JObject [("name", JString "Carol")])].
(** ** The store's tables under insert and delete *)

Lemma tables_set_table_same table rows s :
  tables (set_table table rows s) table = rows.
Proof.
  unfold set_table. simpl. now rewrite String.eqb_refl.
Qed.

Lemma tables_set_table_other table rows s t :
  String.eqb t table = false ->
  tables (set_table table rows s) t = tables s t.
Proof.
  intros H. unfold set_table. simpl. now rewrite H.
Qed.

Lemma tables_insert_rows_other table values t :
  String.eqb t table = false ->
  forall s, tables (insert_rows table values s) t = tables s t.
Proof.
  intros H. induction values as [|v rest IH]; intros s; simpl.
  - reflexivity.
  - rewrite IH. simpl. now rewrite H.
Qed.

Lemma tables_insert_rows_same table values :
  forall s,
    tables (insert_rows table values s) table =
    tables s table ++ inserted table values s.
Proof.
  induction values as [|v rest IH]; intros s; simpl.
  - now rewrite app_nil_r.
  - rewrite IH. simpl. rewrite String.eqb_refl.
    now rewrite <- app_assoc.
Qed.

(** Order items and transactions are kept as they are given. *)
Lemma inserted_as_given table values :
  String.eqb table "orders" = false ->
  String.eqb table "products" = false ->
  forall s, inserted table values s = values.
Proof.
  intros Ho Hp. induction values as [|v rest IH]; intros s; simpl.
  - reflexivity.
  - rewrite IH. unfold stored. rewrite Ho, Hp. simpl.
    now rewrite app_nil_r.
Qed.

Lemma Qeq_bool_refl q : Qeq_bool q q = true.
Proof.
  apply Qeq_bool_iff. reflexivity.
Qed.

(** After a delete by equality, a select by the same equality finds
    nothing. *)
Lemma select_after_delete table column value s :
  select_rows table column value (delete_rows table column value s) = [].
Proof.
  unfold select_rows, delete_rows. rewrite tables_set_table_same.
  induction (tables s table) as [|r rows IH]; simpl.
  - reflexivity.
  - destruct (eq column value r) eqn:E; simpl.
    + exact IH.
    + rewrite E. exact IH.
Qed.

Lemma filter_none {A : Type} (f : A -> bool) (l : list A) :
  Forall (fun x => f x = false) l -> filter f l = [].
Proof.
  induction 1 as [|x l Hx _ IH]; simpl.
  - reflexivity.
  - now rewrite Hx.
Qed.


(** ** The Order Creation Workflow, path by path *)

Lemma answer_after k c s w : answer k (after c s w) = answer (S k) w.
Proof.
  unfold answer, after. simpl. destruct (faults w); destruct k; reflexivity.
Qed.

Lemma perform_Error {A : Type} c effect (result : Store -> A) w m :
  answer 0 w = Some m ->
  perform c effect result w = (inr (Error m), after c (store w) w).
Proof.
  intros H. unfold perform. now rewrite H.
Qed.

Lemma perform_Data {A : Type} c effect (result : Store -> A) w :
  answer 0 w = None ->
  perform c effect result w =
  (inr (Data (result (store w))), after c (effect (store w)) w).
Proof.
  intros H. unfold perform. now rewrite H.
Qed.

Lemma perform_did {A : Type} c effect (result : Store -> A) w :
  perform c effect result w =
  (inr match answer 0 w with
       | Some m => Error m
       | None => Data (result (store w))
       end,
   did c effect w).
Proof.
  unfold perform, did, attempt. destruct (answer 0 w); reflexivity.
Qed.

Lemma order_items_some orderData products :
  products <> [] ->
  (0 <? Z.of_nat (List.length (order_items orderData products))) = true.
Proof.
  intros H. unfold order_items. rewrite length_map.
  destruct products; [contradiction | reflexivity].
Qed.

Ltac answered :=
  repeat rewrite answer_after; simpl; auto; congruence.

Ltac reduce := cbv beta iota zeta.

Ltac splits := repeat match goal with |- _ /\ _ => split end.

Section Paths.
Variable rt : Runtime.
Variable user : User.t.
Variable d : OrderSchema.data.

(** The insert of the order fails. *)
Lemma create_order_insert_fails (w : World) (m : string) :
  answer 0 w = Some m ->
  create_order rt user d w =
  (inr (NextResponse_json (error_body m) (Some 500)),
   after (Insert "orders" [order_values user d]) (store w) w).
Proof.
  intros H.
  unfold create_order, try_catch, bind, insert_select_customer_single.
  rewrite (perform_Error _ _ _ _ _ H). reflexivity.
Qed.

(** The insert of the items fails. *)
Lemma create_order_items_fail (w : World) (m : string) :
  answer 0 w = None ->
  OrderSchema.products d <> [] ->
  answer 1 w = Some m ->
  create_order rt user d w =
  (inr (NextResponse_json (error_body m) (Some 500)), items_refused user d w).
Proof.
  intros H0 Hp H1.
  unfold create_order, try_catch, bind, insert_select_customer_single.
  rewrite (perform_Data _ _ _ _ H0). reduce.
  rewrite (order_items_some _ _ Hp).
  unfold insert at 1.
  rewrite (perform_Error _ _ _ _ m) by answered. reduce.
  unfold delete_eq. rewrite perform_did. reflexivity.
Qed.

(** The order and its items are inserted: what is left to run is the
    transaction step, from [items_inserted w]. *)
Ltac insert_order_and_items H0 H1 :=
  unfold create_order, try_catch, bind, ret, throw, insert_select_customer_single;
  rewrite (perform_Data _ _ _ _ H0); reduce;
  unfold transaction_inserted, transaction_refused, items_inserted, item_calls,
    transaction, orderItems, order_id, orderData, new_order in *;
  destruct (OrderSchema.products d) as [|product rest] eqn:Hproducts;
  [ change (0 <? Z.of_nat (List.length (order_items _ []))) with false; reduce
  | rewrite order_items_some by discriminate;
    unfold insert at 1;
    rewrite perform_Data by (rewrite answer_after; apply H1; discriminate);
    reduce ].

(** The insert of the transaction fails. *)
Lemma create_order_transaction_fails (w : World) (p : number) (m : string) :
  answer 0 w = None ->
  (OrderSchema.products d <> [] -> answer 1 w = None) ->
  OrderSchema.paymentMethodId d = Some p ->
  truthy_number p = true ->
  answer (S (item_calls d)) w = Some m ->
  create_order rt user d w =
  (inr (NextResponse_json (error_body m) (Some 500)),
   transaction_refused rt user d w p).
Proof.
  intros H0 H1 Hp Ht Hm.
  insert_order_and_items H0 H1;
    rewrite Hp, Ht;
    change (transaction_values rt user
              (embed_customer (store w)
                 (stored "orders" (store w) (order_values user d)))
              p (OrderSchema.total d))
      with (@inr Thrown Row (transaction rt user d (store w) p));
    reduce; unfold insert;
    rewrite (perform_Error _ _ _ _ m) by answered; reduce;
    unfold delete_eq; repeat (rewrite perform_did; reduce);
    reflexivity.
Qed.

(** Every insert succeeds, the transaction's included. *)
Lemma create_order_with_transaction (w : World) (p : number) :
  answer 0 w = None ->
  (OrderSchema.products d <> [] -> answer 1 w = None) ->
  OrderSchema.paymentMethodId d = Some p ->
  truthy_number p = true ->
  answer (S (item_calls d)) w = None ->
  create_order rt user d w =
  (inr (NextResponse_json (JObject (orderData user d (store w))) None),
   transaction_inserted rt user d w p).
Proof.
  intros H0 H1 Hp Ht Hm.
  insert_order_and_items H0 H1;
    rewrite Hp, Ht;
    change (transaction_values rt user
              (embed_customer (store w)
                 (stored "orders" (store w) (order_values user d)))
              p (OrderSchema.total d))
      with (@inr Thrown Row (transaction rt user d (store w) p));
    reduce; unfold insert;
    rewrite perform_Data by answered; reduce;
    reflexivity.
Qed.

(** The order and its items are inserted and there is no transaction
    step. *)
Lemma create_order_without_transaction (w : World) :
  answer 0 w = None ->
  (OrderSchema.products d <> [] -> answer 1 w = None) ->
  truthy_optional (OrderSchema.paymentMethodId d) = false ->
  create_order rt user d w =
  (inr (NextResponse_json (JObject (orderData user d (store w))) None),
   items_inserted user d w).
Proof.
  intros H0 H1 Ht.
  insert_order_and_items H0 H1;
    (destruct (OrderSchema.paymentMethodId d) as [p|];
     [simpl in Ht; rewrite Ht|]; reflexivity).
Qed.

End Paths.

(** ** The tables of the worlds of the workflow *)

Lemma POST_orders_valid rt request user b d w :
  session request = Some user ->
  json_body request = inr b ->
  safeParse (orderSchema rt) b = inr d ->
  POST_orders rt request w = create_order rt user d w.
Proof.
  intros Hs Hb Hp.
  unfold POST_orders, auth_getUser, request_json, bind.
  rewrite Hs, Hb. simpl. now rewrite Hp.
Qed.

Lemma filter_app_none {A : Type} (f : A -> bool) (l extra : list A) :
  Forall (fun x => f x = false) extra ->
  filter f (l ++ extra) = filter f l.
Proof.
  intros H. rewrite filter_app, (filter_none f extra H). apply app_nil_r.
Qed.

Section Worlds.
Variable rt : Runtime.
Variable user : User.t.
Variable d : OrderSchema.data.

Lemma new_order_id s : get "id" (new_order user d s) = order_id s.
Proof. reflexivity. Qed.

Lemma eq_new_order s : eq "id" (order_id s) (new_order user d s) = true.
Proof.
  unfold eq. rewrite new_order_id. simpl. apply Qeq_bool_refl.
Qed.

Lemma eq_orderItems s :
  Forall (fun r => eq "order_id" (order_id s) r = true) (orderItems user d s).
Proof.
  unfold orderItems, order_items. apply Forall_forall. intros r Hr.
  apply in_map_iff in Hr. destruct Hr as [product [<- _]].
  simpl. apply Qeq_bool_refl.
Qed.

(** Without the new order: the orders there were, but for those with the
    new order's identifier. *)
Lemma orders_without_new_order s :
  filter (fun r => negb (eq "id" (order_id s) r))
         (tables (insert_row "orders" (order_values user d) s) "orders") =
  filter (fun r => negb (eq "id" (order_id s) r)) (tables s "orders").
Proof.
  change (tables (insert_row "orders" (order_values user d) s) "orders")
    with (tables s "orders" ++ [new_order user d s]).
  apply filter_app_none. constructor; [|constructor].
  now rewrite eq_new_order.
Qed.

Lemma items_without_new_items s s' :
  tables s' "order_items" = tables s "order_items" ->
  filter (fun r => negb (eq "order_id" (order_id s) r))
         (tables (insert_rows "order_items" (orderItems user d s) s') "order_items") =
  filter (fun r => negb (eq "order_id" (order_id s) r)) (tables s "order_items").
Proof.
  intros H. rewrite tables_insert_rows_same, inserted_as_given by reflexivity.
  rewrite H. apply filter_app_none.
  eapply Forall_impl; [|apply eq_orderItems].
  intros r Hr. cbv beta in Hr. now rewrite Hr.
Qed.

Lemma orderItems_nil s :
  OrderSchema.products d = [] -> orderItems user d s = [].
Proof.
  intros H. unfold orderItems. now rewrite H.
Qed.

Lemma items_inserted_calls w :
  calls (items_inserted user d w) =
  calls w ++ Insert "orders" [order_values user d]
          :: match OrderSchema.products d with
             | [] => []
             | _ :: _ => [Insert "order_items" (orderItems user d (store w))]
             end.
Proof.
  unfold items_inserted, order_inserted.
  destruct (OrderSchema.products d); simpl.
  - reflexivity.
  - now rewrite <- app_assoc.
Qed.

Lemma items_inserted_orders w :
  tables (store (items_inserted user d w)) "orders" =
  tables (store w) "orders" ++ [new_order user d (store w)].
Proof.
  unfold items_inserted, order_inserted.
  destruct (OrderSchema.products d); cbn [store after].
  - reflexivity.
  - now rewrite tables_insert_rows_other by reflexivity.
Qed.

Lemma items_inserted_order_items w :
  tables (store (items_inserted user d w)) "order_items" =
  tables (store w) "order_items" ++ orderItems user d (store w).
Proof.
  unfold items_inserted, order_inserted.
  destruct (OrderSchema.products d) eqn:Hp; cbn [store after].
  - rewrite orderItems_nil by assumption. now rewrite app_nil_r.
  - now rewrite tables_insert_rows_same, inserted_as_given by reflexivity.
Qed.

Lemma items_inserted_transactions w :
  tables (store (items_inserted user d w)) "transactions" =
  tables (store w) "transactions".
Proof.
  unfold items_inserted, order_inserted.
  destruct (OrderSchema.products d); cbn [store after].
  - reflexivity.
  - now rewrite tables_insert_rows_other by reflexivity.
Qed.

(** The workflow takes one of five paths. *)
Lemma create_order_paths w :
  (exists m,
     answer 0 w = Some m /\
     create_order rt user d w =
     (inr (NextResponse_json (error_body m) (Some 500)),
      after (Insert "orders" [order_values user d]) (store w) w)) \/
  (exists m,
     answer 0 w = None /\ OrderSchema.products d <> [] /\
     answer 1 w = Some m /\
     create_order rt user d w =
     (inr (NextResponse_json (error_body m) (Some 500)),
      items_refused user d w)) \/
  (exists p m,
     OrderSchema.paymentMethodId d = Some p /\ truthy_number p = true /\
     answer (S (item_calls d)) w = Some m /\
     create_order rt user d w =
     (inr (NextResponse_json (error_body m) (Some 500)),
      transaction_refused rt user d w p)) \/
  (exists p,
     OrderSchema.paymentMethodId d = Some p /\ truthy_number p = true /\
     answer (S (item_calls d)) w = None /\
     create_order rt user d w =
     (inr (NextResponse_json (JObject (orderData user d (store w))) None),
      transaction_inserted rt user d w p)) \/
  (truthy_optional (OrderSchema.paymentMethodId d) = false /\
   create_order rt user d w =
   (inr (NextResponse_json (JObject (orderData user d (store w))) None),
    items_inserted user d w)).
Proof.
  destruct (answer 0 w) as [m|] eqn:H0.
  { left. exists m. split; [reflexivity|].
    now apply create_order_insert_fails. }
  right.
  assert (Hitems :
            (exists m, OrderSchema.products d <> [] /\ answer 1 w = Some m) \/
            (OrderSchema.products d <> [] -> answer 1 w = None)).
  { destruct (answer 1 w) as [m|] eqn:H1.
    - destruct (OrderSchema.products d) eqn:Hp.
      + right. intros H. now contradiction H.
      + left. exists m. split; [discriminate | reflexivity].
    - right. reflexivity. }
  destruct Hitems as [[m [Hp H1]] | H1].
  { left. exists m. repeat split; try assumption.
    now apply create_order_items_fail. }
  right.
  destruct (truthy_optional (OrderSchema.paymentMethodId d)) eqn:Ht.
  2:{ right. right. split; [reflexivity|].
      now apply create_order_without_transaction. }
  destruct (OrderSchema.paymentMethodId d) as [p|] eqn:Hp; [|discriminate].
  simpl in Ht.
  destruct (answer (S (item_calls d)) w) as [m|] eqn:Hm.
  - left. exists p, m. repeat split; try assumption.
    now apply create_order_transaction_fails.
  - right. left. exists p. repeat split; try assumption.
    now apply create_order_with_transaction.
Qed.

End Worlds.

(** ** The calls and the tables at the end of each path *)

Lemma transaction_inserts_app a b :
  transaction_inserts (a ++ b) = transaction_inserts a ++ transaction_inserts b.
Proof.
  apply flat_map_app.
Qed.

Lemma tables_attempt_delete_other table column value w t :
  String.eqb t table = false ->
  tables (attempt w (delete_rows table column value)) t = tables (store w) t.
Proof.
  intros H. unfold attempt. destruct (answer 0 w); [reflexivity|].
  unfold delete_rows. now apply tables_set_table_other.
Qed.

Lemma In_attempt_delete table column value w t r :
  In r (tables (attempt w (delete_rows table column value)) t) ->
  In r (tables (store w) t).
Proof.
  unfold attempt. destruct (answer 0 w); [auto|].
  unfold delete_rows, set_table. simpl.
  destruct (String.eqb t table) eqn:E; [|auto].
  apply String.eqb_eq in E. subst t.
  intros H. apply filter_In in H. tauto.
Qed.

Section Calls.
Variable rt : Runtime.
Variable user : User.t.
Variable d : OrderSchema.data.

Lemma items_refused_calls w :
  calls (items_refused user d w) =
  calls w ++ [Insert "orders" [order_values user d];
              Insert "order_items" (orderItems user d (store w));
              Delete "orders" "id" (order_id (store w))].
Proof.
  unfold items_refused, did, order_inserted. simpl.
  now rewrite <- !app_assoc.
Qed.

Lemma transaction_refused_calls w p :
  calls (transaction_refused rt user d w p) =
  calls (items_inserted user d w)
  ++ [Insert "transactions" [transaction rt user d (store w) p];
      Delete "orders" "id" (order_id (store w))]
  ++ match OrderSchema.products d with
     | [] => []
     | _ :: _ => [Delete "order_items" "order_id" (order_id (store w))]
     end.
Proof.
  unfold transaction_refused, did.
  destruct (OrderSchema.products d); simpl; now rewrite <- !app_assoc.
Qed.

Lemma transaction_refused_transactions w p :
  tables (store (transaction_refused rt user d w p)) "transactions" =
  tables (store w) "transactions".
Proof.
  unfold transaction_refused, did.
  destruct (OrderSchema.products d) eqn:Hp; cbn [store after];
    rewrite !tables_attempt_delete_other by reflexivity;
    cbn [store after did];
    rewrite ?tables_attempt_delete_other by reflexivity;
    cbn [store after]; apply items_inserted_transactions.
Qed.

Lemma transaction_inserted_transactions w p :
  tables (store (transaction_inserted rt user d w p)) "transactions" =
  tables (store w) "transactions" ++ [transaction rt user d (store w) p].
Proof.
  unfold transaction_inserted. cbn [store after].
  rewrite tables_insert_rows_same, inserted_as_given by reflexivity.
  now rewrite items_inserted_transactions.
Qed.

Lemma items_refused_tables w t :
  String.eqb t "orders" = false ->
  tables (store (items_refused user d w)) t = tables (store w) t.
Proof.
  intros H. unfold items_refused, did. cbn [store after].
  rewrite tables_attempt_delete_other by assumption.
  cbn [store after order_inserted]. simpl. now rewrite H.
Qed.

(** Whatever the path, the first call is the insert of the order. *)
Lemma create_order_first_call w :
  exists rest,
    calls (snd (create_order rt user d w)) =
    calls w ++ Insert "orders" [order_values user d] :: rest.
Proof.
  destruct (create_order_paths rt user d w)
    as [[m [_ ->]] | [[m [_ [_ [_ ->]]]] | [[p [m [_ [_ [_ ->]]]]]
        | [[p [_ [_ [_ ->]]]] | [_ ->]]]]]; cbn [snd].
  - now exists [].
  - rewrite items_refused_calls. eexists. reflexivity.
  - rewrite transaction_refused_calls, items_inserted_calls.
    rewrite <- app_assoc. eexists. reflexivity.
  - unfold transaction_inserted. cbn [calls after].
    rewrite items_inserted_calls, <- app_assoc. eexists. reflexivity.
  - rewrite items_inserted_calls. eexists. reflexivity.
Qed.

(** When the store reports no error, the order is kept. *)
Lemma create_order_keeps_order w :
  (forall k, answer k w = None) ->
  tables (store (snd (create_order rt user d w))) "orders" =
  tables (store w) "orders" ++ [new_order user d (store w)].
Proof.
  intros Hw.
  destruct (create_order_paths rt user d w)
    as [[m [H _]] | [[m [_ [_ [H _]]]] | [[p [m [_ [_ [H _]]]]]
        | [[p [_ [_ [_ ->]]]] | [_ ->]]]]]; cbn [snd];
    try (rewrite Hw in H; discriminate).
  - unfold transaction_inserted. cbn [store after].
    rewrite tables_insert_rows_other by reflexivity.
    apply items_inserted_orders.
  - apply items_inserted_orders.
Qed.

(** Whatever the path, an item in the store at the end was there at the
    start or is one of the items of the order. *)
Lemma create_order_items w r :
  In r (tables (store (snd (create_order rt user d w))) "order_items") ->
  In r (tables (store w) "order_items") \/ In r (orderItems user d (store w)).
Proof.
  destruct (create_order_paths rt user d w)
    as [[m [_ ->]] | [[m [_ [_ [_ ->]]]] | [[p [m [_ [_ [_ ->]]]]]
        | [[p [_ [_ [_ ->]]]] | [_ ->]]]]]; cbn [snd].
  - cbn [store after]. auto.
  - rewrite items_refused_tables by reflexivity. auto.
  - intros H. apply in_app_or. rewrite <- items_inserted_order_items.
    unfold transaction_refused, did in H.
    destruct (OrderSchema.products d); cbn [store after] in H;
      repeat (apply In_attempt_delete in H; cbn [store after] in H);
      exact H.
  - unfold transaction_inserted. cbn [store after].
    rewrite tables_insert_rows_other by reflexivity.
    rewrite items_inserted_order_items. apply in_app_or.
  - rewrite items_inserted_order_items. apply in_app_or.
Qed.

(** Without a truthy payment method no transaction is asked for, and the
    transactions stay as they were, whatever the path. *)
Lemma create_order_no_transaction w :
  truthy_optional (OrderSchema.paymentMethodId d) = false ->
  transaction_inserts (calls (snd (create_order rt user d w))) =
    transaction_inserts (calls w) /\
  tables (store (snd (create_order rt user d w))) "transactions" =
    tables (store w) "transactions".
Proof.
  intros Ht.
  destruct (create_order_paths rt user d w)
    as [[m [_ ->]] | [[m [_ [_ [_ ->]]]] | [[p [m [Hp [Hp' _]]]]
        | [[p [Hp [Hp' _]]] | [_ ->]]]]]; cbn [snd];
    try (rewrite Hp in Ht; simpl in Ht; congruence).
  - cbn [store after calls]. rewrite transaction_inserts_app. simpl.
    now rewrite app_nil_r.
  - rewrite items_refused_calls, items_refused_tables by reflexivity.
    rewrite transaction_inserts_app. simpl. now rewrite app_nil_r.
  - rewrite items_inserted_calls, items_inserted_transactions.
    rewrite transaction_inserts_app.
    destruct (OrderSchema.products d); simpl; now rewrite app_nil_r.
Qed.

End Calls.
(** ** The guard, the body and the validator *)

Section Guards.
Variable rt : Runtime.

Lemma ap_inl_l {A B : Type} (f : Parsed (A -> B)) (a : Parsed A) :
  (exists e, f = inl e) -> exists e', f <*> a = inl e'.
Proof.
  intros [e ->]. destruct e, a as [[|]|]; simpl; eauto.
Qed.

Lemma ap_inl_r {A B : Type} (f : Parsed (A -> B)) (a : Parsed A) :
  (exists e, a = inl e) -> exists e', f <*> a = inl e'.
Proof.
  intros [e ->]. destruct e, f as [[|]|]; simpl; eauto.
Qed.

Lemma ap_throws_l {A B : Type} (f : Parsed (A -> B)) (a : Parsed A) :
  (exists e, f = inl (Throws e)) -> exists e', f <*> a = inl (Throws e').
Proof.
  intros [e ->]. simpl. eauto.
Qed.

Lemma ap_throws_r {A B : Type} (f : Parsed (A -> B)) (a : Parsed A) :
  (exists e, a = inl (Throws e)) -> exists e', f <*> a = inl (Throws e').
Proof.
  intros [e ->]. destruct f as [[|]|]; simpl; eauto.
Qed.

Lemma z_coerce_number_NaN p value :
  Number rt value = inr NaN ->
  exists e, z_coerce_number rt p value = inl e.
Proof.
  intros H. unfold z_coerce_number. rewrite H. simpl. unfold INVALID. eauto.
Qed.

Lemma z_coerce_number_throws p value e :
  Number rt value = inl e ->
  exists e', z_coerce_number rt p value = inl (Throws e').
Proof.
  intros H. unfold z_coerce_number. rewrite H. eauto.
Qed.

(** A [total] that does not coerce to a number fails the order schema. *)
Lemma orderSchema_total_NaN o :
  Number rt (get "total" o) = inr NaN ->
  exists r, safeParse (orderSchema rt) (JObject o) = inl r.
Proof.
  intros H. unfold safeParse, orderSchema, z_object.
  apply ap_inl_l, ap_inl_l, ap_inl_l, ap_inl_r.
  unfold field. now apply z_coerce_number_NaN.
Qed.

(** A [price] that does not coerce to a number fails the product schema. *)
Lemma productSchema_price_NaN o :
  Number rt (get "price" o) = inr NaN ->
  exists r, safeParse (productSchema rt) (JObject o) = inl r.
Proof.
  intros H. unfold safeParse, productSchema, z_object.
  apply ap_inl_l, ap_inl_l, ap_inl_r.
  unfold field. now apply z_coerce_number_NaN.
Qed.

(** A [total] whose coercion throws makes the order schema throw. *)
Lemma orderSchema_total_throws o e :
  Number rt (get "total" o) = inl e ->
  exists e', safeParse (orderSchema rt) (JObject o) = inl (Throws e').
Proof.
  intros H. unfold safeParse, orderSchema, z_object.
  apply ap_throws_l, ap_throws_l, ap_throws_l, ap_throws_r.
  unfold field. eapply z_coerce_number_throws. exact H.
Qed.

(** A [price] whose coercion throws makes the product schema throw. *)
Lemma productSchema_price_throws o e :
  Number rt (get "price" o) = inl e ->
  exists e', safeParse (productSchema rt) (JObject o) = inl (Throws e').
Proof.
  intros H. unfold safeParse, productSchema, z_object.
  apply ap_throws_l, ap_throws_l, ap_throws_r.
  unfold field. eapply z_coerce_number_throws. exact H.
Qed.

(** The coercion of an object throws exactly when the object has a
    [toString] of its own. *)
Lemma Number_object o :
  Number rt (Some (JObject o)) =
  if has_own "toString" o
  then inl (TypeError "Cannot convert object to primitive value")
  else inr NaN.
Proof.
  unfold Number, ToString. now destruct (has_own "toString" o).
Qed.

Lemma flatten_shape issues :
  exists formErrors fieldErrors,
    flatten rt issues =
    JObject
      [("formErrors", JArray (map JString formErrors));
       ("fieldErrors",
        JObject (map (fun '(k, ms) => (k, JArray (map JString ms))) fieldErrors))].
Proof.
  unfold flatten. destruct (flatten_issues rt issues [] []) as [fo fi].
  exists fo, fi. reflexivity.
Qed.

Lemma POST_orders_parsed request user b w :
  session request = Some user ->
  json_body request = inr b ->
  POST_orders rt request w =
  match safeParse (orderSchema rt) b with
  | inl (Throws e) => (inl e, w)
  | inl (Issues issues) =>
      (inr {| status := 400;
              body := JObject [("error", JString "Invalid request");
                               ("details", flatten rt issues)] |}, w)
  | inr d => create_order rt user d w
  end.
Proof.
  intros Hs Hb. unfold POST_orders, auth_getUser, request_json, bind.
  rewrite Hs, Hb. simpl.
  destruct (safeParse (orderSchema rt) b) as [[issues|e]|d]; reflexivity.
Qed.

Lemma POST_products_parsed request user b w :
  session request = Some user ->
  json_body request = inr b ->
  forall r, safeParse (productSchema rt) b = inl r ->
  POST_products rt request w =
  match r with
  | Throws e => (inl e, w)
  | Issues issues =>
      (inr {| status := 400;
              body := JObject [("error", JString "Invalid request");
                               ("details", flatten rt issues)] |}, w)
  end.
Proof.
  intros Hs Hb r Hp. unfold POST_products, auth_getUser, request_json, bind.
  rewrite Hs, Hb. simpl. rewrite Hp. destruct r; reflexivity.
Qed.

(** C4. A request whose credentials resolve to no user gets, from each of
    the four handlers, the response 401 with the body
    [{ error: "Unauthorized" }]; the world is left as it was: no call on
    any table is made, and the body of the request is not read. *)
Theorem unauthenticated_is_401 (request : Request) (w : World) :
  session request = None ->
  status Unauthorized = 401 /\
  body Unauthorized = JObject [("error", JString "Unauthorized")] /\
  GET_orders request w = (inr Unauthorized, w) /\
  POST_orders rt request w = (inr Unauthorized, w) /\
  GET_products request w = (inr Unauthorized, w) /\
  POST_products rt request w = (inr Unauthorized, w).
Proof.
  intros H.
  unfold GET_orders, POST_orders, GET_products, POST_products, auth_getUser.
  rewrite H. repeat split; reflexivity.
Qed.

(** C10. For an authenticated POST whose body is not JSON, the error of
    [request.json()] leaves the handler as an exception: the handler
    returns no response at all (so neither a 400 nor a 500), in orders
    and in products alike, and no call on any table is made. *)
Theorem unparseable_body_is_thrown (request : Request) (user : User.t)
    (m : string) (w : World) :
  session request = Some user ->
  json_body request = inl m ->
  POST_orders rt request w = (inl (SyntaxError m), w) /\
  POST_products rt request w = (inl (SyntaxError m), w) /\
  (forall response, fst (POST_orders rt request w) <> inr response) /\
  (forall response, fst (POST_products rt request w) <> inr response).
Proof.
  intros Hs Hb.
  assert (Ho : POST_orders rt request w = (inl (SyntaxError m), w)).
  { unfold POST_orders, auth_getUser, request_json, bind.
    rewrite Hs, Hb. reflexivity. }
  assert (Hp : POST_products rt request w = (inl (SyntaxError m), w)).
  { unfold POST_products, auth_getUser, request_json, bind.
    rewrite Hs, Hb. reflexivity. }
  rewrite Ho, Hp. repeat split; simpl; intros; discriminate.
Qed.

(** C5 (amended). An authenticated POST whose body the schema rejects by
    returning issues (a schema violation, a value that coerces to NaN
    included) gets the response 400 with the body
    [{ error: "Invalid request", details }], where [details] is the
    flattened error: the messages per field.  When a coercion throws
    instead (the value at a coerced key is an object with a [toString]
    of its own), [safeParse] throws and the exception leaves the
    handler: there is no response.  In both cases no call on any table
    is made.  This holds for orders and for products. *)
Theorem invalid_body_is_400 (request : Request) (user : User.t)
    (b : json) (w : World) :
  session request = Some user ->
  json_body request = inr b ->
  (forall issues,
     safeParse (orderSchema rt) b = inl (Issues issues) ->
     POST_orders rt request w =
     (inr {| status := 400;
             body := JObject [("error", JString "Invalid request");
                              ("details", flatten rt issues)] |}, w)) /\
  (forall issues,
     safeParse (productSchema rt) b = inl (Issues issues) ->
     POST_products rt request w =
     (inr {| status := 400;
             body := JObject [("error", JString "Invalid request");
                              ("details", flatten rt issues)] |}, w)) /\
  (forall issues, exists formErrors fieldErrors,
     flatten rt issues =
     JObject
       [("formErrors", JArray (map JString formErrors));
        ("fieldErrors",
         JObject (map (fun '(k, ms) => (k, JArray (map JString ms))) fieldErrors))]) /\
  (forall e,
     safeParse (orderSchema rt) b = inl (Throws e) ->
     POST_orders rt request w = (inl e, w)) /\
  (forall e,
     safeParse (productSchema rt) b = inl (Throws e) ->
     POST_products rt request w = (inl e, w)) /\
  (forall o, b = JObject o -> Number rt (get "total" o) = inr NaN ->
     exists r, safeParse (orderSchema rt) b = inl r) /\
  (forall o, b = JObject o -> Number rt (get "price" o) = inr NaN ->
     exists r, safeParse (productSchema rt) b = inl r) /\
  (forall o e, b = JObject o -> Number rt (get "total" o) = inl e ->
     exists e', POST_orders rt request w = (inl e', w)) /\
  (forall o e, b = JObject o -> Number rt (get "price" o) = inl e ->
     exists e', POST_products rt request w = (inl e', w)) /\
  (forall o, Number rt (Some (JObject o)) =
             if has_own "toString" o
             then inl (TypeError "Cannot convert object to primitive value")
             else inr NaN).
Proof.
  intros Hs Hb. repeat match goal with |- _ /\ _ => split end.
  - intros issues Hp. rewrite (POST_orders_parsed _ _ _ _ Hs Hb). now rewrite Hp.
  - intros issues Hp. now rewrite (POST_products_parsed _ _ _ _ Hs Hb _ Hp).
  - apply flatten_shape.
  - intros e Hp. rewrite (POST_orders_parsed _ _ _ _ Hs Hb). now rewrite Hp.
  - intros e Hp. now rewrite (POST_products_parsed _ _ _ _ Hs Hb _ Hp).
  - intros o -> H. now apply orderSchema_total_NaN.
  - intros o -> H. now apply productSchema_price_NaN.
  - intros o e -> H. destruct (orderSchema_total_throws o e H) as [e' He'].
    exists e'. rewrite (POST_orders_parsed _ _ _ _ Hs Hb). now rewrite He'.
  - intros o e -> H. destruct (productSchema_price_throws o e H) as [e' He'].
    exists e'. now rewrite (POST_products_parsed _ _ _ _ Hs Hb _ He').
  - apply Number_object.
Qed.

End Guards.


(** ** Failures after the order is inserted *)

Section Compensation.
Variable rt : Runtime.

(** C2 (amended). When the insert of the items fails after the order was
    inserted, the handler asks the store to delete the order it has just
    inserted and answers 500 with the message of the error of the items
    insert; no item is kept.  When that delete succeeds, the order is
    gone: a select by its identifier finds no row, and the orders are
    those there were before.  (The answer of the delete is not looked
    at: when the delete fails the order stays.) *)
Theorem items_failure_deletes_order (request : Request) (user : User.t)
    (b : json) (d : OrderSchema.data) (m : string) (w : World) :
  session request = Some user ->
  json_body request = inr b ->
  safeParse (orderSchema rt) b = inr d ->
  answer 0 w = None ->
  OrderSchema.products d <> [] ->
  answer 1 w = Some m ->
  fst (POST_orders rt request w) =
    inr {| status := 500; body := JObject [("error", JString m)] |} /\
  calls (snd (POST_orders rt request w)) =
    calls w ++ [Insert "orders" [order_values user d];
                Insert "order_items" (orderItems user d (store w));
                Delete "orders" "id" (order_id (store w))] /\
  get "id" (new_order user d (store w)) = order_id (store w) /\
  tables (store (snd (POST_orders rt request w))) "order_items" =
    tables (store w) "order_items" /\
  (answer 2 w = None ->
   select_rows "orders" "id" (order_id (store w))
     (store (snd (POST_orders rt request w))) = [] /\
   tables (store (snd (POST_orders rt request w))) "orders" =
     filter (fun r => negb (eq "id" (order_id (store w)) r))
       (tables (store w) "orders")).
Proof.
  intros Hs Hb Hd H0 Hp H1.
  rewrite (POST_orders_valid _ _ _ _ _ _ Hs Hb Hd).
  rewrite (create_order_items_fail _ _ _ _ _ H0 Hp H1).
  unfold items_refused, did, attempt, order_inserted. rewrite !answer_after.
  cbn [fst snd store after calls]. splits.
  - reflexivity.
  - now rewrite <- !app_assoc.
  - reflexivity.
  - destruct (answer 2 w); reflexivity.
  - intros H. rewrite H. splits.
    + apply select_after_delete.
    + unfold delete_rows. rewrite tables_set_table_same.
      apply orders_without_new_order.
Qed.

(** C1 (amended). When the insert of the transaction fails after the
    order and its items, if any, were inserted, the handler asks the
    store to delete the order and then, if it had inserted items, the
    items of the order, and answers 500 with the message of the error of
    the transaction insert; no transaction is kept.  When the delete of
    the order succeeds, no order with that identifier is left; when the
    delete of the items succeeds, no item of that order is left; with no
    products, no item was inserted and the items are as they were.  (The
    answers of the deletes are not looked at: rows whose delete fails
    stay.) *)
Theorem transaction_failure_deletes_order_and_items (request : Request)
    (user : User.t) (b : json) (d : OrderSchema.data) (p : number)
    (m : string) (w : World) :
  session request = Some user ->
  json_body request = inr b ->
  safeParse (orderSchema rt) b = inr d ->
  answer 0 w = None ->
  (OrderSchema.products d <> [] -> answer 1 w = None) ->
  OrderSchema.paymentMethodId d = Some p ->
  truthy_number p = true ->
  answer (S (item_calls d)) w = Some m ->
  fst (POST_orders rt request w) =
    inr {| status := 500; body := JObject [("error", JString m)] |} /\
  calls (snd (POST_orders rt request w)) =
    calls w
    ++ [Insert "orders" [order_values user d]]
    ++ match OrderSchema.products d with
       | [] => []
       | _ :: _ => [Insert "order_items" (orderItems user d (store w))]
       end
    ++ [Insert "transactions" [transaction rt user d (store w) p];
        Delete "orders" "id" (order_id (store w))]
    ++ match OrderSchema.products d with
       | [] => []
       | _ :: _ => [Delete "order_items" "order_id" (order_id (store w))]
       end /\
  tables (store (snd (POST_orders rt request w))) "transactions" =
    tables (store w) "transactions" /\
  (answer (S (S (item_calls d))) w = None ->
   select_rows "orders" "id" (order_id (store w))
     (store (snd (POST_orders rt request w))) = [] /\
   tables (store (snd (POST_orders rt request w))) "orders" =
     filter (fun r => negb (eq "id" (order_id (store w)) r))
       (tables (store w) "orders")) /\
  (OrderSchema.products d <> [] ->
   answer 4 w = None ->
   select_rows "order_items" "order_id" (order_id (store w))
     (store (snd (POST_orders rt request w))) = [] /\
   tables (store (snd (POST_orders rt request w))) "order_items" =
     filter (fun r => negb (eq "order_id" (order_id (store w)) r))
       (tables (store w) "order_items")) /\
  (OrderSchema.products d = [] ->
   tables (store (snd (POST_orders rt request w))) "order_items" =
     tables (store w) "order_items").
Proof.
  intros Hs Hb Hd H0 H1 Hp Ht Hm.
  rewrite (POST_orders_valid _ _ _ _ _ _ Hs Hb Hd).
  rewrite (create_order_transaction_fails _ _ _ _ _ _ H0 H1 Hp Ht Hm).
  unfold transaction_refused, items_inserted, item_calls, did, attempt,
    order_inserted in *.
  cbn [fst snd]. split; [reflexivity|].
  destruct (OrderSchema.products d) as [|product rest] eqn:Hproducts;
    rewrite ?answer_after; cbn [store after calls]; splits.
  - now rewrite <- !app_assoc.
  - destruct (answer 2 w); reflexivity.
  - intros H. rewrite H. splits.
    + apply select_after_delete.
    + unfold delete_rows. rewrite tables_set_table_same.
      apply orders_without_new_order.
  - intros Hne. now contradiction Hne.
  - intros _. destruct (answer 2 w); reflexivity.
  - now rewrite <- !app_assoc.
  - destruct (answer 4 w), (answer 3 w); unfold delete_rows;
      rewrite ?tables_set_table_other by reflexivity;
      now rewrite tables_insert_rows_other by reflexivity.
  - intros H. rewrite H.
    assert (E : forall s,
               tables (delete_rows "order_items" "order_id" (order_id (store w)) s)
                 "orders" = tables s "orders") by reflexivity.
    splits.
    + unfold select_rows.
      destruct (answer 4 w); rewrite ?E;
        apply (select_after_delete "orders").
    + destruct (answer 4 w); rewrite ?E;
        unfold delete_rows; rewrite tables_set_table_same;
        rewrite tables_insert_rows_other by reflexivity;
        apply orders_without_new_order.
  - intros _ H. rewrite H. splits.
    + apply select_after_delete.
    + unfold delete_rows at 1. rewrite tables_set_table_same.
      assert (E : forall s,
                 tables (delete_rows "orders" "id" (order_id (store w)) s)
                   "order_items" = tables s "order_items") by reflexivity.
      destruct (answer 3 w); rewrite ?E;
        apply items_without_new_items; reflexivity.
  - discriminate.
Qed.

End Compensation.

(** ** What the order schema lets through *)

Section Accepted.
Variable rt : Runtime.

Lemma ap_inr {A B : Type} (f : Parsed (A -> B)) (a : Parsed A) (y : B) :
  f <*> a = inr y -> exists g x, f = inr g /\ a = inr x /\ y = g x.
Proof.
  destruct f as [[e|e]|g], a as [[e'|e']|x]; simpl; intros H; try discriminate.
  injection H as <-. now exists g, x.
Qed.

Lemma z_coerce_number_int_inr p value n :
  z_coerce_number_int rt p value = inr n -> isInteger n = true.
Proof.
  unfold z_coerce_number_int.
  destruct (z_coerce_number rt p value) as [e|x]; [discriminate|].
  destruct (isInteger x) eqn:E; [|discriminate].
  intros H. injection H as <-. exact E.
Qed.

Lemma orderProductSchema_inr p value product :
  orderProductSchema rt p value = inr product ->
  isInteger (OrderSchema.quantity product) = true.
Proof.
  unfold orderProductSchema, z_object.
  destruct value as [[| | | | |o]|]; try discriminate.
  intros H.
  apply ap_inr in H. destruct H as [g3 [price [H [_ ->]]]].
  apply ap_inr in H. destruct H as [g2 [quantity [H [Hq ->]]]].
  apply ap_inr in H. destruct H as [g1 [id [H [_ ->]]]].
  injection H as <-. simpl.
  eapply z_coerce_number_int_inr. exact Hq.
Qed.

Lemma z_elements_orderProductSchema_inr p l :
  forall i products,
    z_elements (orderProductSchema rt) p i l = inr products ->
    Forall (fun product => isInteger (OrderSchema.quantity product) = true) products.
Proof.
  induction l as [|x rest IH]; intros i products H; cbn [z_elements] in H.
  - injection H as <-. constructor.
  - apply ap_inr in H. destruct H as [g [tail [H [Htail ->]]]].
    apply ap_inr in H. destruct H as [g0 [product [H [Hproduct ->]]]].
    injection H as <-. constructor.
    + eapply orderProductSchema_inr. exact Hproduct.
    + eapply IH. exact Htail.
Qed.

(** Every product of a body that the order schema accepts has an integer
    quantity. *)
Lemma orderSchema_inr b d :
  safeParse (orderSchema rt) b = inr d ->
  Forall (fun product => isInteger (OrderSchema.quantity product) = true)
    (OrderSchema.products d).
Proof.
  unfold safeParse, orderSchema, z_object.
  destruct b as [| | | | |o]; try discriminate.
  intros H.
  apply ap_inr in H. destruct H as [g [products [H [Hproducts ->]]]].
  do 5 (apply ap_inr in H; destruct H as [? [? [H [_ ->]]]]).
  injection H as <-. simpl.
  unfold field, optional_default, z_array in Hproducts.
  destruct (get "products" o) as [[| | | |l|]|]; try discriminate.
  - eapply z_elements_orderProductSchema_inr. exact Hproducts.
  - simpl in Hproducts. injection Hproducts as <-. constructor.
Qed.

Lemma order_items_integer orderData products :
  Forall (fun product => isInteger (OrderSchema.quantity product) = true) products ->
  Forall integer_quantity (order_items orderData products).
Proof.
  intros H. unfold order_items. apply Forall_map.
  eapply Forall_impl; [|exact H].
  intros product Hq. exists (OrderSchema.quantity product). split; [|exact Hq].
  destruct (get "id" orderData); reflexivity.
Qed.

End Accepted.

(** ** What the workflow inserts *)

Section Inserted.
Variable rt : Runtime.

(** C3 (amended). For a valid payload whose [paymentMethodId] is a number
    other than zero, once the order and its items are inserted the
    handler asks for exactly one transaction: it refers to the new order
    and to the authenticated user, its amount is the total of the order,
    its status, category and type are "completed", "selling" and
    "income", and its description is "Payment for order #" followed by
    the identifier of the order; when that insert succeeds, exactly that
    row is added to the transactions.  When [paymentMethodId] is absent,
    or is zero, no transaction is asked for and the transactions stay as
    they were. *)
Theorem transaction_for_truthy_payment_method (request : Request)
    (user : User.t) (b : json) (d : OrderSchema.data) (w : World) :
  session request = Some user ->
  json_body request = inr b ->
  safeParse (orderSchema rt) b = inr d ->
  (forall p,
     OrderSchema.paymentMethodId d = Some p ->
     truthy_number p = true ->
     answer 0 w = None ->
     (OrderSchema.products d <> [] -> answer 1 w = None) ->
     transaction_inserts (calls (snd (POST_orders rt request w))) =
       transaction_inserts (calls w) ++ [transaction rt user d (store w) p] /\
     transaction rt user d (store w) p =
       [("order_id", JNumber (num (sequence (store w))));
        ("payment_method_id", JNumber p);
        ("amount", JNumber (OrderSchema.total d));
        ("user_uid", JString (User.id user));
        ("status", JString "completed");
        ("category", JString "selling");
        ("type", JString "income");
        ("description",
         JString ("Payment for order #"
                  ++ NumberToString rt (num (sequence (store w))))%string)] /\
     (answer (S (item_calls d)) w = None ->
      status_of (fst (POST_orders rt request w)) = Some 200 /\
      tables (store (snd (POST_orders rt request w))) "transactions" =
        tables (store w) "transactions" ++ [transaction rt user d (store w) p])) /\
  (truthy_optional (OrderSchema.paymentMethodId d) = false ->
   transaction_inserts (calls (snd (POST_orders rt request w))) =
     transaction_inserts (calls w) /\
   tables (store (snd (POST_orders rt request w))) "transactions" =
     tables (store w) "transactions").
Proof.
  intros Hs Hb Hd.
  rewrite (POST_orders_valid _ _ _ _ _ _ Hs Hb Hd). split.
  - intros p Hp Ht H0 H1. splits.
    + destruct (answer (S (item_calls d)) w) as [m|] eqn:Hm.
      * rewrite (create_order_transaction_fails _ _ _ _ _ _ H0 H1 Hp Ht Hm).
        cbn [snd]. rewrite transaction_refused_calls, items_inserted_calls.
        rewrite !transaction_inserts_app.
        destruct (OrderSchema.products d); simpl; now rewrite !app_nil_r.
      * rewrite (create_order_with_transaction _ _ _ _ _ H0 H1 Hp Ht Hm).
        cbn [snd]. unfold transaction_inserted. cbn [calls after].
        rewrite items_inserted_calls, !transaction_inserts_app.
        destruct (OrderSchema.products d); simpl; now rewrite !app_nil_r.
    + reflexivity.
    + intros Hm.
      rewrite (create_order_with_transaction _ _ _ _ _ H0 H1 Hp Ht Hm).
      cbn [fst snd]. split; [reflexivity|].
      apply transaction_inserted_transactions.
  - now apply create_order_no_transaction.
Qed.

(** C6. For an authenticated POST /orders whose body is valid, the
    values of the order insert, and the row the store keeps for them,
    have the identity of the caller as [user_uid] and, as [status],
    "completed" when the payload has no status and the status of the
    payload otherwise; this insert is the first call of the handler, and
    the row is kept when the store reports no error.  When this insert
    fails, the response is 500 with the message of its error, the store
    is as it was, and the handler makes no other call: no delete. *)
Theorem order_insert_user_and_status (request : Request)
    (user : User.t) (b : json) (d : OrderSchema.data) (w : World) :
  session request = Some user ->
  json_body request = inr b ->
  safeParse (orderSchema rt) b = inr d ->
  (exists rest,
     calls (snd (POST_orders rt request w)) =
     calls w ++ Insert "orders" [order_values user d] :: rest) /\
  get "user_uid" (order_values user d) = Some (JString (User.id user)) /\
  (OrderSchema.status d = None ->
   get "status" (order_values user d) = Some (JString "completed")) /\
  (forall s, OrderSchema.status d = Some s ->
   get "status" (order_values user d) = Some (JString (OrderStatus_string s))) /\
  (forall s,
     get "user_uid" (new_order user d s) = get "user_uid" (order_values user d) /\
     get "status" (new_order user d s) = get "status" (order_values user d)) /\
  ((forall k, answer k w = None) ->
   tables (store (snd (POST_orders rt request w))) "orders" =
     tables (store w) "orders" ++ [new_order user d (store w)]) /\
  (forall m, answer 0 w = Some m ->
   fst (POST_orders rt request w) =
     inr {| status := 500; body := JObject [("error", JString m)] |} /\
   store (snd (POST_orders rt request w)) = store w /\
   calls (snd (POST_orders rt request w)) =
     calls w ++ [Insert "orders" [order_values user d]]).
Proof.
  intros Hs Hb Hd.
  rewrite (POST_orders_valid _ _ _ _ _ _ Hs Hb Hd). splits.
  - apply create_order_first_call.
  - reflexivity.
  - intros H. unfold order_values. now rewrite H.
  - intros s H. unfold order_values. now rewrite H.
  - intros s. split; reflexivity.
  - apply create_order_keeps_order.
  - intros m H0. rewrite (create_order_insert_fails _ _ _ _ _ H0).
    splits; reflexivity.
Qed.

(** C7 (amended). For a valid POST /orders payload whose [created_at] is
    a string other than the empty one, the values of the order insert,
    and the row the store keeps for them, have the caller's value as
    [created_at].  When [created_at] is absent, or is the empty string,
    the values have no [created_at] and the row has the time of the
    store.  The insert is the first call of the handler, and the row is
    kept when the store reports no error. *)
Theorem order_created_at (request : Request)
    (user : User.t) (b : json) (d : OrderSchema.data) (w : World) :
  session request = Some user ->
  json_body request = inr b ->
  safeParse (orderSchema rt) b = inr d ->
  (exists rest,
     calls (snd (POST_orders rt request w)) =
     calls w ++ Insert "orders" [order_values user d] :: rest) /\
  ((forall k, answer k w = None) ->
   tables (store (snd (POST_orders rt request w))) "orders" =
     tables (store w) "orders" ++ [new_order user d (store w)]) /\
  (forall c, OrderSchema.created_at d = Some c -> c <> "" ->
   get "created_at" (order_values user d) = Some (JString c) /\
   forall s, get "created_at" (new_order user d s) = Some (JString c)) /\
  (OrderSchema.created_at d = None \/ OrderSchema.created_at d = Some "" ->
   get "created_at" (order_values user d) = None /\
   forall s, get "created_at" (new_order user d s) = Some (JString (now s))).
Proof.
  intros Hs Hb Hd.
  rewrite (POST_orders_valid _ _ _ _ _ _ Hs Hb Hd). splits.
  - apply create_order_first_call.
  - apply create_order_keeps_order.
  - intros c Hc Hne. unfold new_order, order_values. rewrite Hc.
    destruct c as [|a c]; [contradiction|]. split; [reflexivity|].
    intros s. reflexivity.
  - intros Hc. unfold new_order, order_values.
    destruct Hc as [-> | ->]; split; try reflexivity; intros s; reflexivity.
Qed.

(** C8 (amended). The order schema accepts a products entry only if its
    quantity is an integer, negative ones included; every item the Order
    Creation Workflow adds to the store is a row made from such an
    entry, and so has an integer quantity. *)
Theorem order_items_have_integer_quantity (request : Request)
    (user : User.t) (b : json) (d : OrderSchema.data) (w : World) :
  session request = Some user ->
  json_body request = inr b ->
  safeParse (orderSchema rt) b = inr d ->
  Forall (fun product => isInteger (OrderSchema.quantity product) = true)
    (OrderSchema.products d) /\
  Forall integer_quantity (orderItems user d (store w)) /\
  (forall r,
     In r (tables (store (snd (POST_orders rt request w))) "order_items") ->
     In r (tables (store w) "order_items") \/
     (In r (orderItems user d (store w)) /\ integer_quantity r)).
Proof.
  intros Hs Hb Hd.
  rewrite (POST_orders_valid _ _ _ _ _ _ Hs Hb Hd).
  pose proof (orderSchema_inr rt b d Hd) as Hq.
  pose proof (order_items_integer (orderData user d (store w)) _ Hq) as Hi.
  splits.
  - exact Hq.
  - exact Hi.
  - intros r Hr. apply create_order_items in Hr.
    destruct Hr as [Hr | Hr]; [now left | right].
    split; [exact Hr|].
    eapply Forall_forall in Hi; [exact Hi | exact Hr].
Qed.

End Inserted.

(** ** The read paths *)

Lemma eq_string_get column s r :
  eq column (Some (JString s)) r = true -> get column r = Some (JString s).
Proof.
  unfold eq. destruct (get column r) as [[| | |s'| |]|]; simpl; try discriminate.
  intros H. apply String.eqb_eq in H. now subst.
Qed.

Lemma get_columns_None names r k :
  get k r = None -> get k (columns names r) = None.
Proof.
  intros H. unfold columns.
  induction names as [|a names IH]; simpl; [reflexivity|].
  destruct (get a r) as [v|] eqn:E; simpl; [|exact IH].
  destruct (String.eqb a k) eqn:Eak; [|exact IH].
  apply String.eqb_eq in Eak. congruence.
Qed.

Lemma get_columns names r k :
  In k names -> get k (columns names r) = get k r.
Proof.
  unfold columns.
  induction names as [|a names IH]; simpl; [contradiction|].
  intros Hin.
  destruct (get a r) as [v|] eqn:E; simpl.
  - destruct (String.eqb a k) eqn:Eak.
    + apply String.eqb_eq in Eak. congruence.
    + destruct Hin as [->|Hin]; [|now apply IH].
      now rewrite String.eqb_refl in Eak.
  - destruct Hin as [->|Hin]; [|now apply IH].
    rewrite E. now apply get_columns_None.
Qed.

Lemma get_app_Some k (r extra : Row) v :
  get k r = Some v -> get k (r ++ extra) = Some v.
Proof.
  induction r as [|[k' v'] r IH]; simpl; [discriminate|].
  destruct (String.eqb k' k); auto.
Qed.

Lemma listed_data data st :
  listed (inr (NextResponse_json (JArray (map JObject data)) st)) = data.
Proof.
  unfold listed, NextResponse_json.
  induction data as [|row data IH]; simpl; [reflexivity|].
  now rewrite IH.
Qed.

Lemma GET_orders_run request user w :
  session request = Some user ->
  GET_orders request w =
  (inr match answer 0 w with
       | Some m => NextResponse_json (error_body m) (Some 500)
       | None =>
           NextResponse_json
             (JArray
                (map JObject
                   (map (fun r =>
                           embed_customer (store w)
                             (columns ["id"; "customer_id"; "total_amount";
                                       "user_uid"; "status"; "created_at"] r))
                        (select_rows "orders" "user_uid"
                           (Some (JString (User.id user))) (store w)))))
             None
       end,
   after (Select "orders" "user_uid" (Some (JString (User.id user)))) (store w) w).
Proof.
  intros Hs. unfold GET_orders, auth_getUser. rewrite Hs.
  unfold bind, select_orders_eq. rewrite perform_did.
  unfold did, attempt. destruct (answer 0 w); reflexivity.
Qed.

Lemma GET_products_run request user w :
  session request = Some user ->
  GET_products request w =
  (inr match answer 0 w with
       | Some m => NextResponse_json (error_body m) (Some 500)
       | None =>
           NextResponse_json
             (JArray
                (map JObject
                   (select_rows "products" "user_uid"
                      (Some (JString (User.id user))) (store w))))
             None
       end,
   after (Select "products" "user_uid" (Some (JString (User.id user)))) (store w) w).
Proof.
  intros Hs. unfold GET_products, auth_getUser. rewrite Hs.
  unfold bind, select_eq. rewrite perform_did.
  unfold did, attempt. destruct (answer 0 w); reflexivity.
Qed.

(** What GET /orders returns to a caller. *)
Lemma GET_orders_listed request user w row :
  session request = Some user ->
  In row (listed (fst (GET_orders request w))) ->
  get "user_uid" row = Some (JString (User.id user)) /\
  exists r,
    In r (tables (store w) "orders") /\
    get "user_uid" r = Some (JString (User.id user)) /\
    row = embed_customer (store w)
            (columns ["id"; "customer_id"; "total_amount"; "user_uid";
                      "status"; "created_at"] r).
Proof.
  intros Hs. rewrite (GET_orders_run _ _ _ Hs). cbn [fst].
  destruct (answer 0 w); [contradiction|].
  rewrite listed_data. intros Hrow.
  apply in_map_iff in Hrow. destruct Hrow as [r [<- Hr]].
  apply filter_In in Hr. destruct Hr as [Hr Hu].
  apply eq_string_get in Hu. split.
  - apply get_app_Some. rewrite get_columns by (simpl; tauto). exact Hu.
  - exists r. auto.
Qed.

(** What GET /products returns to a caller. *)
Lemma GET_products_listed request user w row :
  session request = Some user ->
  In row (listed (fst (GET_products request w))) ->
  get "user_uid" row = Some (JString (User.id user)) /\
  In row (tables (store w) "products").
Proof.
  intros Hs. rewrite (GET_products_run _ _ _ Hs). cbn [fst].
  destruct (answer 0 w); [contradiction|].
  rewrite listed_data. intros Hrow.
  apply filter_In in Hrow. destruct Hrow as [Hr Hu].
  apply eq_string_get in Hu. auto.
Qed.

(** C9. For an authenticated caller, every row that GET /orders returns
    is made from a row of [orders] whose [user_uid] is the identity of
    the caller, and carries that [user_uid]; every row that GET
    /products returns is a row of [products] whose [user_uid] is the
    identity of the caller.  So no row returned to a caller has the
    [user_uid] of a user with another identity, and no row is returned
    both to this caller and to a caller with another identity, whatever
    the store is then.  Neither handler changes the store. *)
Theorem lists_only_rows_of_caller (request : Request) (user : User.t) (w : World) :
  session request = Some user ->
  (forall row, In row (listed (fst (GET_orders request w))) ->
     get "user_uid" row = Some (JString (User.id user)) /\
     exists r,
       In r (tables (store w) "orders") /\
       get "user_uid" r = Some (JString (User.id user)) /\
       row = embed_customer (store w)
               (columns ["id"; "customer_id"; "total_amount"; "user_uid";
                         "status"; "created_at"] r)) /\
  (forall row, In row (listed (fst (GET_products request w))) ->
     get "user_uid" row = Some (JString (User.id user)) /\
     In row (tables (store w) "products")) /\
  (forall other : User.t, User.id other <> User.id user ->
     forall row,
       In row (listed (fst (GET_orders request w))) \/
       In row (listed (fst (GET_products request w))) ->
       get "user_uid" row <> Some (JString (User.id other))) /\
  (forall (request' : Request) (other : User.t) (w' : World),
     session request' = Some other ->
     User.id other <> User.id user ->
     forall row,
       (In row (listed (fst (GET_orders request w))) ->
        ~ In row (listed (fst (GET_orders request' w')))) /\
       (In row (listed (fst (GET_products request w))) ->
        ~ In row (listed (fst (GET_products request' w'))))) /\
  store (snd (GET_orders request w)) = store w /\
  store (snd (GET_products request w)) = store w.
Proof.
  intros Hs. splits.
  - intros row. now apply GET_orders_listed.
  - intros row. now apply GET_products_listed.
  - intros other Hne row [Hrow | Hrow];
      [apply (GET_orders_listed _ _ _ _ Hs) in Hrow
      | apply (GET_products_listed _ _ _ _ Hs) in Hrow];
      destruct Hrow as [-> _]; intros E; injection E as E; congruence.
  - intros request' other w' Hs' Hne row. split; intros Hrow Hrow'.
    + apply (GET_orders_listed _ _ _ _ Hs) in Hrow.
      apply (GET_orders_listed _ _ _ _ Hs') in Hrow'.
      destruct Hrow as [Hrow _], Hrow' as [Hrow' _]. congruence.
    + apply (GET_products_listed _ _ _ _ Hs) in Hrow.
      apply (GET_products_listed _ _ _ _ Hs') in Hrow'.
      destruct Hrow as [Hrow _], Hrow' as [Hrow' _]. congruence.
  - now rewrite (GET_orders_run _ _ _ Hs).
  - now rewrite (GET_products_run _ _ _ Hs).
Qed.

(** ** The theorems at work on the examples *)

Example order_body_parses :
  safeParse (orderSchema example_runtime) order_body = inr order_data.
Proof. reflexivity. Qed.

(** C1, an instance: the transaction is refused, both deletes succeed. *)
Lemma transaction_failure_witness :
  answer 2 (world [None; None; Some "transaction refused"]) =
    Some "transaction refused" /\
  fst (POST_orders example_runtime (authenticated alice order_body)
         (world [None; None; Some "transaction refused"])) =
    inr {| status := 500;
           body := JObject [("error", JString "transaction refused")] |} /\
  select_rows "orders" "id" (Some (JNumber (num 3)))
    (store (snd (POST_orders example_runtime (authenticated alice order_body)
                   (world [None; None; Some "transaction refused"])))) = [] /\
  select_rows "order_items" "order_id" (Some (JNumber (num 3)))
    (store (snd (POST_orders example_runtime (authenticated alice order_body)
                   (world [None; None; Some "transaction refused"])))) = [].
Proof.
  destruct (transaction_failure_deletes_order_and_items example_runtime
              (authenticated alice order_body) alice order_body order_data
              (num 2) "transaction refused"
              (world [None; None; Some "transaction refused"])
              eq_refl eq_refl eq_refl eq_refl (fun _ => eq_refl)
              eq_refl eq_refl eq_refl)
    as [Hresponse [_ [_ [Horder [Hitems _]]]]].
  split; [reflexivity|]. split; [exact Hresponse|]. split.
  - exact (proj1 (Horder eq_refl)).
  - refine (proj1 (Hitems _ eq_refl)). discriminate.
Defined.

(** C1 as stated fails: the transaction is refused and so is the delete
    of the order; the response is 500 and the order is still there. *)
Lemma transaction_failure_order_stays :
  status_of
    (fst (POST_orders example_runtime (authenticated alice order_body)
            (world [None; None; Some "transaction refused";
                    Some "delete refused"]))) = Some 500 /\
  select_rows "orders" "id" (Some (JNumber (num 3)))
    (store (snd (POST_orders example_runtime (authenticated alice order_body)
                   (world [None; None; Some "transaction refused";
                           Some "delete refused"])))) = [order_row].
Proof. split; reflexivity. Qed.

(** C2, an instance: the items are refused, the delete succeeds. *)
Lemma items_failure_witness :
  answer 1 (world [None; Some "items refused"]) = Some "items refused" /\
  fst (POST_orders example_runtime (authenticated alice order_body)
         (world [None; Some "items refused"])) =
    inr {| status := 500; body := JObject [("error", JString "items refused")] |} /\
  select_rows "orders" "id" (Some (JNumber (num 3)))
    (store (snd (POST_orders example_runtime (authenticated alice order_body)
                   (world [None; Some "items refused"])))) = [].
Proof.
  destruct (items_failure_deletes_order example_runtime
              (authenticated alice order_body) alice order_body order_data
              "items refused" (world [None; Some "items refused"])
              eq_refl eq_refl eq_refl eq_refl)
    as [Hresponse [_ [_ [_ Horder]]]].
  - discriminate.
  - reflexivity.
  - split; [reflexivity|]. split; [exact Hresponse|].
    exact (proj1 (Horder eq_refl)).
Defined.

(** C2 as stated fails: the items are refused and so is the delete of
    the order; the response is 500 and a select finds the order. *)
Lemma items_failure_order_stays :
  status_of
    (fst (POST_orders example_runtime (authenticated alice order_body)
            (world [None; Some "items refused"; Some "delete refused"]))) =
    Some 500 /\
  select_rows "orders" "id" (Some (JNumber (num 3)))
    (store (snd (POST_orders example_runtime (authenticated alice order_body)
                   (world [None; Some "items refused"; Some "delete refused"])))) =
    [order_row].
Proof. split; reflexivity. Qed.

(** C3, an instance: payment method 2, no error from the store. *)
Lemma transaction_witness :
  OrderSchema.paymentMethodId order_data = Some (num 2) /\
  status_of (fst (POST_orders example_runtime (authenticated alice order_body)
                    (world []))) = Some 200 /\
  tables (store (snd (POST_orders example_runtime (authenticated alice order_body)
                        (world [])))) "transactions" =
    [[("order_id", JNumber (num 3));
      ("payment_method_id", JNumber (num 2));
      ("amount", JNumber (num 10));
      ("user_uid", JString "alice");
      ("status", JString "completed");
      ("category", JString "selling");
      ("type", JString "income");
      ("description", JString "Payment for order #3")]].
Proof.
  destruct (transaction_for_truthy_payment_method example_runtime
              (authenticated alice order_body) alice order_body order_data
              (world []) eq_refl eq_refl eq_refl)
    as [Hsome _].
  destruct (Hsome (num 2) eq_refl eq_refl eq_refl (fun _ => eq_refl))
    as [_ [_ Hrow]].
  split; [reflexivity|]. exact (Hrow eq_refl).
Defined.

(** C3 as stated fails: a payload that supplies payment method 0 is
    valid, the order is created, and no transaction is inserted. *)
Lemma payment_method_zero_no_transaction :
  safeParse (orderSchema example_runtime) order_body_payment_zero =
    inr order_data_payment_zero /\
  OrderSchema.paymentMethodId order_data_payment_zero = Some (num 0) /\
  status_of
    (fst (POST_orders example_runtime
            (authenticated alice order_body_payment_zero) (world []))) = Some 200 /\
  calls (snd (POST_orders example_runtime
                (authenticated alice order_body_payment_zero) (world []))) =
    [Insert "orders" [order_values alice order_data_payment_zero]] /\
  tables (store (snd (POST_orders example_runtime
                        (authenticated alice order_body_payment_zero) (world []))))
    "transactions" = [].
Proof. repeat split; reflexivity. Qed.

(** C4, an instance: no user, and a body that is not even JSON. *)
Lemma unauthenticated_witness :
  POST_orders example_runtime
    {| session := None; json_body := inl "Unexpected token" |} (world []) =
    (inr {| status := 401; body := JObject [("error", JString "Unauthorized")] |},
     world []) /\
  GET_products
    {| session := None; json_body := inl "Unexpected token" |} (world []) =
    (inr {| status := 401; body := JObject [("error", JString "Unauthorized")] |},
     world []).
Proof.
  destruct (unauthenticated_is_401 example_runtime
              {| session := None; json_body := inl "Unexpected token" |}
              (world []) eq_refl)
    as [_ [_ [_ [Hpost [Hget _]]]]].
  split; [exact Hpost | exact Hget].
Defined.

(** C5, an instance: a price that is not a number. *)
Lemma invalid_body_witness :
  POST_products example_runtime (authenticated alice product_body_invalid)
    (world []) =
  (inr {| status := 400;
          body :=
            JObject
              [("error", JString "Invalid request");
               ("details",
                JObject
                  [("formErrors", JArray []);
                   ("fieldErrors",
                    JObject
                      [("price",
                        JArray [JString "Expected number, received nan"])])])] |},
   world []).
Proof.
  destruct (invalid_body_is_400 example_runtime
              (authenticated alice product_body_invalid) alice
              product_body_invalid (world []) eq_refl eq_refl)
    as [_ [Hproducts _]].
  exact (Hproducts
           [{| code := invalid_type; expected := "number"; received := "nan";
               path := [Key "price"] |}]
           eq_refl).
Defined.

(** C5 as stated fails: the [customerId] of this order is an object with
    a [toString] of its own; its coercion to a number fails by throwing,
    and the handler throws instead of answering 400. *)
Lemma unconvertible_body_is_thrown :
  Number example_runtime (Some (JObject [("toString", JNumber (num 1))])) =
    inl (TypeError "Cannot convert object to primitive value") /\
  POST_orders example_runtime (authenticated alice order_body_unconvertible)
    (world []) =
    (inl (TypeError "Cannot convert object to primitive value"), world []) /\
  status_of
    (fst (POST_orders example_runtime
            (authenticated alice order_body_unconvertible) (world []))) = None.
Proof. repeat split; reflexivity. Qed.

(** C6, an instance: the store refuses the order. *)
Lemma order_insert_witness :
  get "user_uid" (order_values alice order_data) = Some (JString "alice") /\
  get "status" (order_values alice order_data) = Some (JString "completed") /\
  fst (POST_orders example_runtime (authenticated alice order_body)
         (world [Some "orders refused"])) =
    inr {| status := 500; body := JObject [("error", JString "orders refused")] |} /\
  store (snd (POST_orders example_runtime (authenticated alice order_body)
                (world [Some "orders refused"]))) = shop.
Proof.
  destruct (order_insert_user_and_status example_runtime
              (authenticated alice order_body) alice order_body order_data
              (world [Some "orders refused"]) eq_refl eq_refl eq_refl)
    as [_ [Huser [Hstatus [_ [_ [_ Hfails]]]]]].
  destruct (Hfails "orders refused" eq_refl) as [Hresponse [Hstore _]].
  split; [exact Huser|]. split; [exact (Hstatus eq_refl)|].
  split; [exact Hresponse | exact Hstore].
Defined.

(** C7, an instance: a date is given. *)
Lemma created_at_witness :
  safeParse (orderSchema example_runtime)
    (order_body_created_at "2023-11-05T12:00:00Z") =
    inr (order_data_created_at "2023-11-05T12:00:00Z") /\
  get "created_at"
    (new_order alice (order_data_created_at "2023-11-05T12:00:00Z") shop) =
    Some (JString "2023-11-05T12:00:00Z").
Proof.
  destruct (order_created_at example_runtime
              (authenticated alice (order_body_created_at "2023-11-05T12:00:00Z"))
              alice (order_body_created_at "2023-11-05T12:00:00Z")
              (order_data_created_at "2023-11-05T12:00:00Z")
              (world []) eq_refl eq_refl eq_refl)
    as [_ [_ [Hgiven _]]].
  split; [reflexivity|].
  refine (proj2 (Hgiven "2023-11-05T12:00:00Z" eq_refl _) shop). discriminate.
Defined.

(** C7 as stated fails: a payload that provides the empty string as
    [created_at] is valid, and the order gets the time of the store. *)
Lemma created_at_empty_gets_default :
  safeParse (orderSchema example_runtime) (order_body_created_at "") =
    inr (order_data_created_at "") /\
  status_of
    (fst (POST_orders example_runtime
            (authenticated alice (order_body_created_at "")) (world []))) =
    Some 200 /\
  calls (snd (POST_orders example_runtime
                (authenticated alice (order_body_created_at "")) (world []))) =
    [Insert "orders"
       [[("customer_id", JNumber (num 1)); ("total_amount", JNumber (num 10));
         ("user_uid", JString "alice"); ("status", JString "pending")]]] /\
  select_rows "orders" "id" (Some (JNumber (num 3)))
    (store (snd (POST_orders example_runtime
                   (authenticated alice (order_body_created_at "")) (world [])))) =
    [[("id", JNumber (num 3)); ("customer_id", JNumber (num 1));
      ("total_amount", JNumber (num 10)); ("user_uid", JString "alice");
      ("status", JString "pending");
      ("created_at", JString "2024-01-01T00:00:00Z")]].
Proof. repeat split; reflexivity. Qed.

(** C8, an instance. *)
Lemma integer_quantity_witness :
  Forall (fun product => isInteger (OrderSchema.quantity product) = true)
    (OrderSchema.products order_data) /\
  Forall integer_quantity (orderItems alice order_data shop).
Proof.
  destruct (order_items_have_integer_quantity example_runtime
              (authenticated alice order_body) alice order_body order_data
              (world []) eq_refl eq_refl eq_refl)
    as [Hproducts [Hitems _]].
  split; [exact Hproducts | exact Hitems].
Defined.

(** C8 as stated fails: a products entry with quantity -1 is accepted,
    and an item with quantity -1 is kept. *)
Lemma negative_quantity_is_kept :
  safeParse (orderSchema example_runtime) order_body_negative =
    inr order_data_negative /\
  nonNegative (num (-1)) = false /\
  status_of
    (fst (POST_orders example_runtime
            (authenticated alice order_body_negative) (world []))) = Some 200 /\
  tables (store (snd (POST_orders example_runtime
                        (authenticated alice order_body_negative) (world []))))
    "order_items" =
    [[("order_id", JNumber (num 3)); ("product_id", JNumber (num 5));
      ("quantity", JNumber (num (-1))); ("price", JNumber (num 5))]].
Proof. repeat split; reflexivity. Qed.

(** C9, an instance: alice lists the orders and the products of the shop. *)
Lemma lists_witness :
  listed (fst (GET_orders (authenticated alice JNull) (world []))) =
    [[("id", JNumber (num 1)); ("customer_id", JNumber (num 1));
      ("total_amount", JNumber (num 30)); ("user_uid", JString "alice");
      ("status", JString "completed");
      ("created_at", JString "2023-12-30T09:00:00Z");
      ("customer", JObject [("name", JString "Carol")])]] /\
  (forall row,
     In row (listed (fst (GET_orders (authenticated alice JNull) (world [])))) \/
     In row (listed (fst (GET_products (authenticated alice JNull) (world [])))) ->
     get "user_uid" row <> Some (JString "bob")).
Proof.
  destruct (lists_only_rows_of_caller (authenticated alice JNull) alice
              (world []) eq_refl)
    as [_ [_ [Hother _]]].
  split; [reflexivity|].
  apply (Hother bob). discriminate.
Defined.

(** C10, an instance. *)
Lemma unparseable_body_witness :
  POST_orders example_runtime
    {| session := Some alice; json_body := inl "Unexpected token" |} (world []) =
    (inl (SyntaxError "Unexpected token"), world []) /\
  POST_products example_runtime
    {| session := Some alice; json_body := inl "Unexpected token" |} (world []) =
    (inl (SyntaxError "Unexpected token"), world []).
Proof.
  destruct (unparseable_body_is_thrown example_runtime
              {| session := Some alice; json_body := inl "Unexpected token" |}
              alice "Unexpected token" (world []) eq_refl eq_refl)
    as [Horders [Hproducts _]].
  split; [exact Horders | exact Hproducts].
Defined.

(** ** The Product Creation Workflow *)

Lemma POST_products_valid rt request user b newProduct w :
  session request = Some user ->
  json_body request = inr b ->
  safeParse (productSchema rt) b = inr newProduct ->
  POST_products rt request w =
  (inr match answer 0 w with
       | Some m => NextResponse_json (error_body m) (Some 500)
       | None => NextResponse_json (JObject (product_row (store w) user newProduct)) None
       end,
   did (Insert "products" [product_values user newProduct])
       (insert_rows "products" [product_values user newProduct]) w).
Proof.
  intros Hs Hb Hp.
  unfold POST_products, auth_getUser, request_json, bind.
  rewrite Hs, Hb. simpl. rewrite Hp.
  unfold insert_select. rewrite perform_did.
  destruct (answer 0 w); reflexivity.
Qed.

Lemma product_row_eq s user newProduct :
  product_row s user newProduct =
  ("id", JNumber (num (sequence s))) :: product_values user newProduct.
Proof.
  unfold product_row, stored. simpl. now rewrite app_nil_r.
Qed.

Lemma get_nullish_other key k value rest :
  String.eqb key k = false ->
  get k (nullish key value ++ rest) = get k rest.
Proof.
  intros H. destruct value; simpl; try reflexivity; now rewrite H.
Qed.

Lemma product_values_user_uid user newProduct :
  get "user_uid" (product_values user newProduct) = Some (JString (User.id user)).
Proof.
  unfold product_values. simpl.
  rewrite get_nullish_other by reflexivity. simpl.
  now rewrite get_nullish_other by reflexivity.
Qed.

(** X1. An authenticated POST /products with a valid body, when the store
    accepts the insert, answers 200 with the row the store kept: the
    identifier the store assigned followed by the values sent, whose
    [user_uid] is the caller's.  That row is added at the end of
    [products], no other table changes, and the insert is the only call. *)
Theorem product_is_created (rt : Runtime) (request : Request) (user : User.t)
    (b : json) (newProduct : ProductSchema.data) (w : World) :
  session request = Some user ->
  json_body request = inr b ->
  safeParse (productSchema rt) b = inr newProduct ->
  answer 0 w = None ->
  fst (POST_products rt request w) =
    inr {| status := 200;
           body := JObject (("id", JNumber (num (sequence (store w))))
                            :: product_values user newProduct) |} /\
  get "user_uid" (product_values user newProduct) = Some (JString (User.id user)) /\
  tables (store (snd (POST_products rt request w))) "products" =
    tables (store w) "products"
    ++ [("id", JNumber (num (sequence (store w)))) :: product_values user newProduct] /\
  (forall t, String.eqb t "products" = false ->
     tables (store (snd (POST_products rt request w))) t = tables (store w) t) /\
  calls (snd (POST_products rt request w)) =
    calls w ++ [Insert "products" [product_values user newProduct]].
Proof.
  intros Hs Hb Hp H0.
  rewrite (POST_products_valid _ _ _ _ _ _ Hs Hb Hp).
  unfold did, attempt. rewrite H0. cbn [fst snd store calls after]. splits.
  - now rewrite product_row_eq.
  - apply product_values_user_uid.
  - rewrite tables_insert_rows_same. cbn [inserted].
    fold (product_row (store w) user newProduct). now rewrite product_row_eq.
  - intros t Ht. now apply tables_insert_rows_other.
  - reflexivity.
Qed.

(** X2. When the store refuses the insert of the product, the response is
    500 with the message of the store's error, the store is as it was,
    and the handler makes no other call. *)
Theorem product_insert_fails (rt : Runtime) (request : Request) (user : User.t)
    (b : json) (newProduct : ProductSchema.data) (m : string) (w : World) :
  session request = Some user ->
  json_body request = inr b ->
  safeParse (productSchema rt) b = inr newProduct ->
  answer 0 w = Some m ->
  fst (POST_products rt request w) =
    inr {| status := 500; body := JObject [("error", JString m)] |} /\
  store (snd (POST_products rt request w)) = store w /\
  calls (snd (POST_products rt request w)) =
    calls w ++ [Insert "products" [product_values user newProduct]].
Proof.
  intros Hs Hb Hp H0.
  rewrite (POST_products_valid _ _ _ _ _ _ Hs Hb Hp).
  unfold did, attempt. rewrite H0. splits; reflexivity.
Qed.

(** ** The read paths, in full *)

Lemma get_string_eq column s r :
  get column r = Some (JString s) -> eq column (Some (JString s)) r = true.
Proof.
  intros H. unfold eq. rewrite H. simpl. apply String.eqb_refl.
Qed.

(** X3. For an authenticated caller, when the select succeeds, GET
    /products answers 200 with exactly the rows of [products] whose
    [user_uid] is the caller's, in the order of the table, and GET
    /orders answers 200 with the view (six columns and the customer) of
    exactly the rows of [orders] whose [user_uid] is the caller's: no
    row of the caller is left out.  Each handler makes one call, the
    select. *)
Theorem lists_all_rows_of_caller (request : Request) (user : User.t) (w : World) :
  session request = Some user ->
  answer 0 w = None ->
  fst (GET_products request w) =
    inr {| status := 200;
           body := JArray (map JObject
                     (filter (eq "user_uid" (Some (JString (User.id user))))
                        (tables (store w) "products"))) |} /\
  fst (GET_orders request w) =
    inr {| status := 200;
           body := JArray (map JObject
                     (map (order_view (store w))
                        (filter (eq "user_uid" (Some (JString (User.id user))))
                           (tables (store w) "orders")))) |} /\
  (forall r, In r (tables (store w) "products") ->
     get "user_uid" r = Some (JString (User.id user)) ->
     In r (listed (fst (GET_products request w)))) /\
  (forall r, In r (tables (store w) "orders") ->
     get "user_uid" r = Some (JString (User.id user)) ->
     In (order_view (store w) r) (listed (fst (GET_orders request w)))) /\
  calls (snd (GET_products request w)) =
    calls w ++ [Select "products" "user_uid" (Some (JString (User.id user)))] /\
  calls (snd (GET_orders request w)) =
    calls w ++ [Select "orders" "user_uid" (Some (JString (User.id user)))].
Proof.
  intros Hs H0.
  rewrite (GET_orders_run _ _ _ Hs), (GET_products_run _ _ _ Hs), H0.
  cbn [fst snd]. splits; try reflexivity.
  - intros r Hr Hu. rewrite listed_data. apply filter_In. split; [exact Hr|].
    now apply get_string_eq.
  - intros r Hr Hu. rewrite listed_data.
    apply (in_map (order_view (store w))). apply filter_In. split; [exact Hr|].
    now apply get_string_eq.
Qed.

(** X4. For an authenticated caller, when the select fails, GET /orders
    and GET /products answer 500 with the message of the store's error
    and return no row. *)
Theorem list_failure_is_500 (request : Request) (user : User.t) (m : string)
    (w : World) :
  session request = Some user ->
  answer 0 w = Some m ->
  fst (GET_orders request w) =
    inr {| status := 500; body := JObject [("error", JString m)] |} /\
  fst (GET_products request w) =
    inr {| status := 500; body := JObject [("error", JString m)] |} /\
  listed (fst (GET_orders request w)) = [] /\
  listed (fst (GET_products request w)) = [] /\
  store (snd (GET_orders request w)) = store w /\
  store (snd (GET_products request w)) = store w.
Proof.
  intros Hs H0.
  rewrite (GET_orders_run _ _ _ Hs), (GET_products_run _ _ _ Hs), H0.
  splits; reflexivity.
Qed.

(** ** The Order Creation Workflow, in full *)

Lemma filter_all {A : Type} (f : A -> bool) (l : list A) :
  (forall x, In x l -> f x = true) -> filter f l = l.
Proof.
  induction l as [|x l IH]; simpl; intros H; [reflexivity|].
  rewrite (H x) by auto. f_equal. apply IH. auto.
Qed.

Lemma tables_delete_rows table column value s t :
  tables (delete_rows table column value s) t =
  if String.eqb t table
  then filter (fun r => negb (eq column value r)) (tables s table)
  else tables s t.
Proof. reflexivity. Qed.

Lemma tables_insert_rows table values s t :
  tables (insert_rows table values s) t =
  if String.eqb t table then tables s t ++ inserted table values s
  else tables s t.
Proof.
  destruct (String.eqb t table) eqn:E.
  - apply String.eqb_eq in E. subst t. apply tables_insert_rows_same.
  - now apply tables_insert_rows_other.
Qed.

Lemma tables_insert_row table values s t :
  tables (insert_row table values s) t =
  if String.eqb t table then tables s t ++ [stored table s values]
  else tables s t.
Proof.
  unfold insert_row, set_table. simpl.
  destruct (String.eqb t table) eqn:E; [|reflexivity].
  apply String.eqb_eq in E. now subst t.
Qed.

Lemma sequence_insert_rows table values :
  forall s, sequence (insert_rows table values s) =
            sequence s + Z.of_nat (List.length values).
Proof.
  induction values as [|v rest IH]; intros s.
  - simpl. now rewrite Z.add_0_r.
  - cbn [insert_rows]. rewrite IH. cbn [insert_row sequence List.length].
    rewrite Nat2Z.inj_succ. unfold Z.succ.
    rewrite <- Z.add_assoc. f_equal. apply Z.add_comm.
Qed.

Lemma orderItems_item_rows user d s :
  orderItems user d s = map (item_row (order_id s)) (OrderSchema.products d).
Proof. reflexivity. Qed.

Section Created.
Variable rt : Runtime.

(** X5. For an authenticated POST /orders with a valid body, when the
    store accepts every insert, the response is 200 with the row of the
    new order and its customer; the order is added to [orders], one item
    per product of the payload, in the payload's order and each with the
    identifier of the new order, is added to [order_items], and the
    transaction, if the payment method is truthy, is added to
    [transactions].  The handler makes these inserts and no other call. *)
Theorem order_is_created (request : Request) (user : User.t) (b : json)
    (d : OrderSchema.data) (w : World) :
  session request = Some user ->
  json_body request = inr b ->
  safeParse (orderSchema rt) b = inr d ->
  answer 0 w = None ->
  (OrderSchema.products d <> [] -> answer 1 w = None) ->
  answer (S (item_calls d)) w = None ->
  fst (POST_orders rt request w) =
    inr {| status := 200; body := JObject (orderData user d (store w)) |} /\
  tables (store (snd (POST_orders rt request w))) "orders" =
    tables (store w) "orders" ++ [new_order user d (store w)] /\
  tables (store (snd (POST_orders rt request w))) "order_items" =
    tables (store w) "order_items"
    ++ map (item_row (Some (JNumber (num (sequence (store w))))))
           (OrderSchema.products d) /\
  tables (store (snd (POST_orders rt request w))) "transactions" =
    tables (store w) "transactions" ++ new_transactions rt user d (store w) /\
  calls (snd (POST_orders rt request w)) =
    calls w
    ++ [Insert "orders" [order_values user d]]
    ++ match OrderSchema.products d with
       | [] => []
       | _ :: _ => [Insert "order_items" (orderItems user d (store w))]
       end
    ++ map (fun t => Insert "transactions" [t]) (new_transactions rt user d (store w)).
Proof.
  intros Hs Hb Hd H0 H1 H2.
  rewrite (POST_orders_valid _ _ _ _ _ _ Hs Hb Hd).
  unfold new_transactions.
  destruct (OrderSchema.paymentMethodId d) as [p|] eqn:Hp.
  - destruct (truthy_number p) eqn:Ht.
    + rewrite (create_order_with_transaction _ _ _ _ _ H0 H1 Hp Ht H2).
      cbn [fst snd]. splits.
      * reflexivity.
      * unfold transaction_inserted. cbn [store after].
        rewrite tables_insert_rows_other by reflexivity.
        apply items_inserted_orders.
      * unfold transaction_inserted. cbn [store after].
        rewrite tables_insert_rows_other by reflexivity.
        apply items_inserted_order_items.
      * apply transaction_inserted_transactions.
      * unfold transaction_inserted. cbn [calls after].
        rewrite items_inserted_calls.
        destruct (OrderSchema.products d); simpl; now rewrite <- !app_assoc.
    + rewrite create_order_without_transaction;
        [|assumption|assumption|rewrite Hp; exact Ht].
      cbn [fst snd]. splits.
      * reflexivity.
      * apply items_inserted_orders.
      * apply items_inserted_order_items.
      * rewrite app_nil_r. apply items_inserted_transactions.
      * rewrite items_inserted_calls.
        destruct (OrderSchema.products d); simpl; reflexivity.
  - rewrite create_order_without_transaction;
      [|assumption|assumption|rewrite Hp; reflexivity].
    cbn [fst snd]. splits.
    + reflexivity.
    + apply items_inserted_orders.
    + apply items_inserted_order_items.
    + rewrite app_nil_r. apply items_inserted_transactions.
    + rewrite items_inserted_calls.
      destruct (OrderSchema.products d); simpl; reflexivity.
Qed.

End Created.

(** ** Compensation: what it restores and what it leaves alone *)

Lemma In_attempt_delete_keep table column value w t r :
  In r (tables (store w) t) ->
  eq column value r = false ->
  In r (tables (attempt w (delete_rows table column value)) t).
Proof.
  intros Hr He. unfold attempt. destruct (answer 0 w); [exact Hr|].
  rewrite tables_delete_rows. destruct (String.eqb t table) eqn:E; [|exact Hr].
  apply String.eqb_eq in E. subst t.
  apply filter_In. split; [exact Hr|]. now rewrite He.
Qed.

Section Rollback.
Variable rt : Runtime.

(** X6. Compensation, when it succeeds, undoes the inserts.  Take a store
    where the identifier the new order will get is not yet that of an
    order nor the [order_id] of an item.  If the insert of the items
    fails and the delete of the order succeeds, or if the insert of the
    transaction fails and the deletes of the order and of the items
    succeed, every table of the store is back to what it was. *)
Theorem successful_compensation_restores_tables (request : Request)
    (user : User.t) (b : json) (d : OrderSchema.data) (w : World) :
  session request = Some user ->
  json_body request = inr b ->
  safeParse (orderSchema rt) b = inr d ->
  (forall r, In r (tables (store w) "orders") ->
     eq "id" (order_id (store w)) r = false) ->
  (forall r, In r (tables (store w) "order_items") ->
     eq "order_id" (order_id (store w)) r = false) ->
  answer 0 w = None ->
  (forall m,
     OrderSchema.products d <> [] ->
     answer 1 w = Some m ->
     answer 2 w = None ->
     forall t, tables (store (snd (POST_orders rt request w))) t = tables (store w) t) /\
  (forall p m,
     (OrderSchema.products d <> [] -> answer 1 w = None) ->
     OrderSchema.paymentMethodId d = Some p ->
     truthy_number p = true ->
     answer (S (item_calls d)) w = Some m ->
     answer (S (S (item_calls d))) w = None ->
     (OrderSchema.products d <> [] -> answer 4 w = None) ->
     forall t, tables (store (snd (POST_orders rt request w))) t = tables (store w) t).
Proof.
  intros Hs Hb Hd Horders Hitems H0.
  rewrite (POST_orders_valid _ _ _ _ _ _ Hs Hb Hd).
  assert (Fo : filter (fun r => negb (eq "id" (order_id (store w)) r))
                 (tables (store w) "orders") = tables (store w) "orders").
  { apply filter_all. intros r Hr. now rewrite Horders. }
  assert (Fi : filter (fun r => negb (eq "order_id" (order_id (store w)) r))
                 (tables (store w) "order_items") = tables (store w) "order_items").
  { apply filter_all. intros r Hr. now rewrite Hitems. }
  split.
  - intros m Hp H1 H2 t.
    rewrite (create_order_items_fail _ _ _ _ _ H0 Hp H1). cbn [snd].
    unfold items_refused, did, attempt, order_inserted.
    rewrite !answer_after, H2. cbn [store after].
    rewrite tables_delete_rows.
    destruct (String.eqb t "orders") eqn:E.
    + apply String.eqb_eq in E. subst t.
      now rewrite orders_without_new_order.
    + rewrite tables_insert_row. now rewrite E.
  - intros p m H1 Hp Ht Hm Hdo Hdi t.
    rewrite (create_order_transaction_fails _ _ _ _ _ _ H0 H1 Hp Ht Hm). cbn [snd].
    unfold transaction_refused, items_inserted, item_calls, did, attempt,
      order_inserted in *.
    destruct (OrderSchema.products d) as [|product rest] eqn:Hproducts;
      rewrite ?answer_after; cbn [store after].
    + rewrite Hdo. rewrite tables_delete_rows.
      destruct (String.eqb t "orders") eqn:E.
      * apply String.eqb_eq in E. subst t.
        now rewrite orders_without_new_order.
      * rewrite tables_insert_row. now rewrite E.
    + rewrite Hdo, Hdi by discriminate.
      rewrite tables_delete_rows.
      destruct (String.eqb t "order_items") eqn:Ei.
      * apply String.eqb_eq in Ei. subst t.
        assert (E : forall s,
                   tables (delete_rows "orders" "id" (order_id (store w)) s)
                     "order_items" = tables s "order_items") by reflexivity.
        rewrite E, items_without_new_items by reflexivity. exact Fi.
      * rewrite tables_delete_rows.
        destruct (String.eqb t "orders") eqn:Eo.
        -- apply String.eqb_eq in Eo. subst t.
           rewrite tables_insert_rows_other by reflexivity.
           now rewrite orders_without_new_order.
        -- rewrite tables_insert_rows, Ei, tables_insert_row. now rewrite Eo.
Qed.

(** Whatever the path, the workflow keeps to its three tables and removes
    no row but those of the new order. *)
Lemma create_order_leaves (user : User.t) (d : OrderSchema.data) (w : World) :
  (forall t,
     String.eqb t "orders" = false ->
     String.eqb t "order_items" = false ->
     String.eqb t "transactions" = false ->
     tables (store (snd (create_order rt user d w))) t = tables (store w) t) /\
  (forall r, In r (tables (store w) "orders") ->
     eq "id" (order_id (store w)) r = false ->
     In r (tables (store (snd (create_order rt user d w))) "orders")) /\
  (forall r, In r (tables (store w) "order_items") ->
     eq "order_id" (order_id (store w)) r = false ->
     In r (tables (store (snd (create_order rt user d w))) "order_items")) /\
  (forall r, In r (tables (store w) "transactions") ->
     In r (tables (store (snd (create_order rt user d w))) "transactions")).
Proof.
  assert (Hitems : forall t,
             tables (store (items_inserted user d w)) t =
             if String.eqb t "orders"
             then tables (store w) t ++ [new_order user d (store w)]
             else if String.eqb t "order_items"
             then tables (store w) t ++ orderItems user d (store w)
             else tables (store w) t).
  { intros t. destruct (String.eqb t "orders") eqn:Eo.
    - apply String.eqb_eq in Eo. subst t. apply items_inserted_orders.
    - destruct (String.eqb t "order_items") eqn:Ei.
      + apply String.eqb_eq in Ei. subst t. apply items_inserted_order_items.
      + unfold items_inserted, order_inserted.
        destruct (OrderSchema.products d); cbn [store after];
          rewrite ?tables_insert_rows, ?Ei, tables_insert_row; now rewrite Eo. }
  destruct (create_order_paths rt user d w)
    as [[m [_ ->]] | [[m [_ [_ [_ ->]]]] | [[p [m [_ [_ [_ ->]]]]]
        | [[p [_ [_ [_ ->]]]] | [_ ->]]]]]; cbn [snd].
  - cbn [store after]. splits; auto.
  - unfold items_refused, did, order_inserted. cbn [store after]. splits.
    + intros t Eo Ei Et. rewrite tables_attempt_delete_other by assumption.
      cbn [store after]. rewrite tables_insert_row. now rewrite Eo.
    + intros r Hr He. apply In_attempt_delete_keep; [|exact He].
      cbn [store after]. rewrite tables_insert_row. simpl.
      apply in_or_app. now left.
    + intros r Hr _. now rewrite tables_attempt_delete_other by reflexivity.
    + intros r Hr. now rewrite tables_attempt_delete_other by reflexivity.
  - splits.
    + intros t Eo Ei Et. unfold transaction_refused, did.
      destruct (OrderSchema.products d) eqn:Hp; cbn [store after];
        rewrite !tables_attempt_delete_other by assumption; cbn [store after];
        rewrite ?tables_attempt_delete_other by assumption; cbn [store after];
        rewrite Hitems, Eo, Ei; reflexivity.
    + intros r Hr He. unfold transaction_refused, did.
      destruct (OrderSchema.products d) eqn:Hp; cbn [store after].
      * apply In_attempt_delete_keep; [|exact He]. cbn [store after].
        rewrite Hitems. simpl. apply in_or_app. now left.
      * rewrite tables_attempt_delete_other by reflexivity. cbn [store after].
        apply In_attempt_delete_keep; [|exact He]. cbn [store after].
        rewrite Hitems. simpl. apply in_or_app. now left.
    + intros r Hr He. unfold transaction_refused, did.
      destruct (OrderSchema.products d) eqn:Hp; cbn [store after].
      * rewrite tables_attempt_delete_other by reflexivity. cbn [store after].
        rewrite Hitems. simpl. apply in_or_app. now left.
      * apply In_attempt_delete_keep; [|exact He]. cbn [store after].
        rewrite tables_attempt_delete_other by reflexivity. cbn [store after].
        rewrite Hitems. simpl. apply in_or_app. now left.
    + intros r Hr. now rewrite transaction_refused_transactions.
  - unfold transaction_inserted. cbn [store after]. splits.
    + intros t Eo Ei Et. rewrite tables_insert_rows, Et, Hitems, Eo, Ei.
      reflexivity.
    + intros r Hr _. rewrite tables_insert_rows_other by reflexivity.
      rewrite Hitems. simpl. apply in_or_app. now left.
    + intros r Hr _. rewrite tables_insert_rows_other by reflexivity.
      rewrite Hitems. simpl. apply in_or_app. now left.
    + intros r Hr. rewrite tables_insert_rows_same, Hitems. simpl.
      apply in_or_app. now left.
  - splits.
    + intros t Eo Ei Et. now rewrite Hitems, Eo, Ei.
    + intros r Hr _. rewrite Hitems. simpl. apply in_or_app. now left.
    + intros r Hr _. rewrite Hitems. simpl. apply in_or_app. now left.
    + intros r Hr. now rewrite Hitems.
Qed.


(** X7. Whatever the store answers, an authenticated POST /orders with a
    valid body leaves every table other than [orders], [order_items] and
    [transactions] as it was, removes no order but one with the new
    order's identifier, no item but one of the new order, and no
    transaction at all. *)
Theorem order_creation_leaves_other_rows (request : Request)
    (user : User.t) (b : json) (d : OrderSchema.data) (w : World) :
  session request = Some user ->
  json_body request = inr b ->
  safeParse (orderSchema rt) b = inr d ->
  (forall t,
     String.eqb t "orders" = false ->
     String.eqb t "order_items" = false ->
     String.eqb t "transactions" = false ->
     tables (store (snd (POST_orders rt request w))) t = tables (store w) t) /\
  (forall r, In r (tables (store w) "orders") ->
     eq "id" (order_id (store w)) r = false ->
     In r (tables (store (snd (POST_orders rt request w))) "orders")) /\
  (forall r, In r (tables (store w) "order_items") ->
     eq "order_id" (order_id (store w)) r = false ->
     In r (tables (store (snd (POST_orders rt request w))) "order_items")) /\
  (forall r, In r (tables (store w) "transactions") ->
     In r (tables (store (snd (POST_orders rt request w))) "transactions")).
Proof.
  intros Hs Hb Hd.
  rewrite (POST_orders_valid _ _ _ _ _ _ Hs Hb Hd).
  apply create_order_leaves.
Qed.

End Rollback.

(** ** Responses, and posting twice *)

Section Responses.
Variable rt : Runtime.

Lemma create_order_responds user d w :
  exists response,
    fst (create_order rt user d w) = inr response /\
    (status response = 200 \/ status response = 500).
Proof.
  destruct (create_order_paths rt user d w)
    as [[m [_ ->]] | [[m [_ [_ [_ ->]]]] | [[p [m [_ [_ [_ ->]]]]]
        | [[p [_ [_ [_ ->]]]] | [_ ->]]]]]; cbn [fst];
    eexists; (split; [reflexivity|]); simpl; auto.
Qed.

(** X8. Once the caller is authenticated and the body is JSON, a POST
    handler throws exactly when the [safeParse] of its schema throws,
    and then throws that exception; otherwise it returns a response,
    whose status is 400 exactly when the schema returned issues, and 200
    or 500 otherwise, whatever the store answers. *)
Theorem post_throws_only_when_parse_throws (request : Request) (user : User.t)
    (b : json) (w : World) :
  session request = Some user ->
  json_body request = inr b ->
  (forall e, fst (POST_orders rt request w) = inl e <->
             safeParse (orderSchema rt) b = inl (Throws e)) /\
  (forall response,
     fst (POST_orders rt request w) = inr response ->
     (status response = 400 <->
      exists issues, safeParse (orderSchema rt) b = inl (Issues issues)) /\
     (status response = 200 \/ status response = 400 \/ status response = 500)) /\
  (forall e, fst (POST_products rt request w) = inl e <->
             safeParse (productSchema rt) b = inl (Throws e)) /\
  (forall response,
     fst (POST_products rt request w) = inr response ->
     (status response = 400 <->
      exists issues, safeParse (productSchema rt) b = inl (Issues issues)) /\
     (status response = 200 \/ status response = 400 \/ status response = 500)).
Proof.
  intros Hs Hb.
  assert (Ho : (forall e, fst (POST_orders rt request w) = inl e <->
                          safeParse (orderSchema rt) b = inl (Throws e)) /\
               (forall response,
                  fst (POST_orders rt request w) = inr response ->
                  (status response = 400 <->
                   exists issues, safeParse (orderSchema rt) b = inl (Issues issues)) /\
                  (status response = 200 \/ status response = 400 \/
                   status response = 500))).
  { rewrite (POST_orders_parsed _ _ _ _ _ Hs Hb).
    destruct (safeParse (orderSchema rt) b) as [[issues|e0]|d]; cbn [fst].
    - split.
      + intros e. split; discriminate.
      + intros response H. injection H as <-. simpl. split; [|auto].
        split; [intros _; now exists issues | reflexivity].
    - split.
      + intros e. split; intros H; injection H as ->; reflexivity.
      + intros response H. discriminate.
    - destruct (create_order_responds user d w) as [response [Hr Hst]].
      rewrite Hr. split.
      + intros e. split; discriminate.
      + intros response' H. injection H as <-. split; [|tauto].
        split.
        * intros H. destruct Hst as [Hst | Hst]; rewrite Hst in H; discriminate.
        * intros [issues H]. discriminate. }
  assert (Hp : (forall e, fst (POST_products rt request w) = inl e <->
                          safeParse (productSchema rt) b = inl (Throws e)) /\
               (forall response,
                  fst (POST_products rt request w) = inr response ->
                  (status response = 400 <->
                   exists issues, safeParse (productSchema rt) b = inl (Issues issues)) /\
                  (status response = 200 \/ status response = 400 \/
                   status response = 500))).
  { destruct (safeParse (productSchema rt) b) as [[issues|e0]|d] eqn:Hparse.
    - rewrite (POST_products_parsed _ _ _ _ _ Hs Hb _ Hparse). cbn [fst]. split.
      + intros e. split; discriminate.
      + intros response H. injection H as <-. simpl. split; [|auto].
        split; [intros _; now exists issues | reflexivity].
    - rewrite (POST_products_parsed _ _ _ _ _ Hs Hb _ Hparse). cbn [fst]. split.
      + intros e. split; intros H; injection H as ->; reflexivity.
      + intros response H. discriminate.
    - rewrite (POST_products_valid _ _ _ _ _ _ Hs Hb Hparse). cbn [fst]. split.
      + intros e. split; discriminate.
      + intros response H. injection H as <-.
        destruct (answer 0 w); simpl; split; auto;
          (split; [discriminate | intros [issues H]; discriminate]). }
  destruct Ho, Hp. auto.
Qed.

Lemma answer_items_inserted user d w k :
  (forall k, answer k w = None) -> answer k (items_inserted user d w) = None.
Proof.
  intros H. unfold items_inserted, order_inserted.
  destruct (OrderSchema.products d); rewrite !answer_after; apply H.
Qed.

Lemma sequence_items_inserted user d w :
  sequence (store w) < sequence (store (items_inserted user d w)).
Proof.
  unfold items_inserted, order_inserted.
  destruct (OrderSchema.products d); cbn [store after].
  - simpl. apply Z.lt_succ_diag_r.
  - rewrite sequence_insert_rows. simpl sequence.
    pose proof (Nat2Z.is_nonneg (List.length (orderItems user (d) (store w)))) as Hl.
    apply Z.lt_le_trans with (sequence (store w) + 1).
    + apply Z.lt_succ_diag_r.
    + rewrite <- (Z.add_0_r (sequence (store w) + 1)) at 1.
      apply Z.add_le_mono_l. exact Hl.
Qed.

(** With a store that reports no error, the workflow creates the order
    and leaves a store that will report no error and whose sequence has
    advanced. *)
Lemma create_order_quiet user d w :
  (forall k, answer k w = None) ->
  status_of (fst (create_order rt user d w)) = Some 200 /\
  (forall k, answer k (snd (create_order rt user d w)) = None) /\
  tables (store (snd (create_order rt user d w))) "orders" =
    tables (store w) "orders" ++ [new_order user d (store w)] /\
  sequence (store w) < sequence (store (snd (create_order rt user d w))) /\
  exists made,
    calls (snd (create_order rt user d w)) = calls w ++ made /\
    Forall is_insert made.
Proof.
  intros Hw.
  destruct (create_order_paths rt user d w)
    as [[m [H _]] | [[m [_ [_ [H _]]]] | [[p [m [_ [_ [H _]]]]]
        | [[p [_ [_ [_ ->]]]] | [_ ->]]]]]; cbn [fst snd];
    try (rewrite Hw in H; discriminate).
  - unfold transaction_inserted. cbn [store after]. splits.
    + reflexivity.
    + intros k. rewrite answer_after. now apply answer_items_inserted.
    + rewrite tables_insert_rows_other by reflexivity.
      apply items_inserted_orders.
    + rewrite sequence_insert_rows. simpl List.length.
      apply Z.lt_trans with (sequence (store (items_inserted user d w))).
      * apply sequence_items_inserted.
      * apply Z.lt_succ_diag_r.
    + cbn [calls after]. rewrite items_inserted_calls, <- app_assoc.
      eexists. split; [reflexivity|].
      destruct (OrderSchema.products d); repeat constructor.
  - splits.
    + reflexivity.
    + intros k. now apply answer_items_inserted.
    + apply items_inserted_orders.
    + apply sequence_items_inserted.
    + rewrite items_inserted_calls.
      eexists. split; [reflexivity|].
      destruct (OrderSchema.products d); repeat constructor.
Qed.

(** X9. Posting is not idempotent.  When the store reports no error,
    posting the same valid order twice answers 200 twice and leaves two
    orders, one after the other at the end of [orders], with different
    identifiers; and the handler never looks for an order it has already
    created: every call the two posts make on the store is an insert,
    none a select or a delete. *)
Theorem posting_twice_creates_two_orders (request : Request) (user : User.t)
    (b : json) (d : OrderSchema.data) (w : World) :
  session request = Some user ->
  json_body request = inr b ->
  safeParse (orderSchema rt) b = inr d ->
  (forall k, answer k w = None) ->
  let once := snd (POST_orders rt request w) in
  let twice := snd (POST_orders rt request once) in
  status_of (fst (POST_orders rt request w)) = Some 200 /\
  status_of (fst (POST_orders rt request once)) = Some 200 /\
  tables (store twice) "orders" =
    tables (store w) "orders"
    ++ [new_order user d (store w); new_order user d (store once)] /\
  get "id" (new_order user d (store w)) = Some (JNumber (num (sequence (store w)))) /\
  get "id" (new_order user d (store once)) =
    Some (JNumber (num (sequence (store once)))) /\
  sequence (store w) < sequence (store once) /\
  exists made,
    calls twice = calls w ++ made /\ Forall is_insert made.
Proof.
  intros Hs Hb Hd Hw. cbv zeta.
  rewrite !(POST_orders_valid _ _ _ _ _ _ Hs Hb Hd).
  destruct (create_order_quiet user d w Hw)
    as [H1 [Hw' [Ht [Hseq [made [Hc Hm]]]]]].
  destruct (create_order_quiet user d _ Hw')
    as [H2 [_ [Ht' [_ [made' [Hc' Hm']]]]]].
  splits; try assumption; try reflexivity.
  - rewrite Ht', Ht. now rewrite <- app_assoc.
  - exists (made ++ made'). split.
    + rewrite Hc', Hc. now rewrite <- app_assoc.
    + apply Forall_app. auto.
Qed.

End Responses.

(** ** What the schemas accept *)

Section SchemaAccepts.
Variable rt : Runtime.

Lemma z_coerce_number_inr p value n :
  z_coerce_number rt p value = inr n ->
  Number rt value = inr n /\ isNaN n = false.
Proof.
  unfold z_coerce_number.
  destruct (Number rt value) as [e|x]; [discriminate|].
  destruct (isNaN x) eqn:E; [discriminate|].
  intros H. injection H as <-. auto.
Qed.

Lemma z_coerce_number_int_inr_full p value n :
  z_coerce_number_int rt p value = inr n ->
  Number rt value = inr n /\ isNaN n = false /\ isInteger n = true.
Proof.
  intros H. pose proof (z_coerce_number_int_inr rt p value n H) as Hi.
  unfold z_coerce_number_int in H.
  destruct (z_coerce_number rt p value) as [e|x] eqn:E; [discriminate|].
  apply z_coerce_number_inr in E. destruct E as [Ex En].
  destruct (isInteger x); [|discriminate].
  injection H as <-. auto.
Qed.

Lemma optional_inr {A : Type} (inner : Schema A) p value (x : option A) :
  optional inner p value = inr x ->
  match value with
  | None => x = None
  | Some _ => exists a, x = Some a /\ inner p value = inr a
  end.
Proof.
  unfold optional. destruct value as [v|].
  - destruct (inner p (Some v)) as [e|a]; [discriminate|].
    intros H. injection H as <-. now exists a.
  - intros H. now injection H as <-.
Qed.

Lemma optional_nullable_inr {A : Type} (inner : Schema A) p value (x : Nullish A) :
  optional_nullable inner p value = inr x ->
  match value with
  | None => x = Undefined
  | Some JNull => x = Null
  | Some _ => exists a, x = Defined a /\ inner p value = inr a
  end.
Proof.
  unfold optional_nullable. destruct value as [v|].
  - destruct v;
      try (destruct (inner p _) as [e|a]; [discriminate|];
           intros H; injection H as <-; now exists a).
    intros H. now injection H as <-.
  - intros H. now injection H as <-.
Qed.

Lemma z_string_inr p value s :
  z_string p value = inr s -> value = Some (JString s).
Proof.
  unfold z_string. destruct value as [[| | |s'| |]|]; try discriminate.
  intros H. now injection H as <-.
Qed.

Lemma z_enum_status_inr p value s :
  z_enum_status p value = inr s -> value = Some (JString (OrderStatus_string s)).
Proof.
  unfold z_enum_status. destruct value as [[| | |s'| |]|]; try discriminate.
  destruct (String.eqb s' "completed") eqn:E1.
  { intros H. injection H as <-. apply String.eqb_eq in E1. now subst. }
  destruct (String.eqb s' "pending") eqn:E2.
  { intros H. injection H as <-. apply String.eqb_eq in E2. now subst. }
  destruct (String.eqb s' "cancelled") eqn:E3; [|discriminate].
  intros H. injection H as <-. apply String.eqb_eq in E3. now subst.
Qed.

Lemma orderProductSchema_inr_full p value product :
  orderProductSchema rt p value = inr product ->
  exists o,
    value = Some (JObject o) /\
    Number rt (get "id" o) = inr (OrderSchema.id product) /\
    Number rt (get "quantity" o) = inr (OrderSchema.quantity product) /\
    Number rt (get "price" o) = inr (OrderSchema.price product) /\
    isNaN (OrderSchema.id product) = false /\
    isInteger (OrderSchema.quantity product) = true /\
    isNaN (OrderSchema.price product) = false.
Proof.
  unfold orderProductSchema, z_object.
  destruct value as [[| | | | |o]|]; try discriminate.
  intros H. exists o.
  apply ap_inr in H. destruct H as [g3 [price [H [Hprice ->]]]].
  apply ap_inr in H. destruct H as [g2 [quantity [H [Hq ->]]]].
  apply ap_inr in H. destruct H as [g1 [id [H [Hid ->]]]].
  injection H as <-. simpl.
  apply z_coerce_number_inr in Hprice, Hid.
  apply z_coerce_number_int_inr_full in Hq.
  tauto.
Qed.

Lemma z_elements_orderProductSchema_full p l :
  forall i products,
    z_elements (orderProductSchema rt) p i l = inr products ->
    Forall2 (fun e product =>
               exists o,
                 e = JObject o /\
                 Number rt (get "id" o) = inr (OrderSchema.id product) /\
                 Number rt (get "quantity" o) = inr (OrderSchema.quantity product) /\
                 Number rt (get "price" o) = inr (OrderSchema.price product) /\
                 isNaN (OrderSchema.id product) = false /\
                 isInteger (OrderSchema.quantity product) = true /\
                 isNaN (OrderSchema.price product) = false)
            l products.
Proof.
  induction l as [|x rest IH]; intros i products H; cbn [z_elements] in H.
  - injection H as <-. constructor.
  - apply ap_inr in H. destruct H as [g [tail [H [Htail ->]]]].
    apply ap_inr in H. destruct H as [g0 [product [H [Hproduct ->]]]].
    injection H as <-. constructor.
    + apply orderProductSchema_inr_full in Hproduct.
      destruct Hproduct as [o [Ho Hrest]]. exists o.
      injection Ho as ->. tauto.
    + eapply IH. exact Htail.
Qed.

(** X10. What the order schema accepts.  An accepted body is an object;
    [customerId] and [total] are what its keys coerce to and are not NaN,
    so a body without one of them is not accepted; [paymentMethodId],
    [status] and [created_at] are absent when the key is, and otherwise
    hold the coerced number (not NaN), one of the three statuses, and
    the string given; [products] is empty when the key is absent and
    otherwise has one entry per element of the array, in order, each
    the coercion of the element's [id], [quantity] and [price], with no
    NaN and an integer quantity. *)
Theorem order_schema_accepts (b : json) (d : OrderSchema.data) :
  safeParse (orderSchema rt) b = inr d ->
  exists o,
    b = JObject o /\
    Number rt (get "customerId" o) = inr (OrderSchema.customerId d) /\
    isNaN (OrderSchema.customerId d) = false /\
    Number rt (get "total" o) = inr (OrderSchema.total d) /\
    isNaN (OrderSchema.total d) = false /\
    match get "paymentMethodId" o with
    | None => OrderSchema.paymentMethodId d = None
    | Some v =>
        exists p,
          OrderSchema.paymentMethodId d = Some p /\
          Number rt (Some v) = inr p /\ isNaN p = false
    end /\
    match get "status" o with
    | None => OrderSchema.status d = None
    | Some v =>
        exists s, OrderSchema.status d = Some s /\ v = JString (OrderStatus_string s)
    end /\
    match get "created_at" o with
    | None => OrderSchema.created_at d = None
    | Some v => exists c, OrderSchema.created_at d = Some c /\ v = JString c
    end /\
    match get "products" o with
    | None => OrderSchema.products d = []
    | Some v =>
        exists l,
          v = JArray l /\
          Forall2 (fun e product =>
                     exists o',
                       e = JObject o' /\
                       Number rt (get "id" o') = inr (OrderSchema.id product) /\
                       Number rt (get "quantity" o') = inr (OrderSchema.quantity product) /\
                       Number rt (get "price" o') = inr (OrderSchema.price product) /\
                       isNaN (OrderSchema.id product) = false /\
                       isInteger (OrderSchema.quantity product) = true /\
                       isNaN (OrderSchema.price product) = false)
                  l (OrderSchema.products d)
    end.
Proof.
  unfold safeParse, orderSchema, z_object.
  destruct b as [| | | | |o]; try discriminate.
  intros H. exists o.
  apply ap_inr in H. destruct H as [g6 [products [H [Hproducts ->]]]].
  apply ap_inr in H. destruct H as [g5 [created [H [Hcreated ->]]]].
  apply ap_inr in H. destruct H as [g4 [status [H [Hstatus ->]]]].
  apply ap_inr in H. destruct H as [g3 [total [H [Htotal ->]]]].
  apply ap_inr in H. destruct H as [g2 [payment [H [Hpayment ->]]]].
  apply ap_inr in H. destruct H as [g1 [customer [H [Hcustomer ->]]]].
  injection H as <-. cbn [OrderSchema.customerId OrderSchema.paymentMethodId
    OrderSchema.total OrderSchema.status OrderSchema.created_at
    OrderSchema.products].
  unfold field in *.
  apply z_coerce_number_inr in Hcustomer, Htotal.
  apply optional_inr in Hpayment, Hstatus, Hcreated.
  destruct Hcustomer as [Hc1 Hc2], Htotal as [Ht1 Ht2].
  split; [reflexivity|]. splits; try assumption.
  - destruct (get "paymentMethodId" o) as [v|]; [|exact Hpayment].
    destruct Hpayment as [a [-> Ha]]. apply z_coerce_number_inr in Ha.
    destruct Ha as [Ha1 Ha2]. exists a. auto.
  - destruct (get "status" o) as [v|]; [|exact Hstatus].
    destruct Hstatus as [s [-> Hs]]. apply z_enum_status_inr in Hs.
    injection Hs as ->. now exists s.
  - destruct (get "created_at" o) as [v|]; [|exact Hcreated].
    destruct Hcreated as [c [-> Hc]]. apply z_string_inr in Hc.
    injection Hc as ->. now exists c.
  - unfold optional_default, z_array in Hproducts.
    destruct (get "products" o) as [[| | | |l|]|]; try discriminate.
    + exists l. split; [reflexivity|].
      eapply z_elements_orderProductSchema_full. exact Hproducts.
    + simpl in Hproducts. now injection Hproducts as <-.
Qed.

(** X11. What the product schema accepts.  An accepted body is an object
    whose [name] is a string, kept as it is; [price] and [in_stock] are
    what the keys coerce to, neither is NaN and [in_stock] is an
    integer; [description] and [category] are undefined when the key is
    absent, null when it is null, and otherwise the string given. *)
Theorem product_schema_accepts (b : json) (d : ProductSchema.data) :
  safeParse (productSchema rt) b = inr d ->
  exists o,
    b = JObject o /\
    get "name" o = Some (JString (ProductSchema.name d)) /\
    Number rt (get "price" o) = inr (ProductSchema.price d) /\
    isNaN (ProductSchema.price d) = false /\
    Number rt (get "in_stock" o) = inr (ProductSchema.in_stock d) /\
    isInteger (ProductSchema.in_stock d) = true /\
    match get "description" o with
    | None => ProductSchema.description d = Undefined
    | Some JNull => ProductSchema.description d = Null
    | Some v => exists s, ProductSchema.description d = Defined s /\ v = JString s
    end /\
    match get "category" o with
    | None => ProductSchema.category d = Undefined
    | Some JNull => ProductSchema.category d = Null
    | Some v => exists s, ProductSchema.category d = Defined s /\ v = JString s
    end.
Proof.
  unfold safeParse, productSchema, z_object.
  destruct b as [| | | | |o]; try discriminate.
  intros H. exists o.
  apply ap_inr in H. destruct H as [g5 [category [H [Hcategory ->]]]].
  apply ap_inr in H. destruct H as [g4 [stock [H [Hstock ->]]]].
  apply ap_inr in H. destruct H as [g3 [price [H [Hprice ->]]]].
  apply ap_inr in H. destruct H as [g2 [description [H [Hdescription ->]]]].
  apply ap_inr in H. destruct H as [g1 [name [H [Hname ->]]]].
  injection H as <-. cbn [ProductSchema.name ProductSchema.description
    ProductSchema.price ProductSchema.in_stock ProductSchema.category].
  unfold field in *.
  apply z_string_inr in Hname.
  apply z_coerce_number_inr in Hprice.
  apply z_coerce_number_int_inr_full in Hstock.
  apply optional_nullable_inr in Hdescription, Hcategory.
  split; [reflexivity|]. splits; try tauto.
  - destruct (get "description" o) as [v|]; [|exact Hdescription].
    destruct v; try exact Hdescription;
      destruct Hdescription as [s' [-> Hs]]; apply z_string_inr in Hs;
      try discriminate.
    injection Hs as ->. now exists s'.
  - destruct (get "category" o) as [v|]; [|exact Hcategory].
    destruct v; try exact Hcategory;
      destruct Hcategory as [s' [-> Hs]]; apply z_string_inr in Hs;
      try discriminate.
    injection Hs as ->. now exists s'.
Qed.

End SchemaAccepts.

(** ** What the schemas reject, and what the details say *)

Lemma reports_ap_l {A B : Type} (f : Parsed (A -> B)) (a : Parsed A) i :
  reports i f -> reports i (f <*> a).
Proof.
  destruct f as [[e1|e1]|g], a as [[e2|e2]|x]; simpl; try tauto.
  intros H. apply in_or_app. now left.
Qed.

Lemma reports_ap_r {A B : Type} (f : Parsed (A -> B)) (a : Parsed A) i :
  reports i a -> reports i (f <*> a).
Proof.
  destruct f as [[e1|e1]|g], a as [[e2|e2]|x]; simpl; try tauto.
  intros H. apply in_or_app. now right.
Qed.

Lemma reports_spec {A : Type} (i : ZodIssue) (r : Parsed A) :
  reports i r ->
  (forall a, r <> inr a) /\
  (forall issues, r = inl (Issues issues) -> In i issues).
Proof.
  destruct r as [[e|e]|a]; simpl; intros H.
  - split; [discriminate|]. intros issues E. now injection E as <-.
  - split; discriminate.
  - contradiction.
Qed.

Section Rejects.
Variable rt : Runtime.

(** X12. Missing keys.  An order without [customerId], or without
    [total], and a product without [name], without [price] or without
    [in_stock], is never accepted; and whenever the schema returns
    issues for it (no coercion of another key throws), they include the
    [invalid_type] issue at that key: a number expected and NaN
    received, or for [name] a string expected and undefined received.  A
    body that is not an object is rejected by both schemas with the
    single issue "object expected", which has no path. *)
Theorem missing_keys_are_rejected (o : list (string * json)) :
  (get "customerId" o = None ->
   (forall d, safeParse (orderSchema rt) (JObject o) <> inr d) /\
   forall issues, safeParse (orderSchema rt) (JObject o) = inl (Issues issues) ->
                  In (invalid_key "customerId" "number" "nan") issues) /\
  (get "total" o = None ->
   (forall d, safeParse (orderSchema rt) (JObject o) <> inr d) /\
   forall issues, safeParse (orderSchema rt) (JObject o) = inl (Issues issues) ->
                  In (invalid_key "total" "number" "nan") issues) /\
  (get "name" o = None ->
   (forall d, safeParse (productSchema rt) (JObject o) <> inr d) /\
   forall issues, safeParse (productSchema rt) (JObject o) = inl (Issues issues) ->
                  In (invalid_key "name" "string" "undefined") issues) /\
  (get "price" o = None ->
   (forall d, safeParse (productSchema rt) (JObject o) <> inr d) /\
   forall issues, safeParse (productSchema rt) (JObject o) = inl (Issues issues) ->
                  In (invalid_key "price" "number" "nan") issues) /\
  (get "in_stock" o = None ->
   (forall d, safeParse (productSchema rt) (JObject o) <> inr d) /\
   forall issues, safeParse (productSchema rt) (JObject o) = inl (Issues issues) ->
                  In (invalid_key "in_stock" "number" "nan") issues) /\
  (forall b, (forall o', b <> JObject o') ->
     safeParse (orderSchema rt) b = inl (Issues [not_an_object b]) /\
     safeParse (productSchema rt) b = inl (Issues [not_an_object b])).
Proof.
  splits.
  - intros H. apply reports_spec.
    unfold safeParse, orderSchema, z_object, field. rewrite H.
    do 5 apply reports_ap_l. apply reports_ap_r. simpl. now left.
  - intros H. apply reports_spec.
    unfold safeParse, orderSchema, z_object, field. rewrite H.
    do 3 apply reports_ap_l. apply reports_ap_r. simpl. now left.
  - intros H. apply reports_spec.
    unfold safeParse, productSchema, z_object, field. rewrite H.
    do 4 apply reports_ap_l. apply reports_ap_r. simpl. now left.
  - intros H. apply reports_spec.
    unfold safeParse, productSchema, z_object, field. rewrite H.
    do 2 apply reports_ap_l. apply reports_ap_r. simpl. now left.
  - intros H. apply reports_spec.
    unfold safeParse, productSchema, z_object, field. rewrite H.
    apply reports_ap_l. apply reports_ap_r. simpl. now left.
  - intros b Hb. destruct b as [| | | | |o']; try (split; reflexivity).
    now contradiction (Hb o').
Qed.

(** *** [flatten] *)

Lemma push_keys k m fe k' :
  In k' (map fst (push k m fe)) <-> k' = k \/ In k' (map fst fe).
Proof.
  induction fe as [|[k0 ms] fe IH]; simpl.
  - split; intros [H|H]; auto.
  - destruct (String.eqb k0 k) eqn:E; simpl.
    + apply String.eqb_eq in E. subst k0. split; intros H; [tauto|].
      destruct H as [H|H]; auto.
    + rewrite IH. tauto.
Qed.

Lemma push_NoDup k m fe :
  NoDup (map fst fe) -> NoDup (map fst (push k m fe)).
Proof.
  induction fe as [|[k0 ms] fe IH]; simpl; intros H.
  - constructor; [auto | constructor].
  - destruct (String.eqb k0 k) eqn:E; simpl; [exact H|].
    inversion H as [|x l Hn Hd]; subst. constructor; [|auto].
    rewrite push_keys. intros [->|Hin]; [|contradiction].
    now rewrite String.eqb_refl in E.
Qed.

Lemma filed_push k m fe k' m' :
  filed (push k m fe) k' m' <-> (k' = k /\ m' = m) \/ filed fe k' m'.
Proof.
  unfold filed. induction fe as [|[k0 ms0] fe IH]; simpl.
  - split.
    + intros [ms [[H|[]] Hm]]. injection H as <- <-.
      destruct Hm as [<-|[]]. auto.
    + intros [[-> ->]|[ms [[] _]]]. exists [m]. simpl. auto.
  - destruct (String.eqb k0 k) eqn:E.
    + apply String.eqb_eq in E. subst k0. split.
      * intros [ms [[H|H] Hm]].
        -- injection H as <- <-. apply in_app_or in Hm.
           destruct Hm as [Hm|[<-|[]]]; [right | left; auto].
           exists ms0. simpl. auto.
        -- right. exists ms. simpl. auto.
      * intros [[-> ->]|[ms [[H|H] Hm]]].
        -- exists (ms0 ++ [m]). simpl. split; [auto|].
           apply in_or_app. right. now left.
        -- injection H as <- <-. exists (ms0 ++ [m]). simpl. split; [auto|].
           apply in_or_app. now left.
        -- exists ms. simpl. auto.
    + split.
      * intros [ms [[H|H] Hm]].
        -- right. exists ms. split; [left; exact H | exact Hm].
        -- destruct (proj1 IH (ex_intro _ ms (conj H Hm))) as [Hk|[ms' [H' Hm']]];
             [left; exact Hk | right; exists ms'; split; [right; exact H' | exact Hm']].
      * intros [Hk|[ms [[H|H] Hm]]].
        -- destruct (proj2 IH (or_introl Hk)) as [ms' [H' Hm']].
           exists ms'. split; [right; exact H' | exact Hm'].
        -- exists ms. split; [left; exact H | exact Hm].
        -- destruct (proj2 IH (or_intror (ex_intro _ ms (conj H Hm))))
             as [ms' [H' Hm']].
           exists ms'. split; [right; exact H' | exact Hm'].
Qed.

Lemma flatten_issues_spec issues :
  forall fo0 fi0,
    fst (flatten_issues rt issues fo0 fi0) =
      fo0 ++ map (errorMap rt) (form_issues issues) /\
    (NoDup (map fst fi0) ->
     NoDup (map fst (snd (flatten_issues rt issues fo0 fi0)))) /\
    (forall k,
       In k (map fst (snd (flatten_issues rt issues fo0 fi0))) <->
       In k (map fst fi0) \/ In k (first_segments issues)) /\
    (forall k m,
       filed (snd (flatten_issues rt issues fo0 fi0)) k m <->
       filed fi0 k m \/
       exists i seg rest,
         In i issues /\ path i = seg :: rest /\
         k = segment_name seg /\ m = errorMap rt i).
Proof.
  induction issues as [|sub issues IH]; intros fo0 fi0.
  - simpl. rewrite app_nil_r. splits; auto.
    + intros k. tauto.
    + intros k m. split; [auto|].
      intros [H|[i [seg [rest [[] _]]]]]. exact H.
  - cbn [flatten_issues form_issues first_segments flat_map filter].
    destruct (path sub) as [|seg rest] eqn:Hp.
    + destruct (IH (fo0 ++ [errorMap rt sub]) fi0) as [H1 [H2 [H3 H4]]].
      splits.
      * rewrite H1. simpl. now rewrite <- app_assoc.
      * exact H2.
      * exact H3.
      * intros k m. rewrite H4. split.
        -- intros [H|[i [seg [rest [Hi Hrest]]]]]; [auto|].
           right. exists i, seg, rest. simpl. tauto.
        -- intros [H|[i [seg [rest [[<-|Hi] [Hpi Hrest]]]]]]; [auto| |].
           ++ rewrite Hp in Hpi. discriminate.
           ++ right. exists i, seg, rest. tauto.
    + destruct (IH fo0 (push (segment_name seg) (errorMap rt sub) fi0))
        as [H1 [H2 [H3 H4]]].
      splits.
      * exact H1.
      * intros Hn. apply H2. now apply push_NoDup.
      * intros k. rewrite H3, push_keys. simpl. split.
        -- intros [[->|H]|H]; auto.
        -- intros [H|[<-|H]]; auto.
      * intros k m. rewrite H4, filed_push. split.
        -- intros [[[-> ->]|H]|[i [seg' [rest' [Hi Hrest]]]]]; [|auto|].
           ++ right. exists sub, seg, rest. simpl. auto.
           ++ right. exists i, seg', rest'. simpl. tauto.
        -- intros [H|[i [seg' [rest' [[<-|Hi] [Hpi [-> ->]]]]]]]; [auto| |].
           ++ rewrite Hp in Hpi. injection Hpi as <- <-. auto.
           ++ right. exists i, seg', rest'. auto.
Qed.

(** [details].  The flattened error of a list of issues has the
    messages of the issues without a path, in order, as [formErrors];
    its [fieldErrors] has exactly one key for each first path segment of
    the other issues, no key twice, and a message is filed under a key
    exactly when it is the message of an issue whose path starts with
    that key: no issue is lost and none is invented. *)
Theorem details_file_every_issue (issues : list ZodIssue) :
  exists formErrors fieldErrors,
    flatten rt issues =
      JObject
        [("formErrors", JArray (map JString formErrors));
         ("fieldErrors",
          JObject (map (fun '(k, ms) => (k, JArray (map JString ms))) fieldErrors))] /\
    formErrors = map (errorMap rt) (form_issues issues) /\
    NoDup (map fst fieldErrors) /\
    (forall k, In k (map fst fieldErrors) <-> In k (first_segments issues)) /\
    (forall k m,
       filed fieldErrors k m <->
       exists i seg rest,
         In i issues /\ path i = seg :: rest /\
         k = segment_name seg /\ m = errorMap rt i).
Proof.
  destruct (flatten_issues_spec issues [] []) as [H1 [H2 [H3 H4]]].
  unfold flatten.
  destruct (flatten_issues rt issues [] []) as [fo fi]. cbn [fst snd] in *.
  exists fo, fi. splits.
  - reflexivity.
  - exact H1.
  - apply H2. constructor.
  - intros k. rewrite H3. simpl. tauto.
  - intros k m. rewrite H4. split; [|auto].
    intros [[ms [[] _]]|H]. exact H.
Qed.

End Rejects.

(** ** Where the issues of the schemas are *)

Lemma under_weaken p q i : under (p ++ q) i -> under p i.
Proof.
  intros [rest H]. exists (q ++ rest). now rewrite H, app_assoc.
Qed.

Lemma placed_weaken {A : Type} p q (r : Parsed A) :
  placed (p ++ q) r -> placed p r.
Proof.
  destruct r as [[e|e]|a]; simpl; auto.
  intros [Hne H]. split; [exact Hne|].
  eapply Forall_impl; [|exact H]. intros i. apply under_weaken.
Qed.

Lemma placed_INVALID {A : Type} c e r p : placed p (@INVALID A c e r p).
Proof.
  simpl. split; [discriminate|]. constructor; [|constructor].
  exists []. simpl. now rewrite app_nil_r.
Qed.

Lemma placed_ap {A B : Type} p (f : Parsed (A -> B)) (a : Parsed A) :
  placed p f -> placed p a -> placed p (f <*> a).
Proof.
  destruct f as [[e1|e1]|g], a as [[e2|e2]|x]; simpl; auto.
  intros [Hn1 H1] [Hn2 H2]. split.
  - destruct e1; [contradiction | discriminate].
  - apply Forall_app. auto.
Qed.

Lemma placed_optional {A : Type} (inner : Schema A) :
  (forall p v, placed p (inner p v)) ->
  forall p v, placed p (optional inner p v).
Proof.
  intros H p v. unfold optional. destruct v as [v|]; [|exact I].
  specialize (H p (Some v)). destruct (inner p (Some v)); [exact H | exact I].
Qed.

Lemma placed_optional_nullable {A : Type} (inner : Schema A) :
  (forall p v, placed p (inner p v)) ->
  forall p v, placed p (optional_nullable inner p v).
Proof.
  intros H p v. unfold optional_nullable.
  destruct v as [v|]; [|exact I].
  destruct v; try exact I;
    match goal with
    | |- context [inner p ?x] =>
        specialize (H p x); destruct (inner p x); [exact H | exact I]
    end.
Qed.

Lemma placed_optional_default {A : Type} (inner : Schema A) d :
  (forall p v, placed p (inner p v)) ->
  forall p v, placed p (optional_default inner d p v).
Proof.
  intros H p v. unfold optional_default. destruct v; apply H.
Qed.

Lemma placed_z_elements {A : Type} (element : Schema A) :
  (forall p v, placed p (element p v)) ->
  forall p l i, placed p (z_elements element p i l).
Proof.
  intros H p l. induction l as [|x rest IH]; intros i; cbn [z_elements].
  - exact I.
  - apply placed_ap; [apply placed_ap; [exact I|] | apply IH].
    apply placed_weaken with [Index i]. apply H.
Qed.

Lemma placed_z_array {A : Type} (element : Schema A) :
  (forall p v, placed p (element p v)) ->
  forall p v, placed p (z_array element p v).
Proof.
  intros H p v. unfold z_array.
  destruct v as [[| | | |l|]|]; try apply placed_INVALID.
  now apply placed_z_elements.
Qed.

Lemma placed_z_string p v : placed p (z_string p v).
Proof.
  unfold z_string. destruct v as [[| | |s| |]|]; try apply placed_INVALID.
  exact I.
Qed.

Lemma placed_z_enum_status p v : placed p (z_enum_status p v).
Proof.
  unfold z_enum_status. destruct v as [[| | |s| |]|]; try apply placed_INVALID.
  repeat match goal with
         | |- context [if ?c then _ else _] => destruct c
         end; try exact I.
  apply placed_INVALID.
Qed.

Lemma placed_field {A : Type} p o k (s : Schema A) :
  (forall p v, placed p (s p v)) -> placed p (field p o k s).
Proof.
  intros H. unfold field. apply placed_weaken with [Key k]. apply H.
Qed.

Section Paths_of_issues.
Variable rt : Runtime.

Lemma placed_z_coerce_number p v : placed p (z_coerce_number rt p v).
Proof.
  unfold z_coerce_number.
  destruct (Number rt v) as [e|n]; [exact I|].
  destruct (isNaN n); [apply placed_INVALID | exact I].
Qed.

Lemma placed_z_coerce_number_int p v : placed p (z_coerce_number_int rt p v).
Proof.
  unfold z_coerce_number_int.
  pose proof (placed_z_coerce_number p v) as H.
  destruct (z_coerce_number rt p v) as [e|n]; [exact H|].
  destruct (isInteger n); [exact I | apply placed_INVALID].
Qed.

Lemma placed_orderProductSchema p v : placed p (orderProductSchema rt p v).
Proof.
  unfold orderProductSchema, z_object.
  destruct v as [[| | | | |o]|]; try apply placed_INVALID.
  repeat apply placed_ap; try exact I; apply placed_field;
    auto using placed_z_coerce_number, placed_z_coerce_number_int.
Qed.

(** An issue of a key of the top object starts with that key. *)
Lemma keyed_field {A : Type} ks o k (s : Schema A) :
  In k ks ->
  (forall p v, placed p (s p v)) ->
  all_keyed ks (field [] o k s).
Proof.
  intros Hk H. unfold field. specialize (H ([] ++ [Key k]) (get k o)).
  destruct (s ([] ++ [Key k]) (get k o)) as [[e|e]|a]; try exact I.
  destruct H as [Hne H]. split; [exact Hne|].
  eapply Forall_impl; [|exact H].
  intros i [rest Hi]. exists k, rest. split; [exact Hi | exact Hk].
Qed.

Lemma keyed_ap {A B : Type} ks (f : Parsed (A -> B)) (a : Parsed A) :
  all_keyed ks f -> all_keyed ks a -> all_keyed ks (f <*> a).
Proof.
  destruct f as [[e1|e1]|g], a as [[e2|e2]|x]; simpl; auto.
  intros [Hn1 H1] [Hn2 H2]. split.
  - destruct e1; [contradiction | discriminate].
  - apply Forall_app. auto.
Qed.

Lemma orderSchema_issues o issues :
  safeParse (orderSchema rt) (JObject o) = inl (Issues issues) ->
  issues <> [] /\ Forall (keyed order_keys) issues.
Proof.
  intros H.
  assert (K : all_keyed order_keys (safeParse (orderSchema rt) (JObject o))).
  { unfold safeParse, orderSchema, z_object.
    repeat apply keyed_ap; try exact I; apply keyed_field;
      try (unfold order_keys; simpl; tauto);
      auto using placed_z_coerce_number, placed_optional, placed_z_coerce_number,
        placed_z_enum_status, placed_z_string, placed_optional_default,
        placed_z_array, placed_orderProductSchema. }
  now rewrite H in K.
Qed.

Lemma productSchema_issues o issues :
  safeParse (productSchema rt) (JObject o) = inl (Issues issues) ->
  issues <> [] /\ Forall (keyed product_keys) issues.
Proof.
  intros H.
  assert (K : all_keyed product_keys (safeParse (productSchema rt) (JObject o))).
  { unfold safeParse, productSchema, z_object.
    repeat apply keyed_ap; try exact I; apply keyed_field;
      try (unfold product_keys; simpl; tauto);
      auto using placed_z_coerce_number, placed_z_coerce_number_int,
        placed_optional_nullable, placed_z_string. }
  now rewrite H in K.
Qed.

Lemma first_segments_keyed ks issues :
  Forall (keyed ks) issues -> forall k, In k (first_segments issues) -> In k ks.
Proof.
  unfold first_segments. induction 1 as [|i issues Hi _ IH]; simpl; [tauto|].
  intros k Hk. apply in_app_or in Hk. destruct Hk as [Hk|Hk]; [|now apply IH].
  destruct Hi as [k' [rest [Hp Hin]]]. rewrite Hp in Hk.
  destruct Hk as [<-|[]]. exact Hin.
Qed.


(** X13. A rejected body has at least one issue, and the issues of a
    rejected object all lie at or below one of the keys of the schema:
    the [fieldErrors] of the 400 response of POST /orders name only
    [customerId], [paymentMethodId], [total], [status], [created_at] and
    [products], and those of POST /products only [name], [description],
    [price], [in_stock] and [category], whatever other keys the body
    has. *)
Theorem details_name_schema_keys (b : json) (issues : list ZodIssue) :
  (safeParse (orderSchema rt) b = inl (Issues issues) ->
   issues <> [] /\
   (issues = [not_an_object b] \/ Forall (keyed order_keys) issues) /\
   forall k, In k (map fst (snd (flatten_issues rt issues [] []))) ->
             In k order_keys) /\
  (safeParse (productSchema rt) b = inl (Issues issues) ->
   issues <> [] /\
   (issues = [not_an_object b] \/ Forall (keyed product_keys) issues) /\
   forall k, In k (map fst (snd (flatten_issues rt issues [] []))) ->
             In k product_keys).
Proof.
  assert (Hflat : forall ks,
             issues = [not_an_object b] \/ Forall (keyed ks) issues ->
             forall k, In k (map fst (snd (flatten_issues rt issues [] []))) ->
                       In k ks).
  { intros ks H k Hk.
    destruct (flatten_issues_spec rt issues [] []) as [_ [_ [H3 _]]].
    apply H3 in Hk. destruct Hk as [[]|Hk].
    destruct H as [->|H]; [destruct Hk | now apply (first_segments_keyed ks issues)]. }
  split; intros H.
  - assert (K : issues <> [] /\
                (issues = [not_an_object b] \/ Forall (keyed order_keys) issues)).
    { destruct b as [| | | | |o];
        try (injection H as <-; split; [discriminate | now left]).
      apply orderSchema_issues in H. destruct H. auto. }
    destruct K as [K1 K2]. splits; auto.
  - assert (K : issues <> [] /\
                (issues = [not_an_object b] \/ Forall (keyed product_keys) issues)).
    { destruct b as [| | | | |o];
        try (injection H as <-; split; [discriminate | now left]).
      apply productSchema_issues in H. destruct H. auto. }
    destruct K as [K1 K2]. splits; auto.
Qed.

End Paths_of_issues.

(** ** Posting, then listing *)

Lemma get_app_None k (r extra : Row) :
  get k r = None -> get k (r ++ extra) = get k extra.
Proof.
  induction r as [|[k' v'] r IH]; simpl; [reflexivity|].
  destruct (String.eqb k' k); [discriminate | exact IH].
Qed.

Lemma keys_columns names r k :
  In k (keys (columns names r)) -> In k names.
Proof.
  unfold keys, columns. induction names as [|a names IH]; simpl; [tauto|].
  rewrite map_app, in_app_iff. intros [H|H]; [|auto].
  destruct (get a r); simpl in H; [|contradiction].
  destruct H as [H|[]]. auto.
Qed.

Lemma get_columns_outside names r k :
  ~ In k names -> get k (columns names r) = None.
Proof.
  intros Hk. destruct (get k (columns names r)) as [v|] eqn:E; [|reflexivity].
  exfalso. apply Hk. apply (keys_columns names r).
  unfold keys. clear Hk. induction (columns names r) as [|[k' v'] l IH];
    simpl in *; [discriminate|].
  destruct (String.eqb k' k) eqn:Ek; [left; now apply String.eqb_eq | right; auto].
Qed.

Lemma order_view_customers s s' r :
  tables s' "customers" = tables s "customers" ->
  order_view s' r = order_view s r.
Proof.
  intros H. unfold order_view, embed_customer. now rewrite H.
Qed.

Lemma GET_orders_listed_eq request user w :
  session request = Some user ->
  answer 0 w = None ->
  listed (fst (GET_orders request w)) =
  map (order_view (store w))
      (filter (eq "user_uid" (Some (JString (User.id user))))
         (tables (store w) "orders")).
Proof.
  intros Hs H0. rewrite (GET_orders_run _ _ _ Hs), H0. cbn [fst].
  now rewrite listed_data.
Qed.

Lemma GET_products_listed_eq request user w :
  session request = Some user ->
  answer 0 w = None ->
  listed (fst (GET_products request w)) =
  filter (eq "user_uid" (Some (JString (User.id user))))
    (tables (store w) "products").
Proof.
  intros Hs H0. rewrite (GET_products_run _ _ _ Hs), H0. cbn [fst].
  now rewrite listed_data.
Qed.

Lemma eq_other_user column (a c : string) r :
  get column r = Some (JString c) -> a <> c ->
  eq column (Some (JString a)) r = false.
Proof.
  intros H Hne. unfold eq. rewrite H. simpl. now apply String.eqb_neq.
Qed.

Lemma new_order_user_uid user d s :
  get "user_uid" (new_order user d s) = Some (JString (User.id user)).
Proof. reflexivity. Qed.

(** X14. The select list of GET /orders is all a caller sees of an order:
    every row returned has, besides [customer], no column other than
    [id], [customer_id], [total_amount], [user_uid], [status] and
    [created_at], whatever other columns the stored order has; and its
    [customer] is null or an object with the one key [name]. *)
Theorem listed_orders_show_selected_columns (request : Request) (user : User.t)
    (w : World) (row : Row) :
  session request = Some user ->
  In row (listed (fst (GET_orders request w))) ->
  (forall k, In k (keys row) ->
     In k ["id"; "customer_id"; "total_amount"; "user_uid"; "status";
           "created_at"; "customer"]) /\
  (get "customer" row = Some JNull \/
   exists n, get "customer" row = Some (JObject [("name", n)])).
Proof.
  intros Hs Hrow.
  destruct (GET_orders_listed _ _ _ _ Hs Hrow) as [_ [r [_ [_ ->]]]].
  unfold embed_customer. split.
  - intros k Hk. unfold keys in Hk. rewrite map_app, in_app_iff in Hk.
    destruct Hk as [Hk|[<-|[]]].
    + apply keys_columns in Hk. simpl in *. tauto.
    + simpl. tauto.
  - rewrite get_app_None.
    + simpl. destruct (find _ _); [right | left; reflexivity].
      eexists. reflexivity.
    + apply get_columns_outside. simpl.
      intros [H|[H|[H|[H|[H|[H|[]]]]]]]; discriminate.
Qed.

Section RoundTrip.
Variable rt : Runtime.

(** X15. Posting a product and then listing.  After an accepted POST
    /products by a caller, GET /products returns to that caller what it
    returned before followed by the new product, and to a caller with
    another identity exactly what it returned before. *)
Theorem posted_product_is_listed (request : Request) (user : User.t) (b : json)
    (newProduct : ProductSchema.data) (w : World) :
  session request = Some user ->
  json_body request = inr b ->
  safeParse (productSchema rt) b = inr newProduct ->
  answer 0 w = None ->
  answer 1 w = None ->
  listed (fst (GET_products request (snd (POST_products rt request w)))) =
    listed (fst (GET_products request w))
    ++ [("id", JNumber (num (sequence (store w)))) :: product_values user newProduct] /\
  (forall (request' : Request) (other : User.t),
     session request' = Some other ->
     User.id other <> User.id user ->
     listed (fst (GET_products request' (snd (POST_products rt request w)))) =
     listed (fst (GET_products request' w))).
Proof.
  intros Hs Hb Hp H0 H1.
  rewrite (POST_products_valid _ _ _ _ _ _ Hs Hb Hp). cbn [snd].
  assert (Ha : answer 0 (did (Insert "products" [product_values user newProduct])
                           (insert_rows "products" [product_values user newProduct]) w)
               = None).
  { unfold did. now rewrite answer_after. }
  assert (Ht : tables (store (did (Insert "products" [product_values user newProduct])
                                (insert_rows "products" [product_values user newProduct]) w))
                 "products" =
               tables (store w) "products"
               ++ [("id", JNumber (num (sequence (store w))))
                   :: product_values user newProduct]).
  { unfold did, attempt. rewrite H0. cbn [store after].
    rewrite tables_insert_rows_same. cbn [inserted].
    fold (product_row (store w) user newProduct). now rewrite product_row_eq. }
  assert (Hu : get "user_uid"
                 (("id", JNumber (num (sequence (store w))))
                  :: product_values user newProduct) =
               Some (JString (User.id user))).
  { simpl. apply product_values_user_uid. }
  split.
  - rewrite !(GET_products_listed_eq _ _ _ Hs) by assumption.
    rewrite Ht, filter_app. f_equal. cbn [filter].
    now rewrite (get_string_eq _ _ _ Hu).
  - intros request' other Hs' Hne.
    rewrite !(GET_products_listed_eq _ _ _ Hs') by assumption.
    rewrite Ht, filter_app. cbn [filter].
    rewrite (eq_other_user _ _ _ _ Hu Hne). apply app_nil_r.
Qed.

(** X16. Posting an order and then listing.  When the store reports no
    error, after a POST /orders by a caller GET /orders returns to that
    caller what it returned before followed by the view of the new
    order, which has the identifier the store assigned, the caller's
    [user_uid] and the total of the payload; a caller with another
    identity gets exactly what it got before. *)
Theorem posted_order_is_listed (request : Request) (user : User.t) (b : json)
    (d : OrderSchema.data) (w : World) :
  session request = Some user ->
  json_body request = inr b ->
  safeParse (orderSchema rt) b = inr d ->
  (forall k, answer k w = None) ->
  listed (fst (GET_orders request (snd (POST_orders rt request w)))) =
    listed (fst (GET_orders request w))
    ++ [order_view (store w) (new_order user d (store w))] /\
  get "id" (order_view (store w) (new_order user d (store w))) =
    Some (JNumber (num (sequence (store w)))) /\
  get "user_uid" (order_view (store w) (new_order user d (store w))) =
    Some (JString (User.id user)) /\
  get "total_amount" (order_view (store w) (new_order user d (store w))) =
    Some (JNumber (OrderSchema.total d)) /\
  (forall (request' : Request) (other : User.t),
     session request' = Some other ->
     User.id other <> User.id user ->
     listed (fst (GET_orders request' (snd (POST_orders rt request w)))) =
     listed (fst (GET_orders request' w))).
Proof.
  intros Hs Hb Hd Hw.
  rewrite (POST_orders_valid _ _ _ _ _ _ Hs Hb Hd).
  destruct (create_order_quiet rt user d w Hw) as [_ [Hw' [Ht _]]].
  destruct (create_order_leaves rt user d w) as [Hother _].
  assert (Hc : tables (store (snd (create_order rt user d w))) "customers" =
               tables (store w) "customers") by (apply Hother; reflexivity).
  assert (Hview : forall r,
             order_view (store (snd (create_order rt user d w))) r =
             order_view (store w) r).
  { intros r. now apply order_view_customers. }
  splits.
  - rewrite !(GET_orders_listed_eq _ _ _ Hs) by auto.
    rewrite Ht, filter_app, map_app.
    rewrite (map_ext _ _ Hview). f_equal. cbn [filter].
    rewrite (get_string_eq _ _ _ (new_order_user_uid user d (store w))).
    cbn [map]. now rewrite Hview.
  - apply get_app_Some. now rewrite get_columns by (simpl; tauto).
  - apply get_app_Some. now rewrite get_columns by (simpl; tauto).
  - apply get_app_Some. now rewrite get_columns by (simpl; tauto).
  - intros request' other Hs' Hne.
    rewrite !(GET_orders_listed_eq _ _ _ Hs') by auto.
    rewrite Ht, filter_app, map_app.
    rewrite (map_ext _ _ Hview). cbn [filter].
    rewrite (eq_other_user _ _ _ _ (new_order_user_uid user d (store w)) Hne).
    cbn [map]. apply app_nil_r.
Qed.

End RoundTrip.

(** ** What of the body reaches the store *)

Lemma keys_nullish key value k :
  In k (keys (nullish key value)) -> k = key.
Proof.
  destruct value; simpl; intros H; try contradiction;
    destruct H as [H|[]]; now subst.
Qed.

Lemma product_values_keys user newProduct :
  NoDup (keys (product_values user newProduct)) /\
  forall k, In k (keys (product_values user newProduct)) ->
            In k (product_keys ++ ["user_uid"]).
Proof.
  unfold product_values, product_keys.
  destruct (ProductSchema.description newProduct),
           (ProductSchema.category newProduct); simpl;
    (split;
     [ repeat (constructor;
               [simpl; intros H;
                repeat (destruct H as [H|H]; [discriminate|]); exact H|]);
       constructor
     | intros k H; tauto ]).
Qed.

(** X17. Only the five keys of the product schema, and [user_uid], reach
    the store.  Whatever the body of an authenticated POST /products,
    every row the handler asks the store to insert goes to [products],
    has no column other than [name], [description], [price],
    [in_stock], [category] and [user_uid], none twice, and has the
    caller's identity as [user_uid]: the body cannot set [user_uid],
    [id] or any other column. *)
Theorem product_body_cannot_set_other_columns (rt : Runtime) (request : Request)
    (user : User.t) (b : json) (w : World) :
  session request = Some user ->
  json_body request = inr b ->
  exists made,
    calls (snd (POST_products rt request w)) = calls w ++ made /\
    forall table values v,
      In (Insert table values) made ->
      In v values ->
      table = "products" /\
      get "user_uid" v = Some (JString (User.id user)) /\
      NoDup (keys v) /\
      forall k, In k (keys v) ->
                In k ["name"; "description"; "price"; "in_stock"; "category";
                      "user_uid"].
Proof.
  intros Hs Hb.
  destruct (safeParse (productSchema rt) b) as [issues|newProduct] eqn:Hp.
  - exists []. split.
    + rewrite (POST_products_parsed _ _ _ _ _ Hs Hb _ Hp).
      destruct issues; simpl; now rewrite app_nil_r.
    + intros table values v [].
  - exists [Insert "products" [product_values user newProduct]]. split.
    + now rewrite (POST_products_valid _ _ _ _ _ _ Hs Hb Hp).
    + intros table values v [H|[]] Hv. injection H as <- <-.
      destruct Hv as [<-|[]].
      destruct (product_values_keys user newProduct) as [Hn Hk].
      splits; auto using product_values_user_uid.
Qed.

(** ** The further theorems at work on the examples *)

Example product_body_parses :
  safeParse (productSchema example_runtime) product_body = inr product_data.
Proof. reflexivity. Qed.

(** X1, an instance: alice posts the product; the [id] and the [user_uid]
    of the body are not used. *)
Lemma product_is_created_witness :
  fst (POST_products example_runtime (authenticated alice product_body) (world [])) =
    inr {| status := 200; body := JObject product_kept |} /\
  tables (store (snd (POST_products example_runtime
                        (authenticated alice product_body) (world []))))
    "products" = tables shop "products" ++ [product_kept].
Proof.
  destruct (product_is_created example_runtime (authenticated alice product_body)
              alice product_body product_data (world [])
              eq_refl eq_refl eq_refl eq_refl)
    as [Hresponse [_ [Htable _]]].
  split; [exact Hresponse | exact Htable].
Defined.

(** X2, an instance. *)
Lemma product_insert_fails_witness :
  fst (POST_products example_runtime (authenticated alice product_body)
         (world [Some "products refused"])) =
    inr {| status := 500; body := JObject [("error", JString "products refused")] |} /\
  store (snd (POST_products example_runtime (authenticated alice product_body)
                (world [Some "products refused"]))) = shop.
Proof.
  destruct (product_insert_fails example_runtime (authenticated alice product_body)
              alice product_body product_data "products refused"
              (world [Some "products refused"])
              eq_refl eq_refl eq_refl eq_refl)
    as [Hresponse [Hstore _]].
  split; [exact Hresponse | exact Hstore].
Defined.

(** X3, an instance: alice lists her one product. *)
Lemma lists_all_witness :
  fst (GET_products (authenticated alice JNull) (world [])) =
    inr {| status := 200;
           body := JArray
                     [JObject [("id", JNumber (num 5)); ("name", JString "tea");
                               ("price", JNumber (num 5));
                               ("in_stock", JNumber (num 7));
                               ("user_uid", JString "alice")]] |}.
Proof.
  exact (proj1 (lists_all_rows_of_caller (authenticated alice JNull) alice
                  (world []) eq_refl eq_refl)).
Defined.

(** X4, an instance. *)
Lemma list_failure_witness :
  fst (GET_orders (authenticated alice JNull) (world [Some "select refused"])) =
    inr {| status := 500; body := JObject [("error", JString "select refused")] |}.
Proof.
  exact (proj1 (list_failure_is_500 (authenticated alice JNull) alice
                  "select refused" (world [Some "select refused"])
                  eq_refl eq_refl)).
Defined.

(** X5, an instance: the example order, its item and its transaction. *)
Lemma order_is_created_witness :
  tables (store (snd (POST_orders example_runtime (authenticated alice order_body)
                        (world [])))) "orders" =
    tables shop "orders" ++ [order_row] /\
  tables (store (snd (POST_orders example_runtime (authenticated alice order_body)
                        (world [])))) "order_items" = [item_kept].
Proof.
  destruct (order_is_created example_runtime (authenticated alice order_body)
              alice order_body order_data (world [])
              eq_refl eq_refl eq_refl eq_refl (fun _ => eq_refl) eq_refl)
    as [_ [Horders [Hitems _]]].
  split; [exact Horders | exact Hitems].
Defined.

(** X6, an instance: the items are refused, the delete succeeds, and the
    shop has the orders it had. *)
Lemma compensation_witness :
  tables (store (snd (POST_orders example_runtime (authenticated alice order_body)
                        (world [None; Some "items refused"])))) "orders" =
  tables shop "orders".
Proof.
  refine (proj1 (successful_compensation_restores_tables example_runtime
                   (authenticated alice order_body) alice order_body order_data
                   (world [None; Some "items refused"])
                   eq_refl eq_refl eq_refl _ _ eq_refl)
                "items refused" _ eq_refl eq_refl "orders").
  - intros r [<-|[<-|[]]]; reflexivity.
  - intros r [].
  - discriminate.
Defined.

(** X7, an instance: the transaction is refused; bob's order and the
    products are still there. *)
Lemma other_rows_witness :
  tables (store (snd (POST_orders example_runtime (authenticated alice order_body)
                        (world [None; None; Some "transaction refused"]))))
    "products" = tables shop "products" /\
  In [("id", JNumber (num 2)); ("customer_id", JNumber (num 1));
      ("total_amount", JNumber (num 12)); ("user_uid", JString "bob");
      ("status", JString "pending");
      ("created_at", JString "2023-12-31T09:00:00Z")]
     (tables (store (snd (POST_orders example_runtime
                            (authenticated alice order_body)
                            (world [None; None; Some "transaction refused"]))))
        "orders").
Proof.
  destruct (order_creation_leaves_other_rows example_runtime
              (authenticated alice order_body) alice order_body order_data
              (world [None; None; Some "transaction refused"])
              eq_refl eq_refl eq_refl)
    as [Hother [Horders _]].
  split.
  - exact (Hother "products" eq_refl eq_refl eq_refl).
  - apply Horders; [right; left; reflexivity | reflexivity].
Defined.

(** X8, an instance: a refused transaction is answered, not thrown, and
    the order with the unconvertible [customerId] is thrown. *)
Lemma post_responds_witness :
  (forall response,
     fst (POST_orders example_runtime (authenticated alice order_body)
            (world [None; None; Some "transaction refused"])) = inr response ->
     status response = 200 \/ status response = 400 \/ status response = 500) /\
  fst (POST_orders example_runtime (authenticated alice order_body_unconvertible)
         (world [])) =
    inl (TypeError "Cannot convert object to primitive value").
Proof.
  split.
  - intros response H.
    exact (proj2 (proj1 (proj2
             (post_throws_only_when_parse_throws example_runtime
                (authenticated alice order_body) alice order_body
                (world [None; None; Some "transaction refused"])
                eq_refl eq_refl)) response H)).
  - exact (proj2 (proj1
             (post_throws_only_when_parse_throws example_runtime
                (authenticated alice order_body_unconvertible) alice
                order_body_unconvertible (world []) eq_refl eq_refl)
             (TypeError "Cannot convert object to primitive value")) eq_refl).
Defined.

(** X9, an instance: the example order posted twice. *)
Lemma posting_twice_witness :
  tables (store (snd (POST_orders example_runtime (authenticated alice order_body)
                        (snd (POST_orders example_runtime
                                (authenticated alice order_body) (world []))))))
    "orders" =
  tables shop "orders"
  ++ [order_row;
      [("id", JNumber (num 6)); ("customer_id", JNumber (num 1));
       ("total_amount", JNumber (num 10)); ("user_uid", JString "alice");
       ("status", JString "completed");
       ("created_at", JString "2024-01-01T00:00:00Z")]].
Proof.
  refine (proj1 (proj2 (proj2
            (posting_twice_creates_two_orders example_runtime
               (authenticated alice order_body) alice order_body order_data
               (world []) eq_refl eq_refl eq_refl _)))).
  intros k. destruct k; reflexivity.
Defined.

(** X10, an instance: the total of the example comes as the string "10". *)
Lemma order_schema_witness :
  exists o,
    order_body = JObject o /\
    Number example_runtime (get "total" o) = inr (OrderSchema.total order_data).
Proof.
  destruct (order_schema_accepts example_runtime order_body order_data eq_refl)
    as [o [Hb [_ [_ [Htotal _]]]]].
  exists o. split; [exact Hb | exact Htotal].
Defined.

(** X11, an instance. *)
Lemma product_schema_witness :
  exists o,
    product_body = JObject o /\
    get "name" o = Some (JString "tea") /\
    isInteger (ProductSchema.in_stock product_data) = true.
Proof.
  destruct (product_schema_accepts example_runtime product_body product_data eq_refl)
    as [o [Hb [Hname [_ [_ [_ [Hstock _]]]]]]].
  exists o. split; [exact Hb|]. split; [exact Hname | exact Hstock].
Defined.

(** X12, an instance: the empty object is no order. *)
Lemma missing_keys_witness :
  safeParse (orderSchema example_runtime) (JObject []) =
    inl (Issues [invalid_key "customerId" "number" "nan";
                 invalid_key "total" "number" "nan"]) /\
  In (invalid_key "customerId" "number" "nan")
     [invalid_key "customerId" "number" "nan"; invalid_key "total" "number" "nan"].
Proof.
  split; [reflexivity|].
  exact (proj2 (proj1 (missing_keys_are_rejected example_runtime []) eq_refl)
           _ eq_refl).
Defined.

(** X13, an instance: the product whose price is "cheap". *)
Lemma details_keys_witness :
  safeParse (productSchema example_runtime) product_body_invalid =
    inl (Issues [invalid_key "price" "number" "nan"]) /\
  (forall k,
     In k (map fst (snd (flatten_issues example_runtime
                           [invalid_key "price" "number" "nan"] [] []))) ->
     In k product_keys).
Proof.
  split; [reflexivity|].
  exact (proj2 (proj2 (proj2 (details_name_schema_keys example_runtime
                                product_body_invalid
                                [invalid_key "price" "number" "nan"]) eq_refl))).
Defined.

(** X14, an instance: what alice sees of her order. *)
Lemma listed_columns_witness :
  In order_listed (listed (fst (GET_orders (authenticated alice JNull) (world [])))) /\
  (forall k, In k (keys order_listed) ->
     In k ["id"; "customer_id"; "total_amount"; "user_uid"; "status";
           "created_at"; "customer"]).
Proof.
  assert (H : In order_listed
                (listed (fst (GET_orders (authenticated alice JNull) (world [])))))
    by (left; reflexivity).
  split; [exact H|].
  exact (proj1 (listed_orders_show_selected_columns (authenticated alice JNull)
                  alice (world []) order_listed eq_refl H)).
Defined.

(** X15, an instance: alice posts the product and lists. *)
Lemma posted_product_witness :
  listed (fst (GET_products (authenticated alice product_body)
                 (snd (POST_products example_runtime
                         (authenticated alice product_body) (world []))))) =
  listed (fst (GET_products (authenticated alice product_body) (world [])))
  ++ [product_kept].
Proof.
  exact (proj1 (posted_product_is_listed example_runtime
                  (authenticated alice product_body) alice product_body
                  product_data (world []) eq_refl eq_refl eq_refl eq_refl eq_refl)).
Defined.

(** X16, an instance: alice posts the example order and lists. *)
Lemma posted_order_witness :
  listed (fst (GET_orders (authenticated alice order_body)
                 (snd (POST_orders example_runtime
                         (authenticated alice order_body) (world []))))) =
  [order_listed; order_posted_listed].
Proof.
  refine (proj1 (posted_order_is_listed example_runtime
                   (authenticated alice order_body) alice order_body order_data
                   (world []) eq_refl eq_refl eq_refl _)).
  intros k. destruct k; reflexivity.
Defined.

(** X17, an instance: the body names bob as [user_uid]; the row sent has
    alice. *)
Lemma product_body_keys_witness :
  exists made,
    calls (snd (POST_products example_runtime (authenticated alice product_body)
                  (world []))) = calls (world []) ++ made /\
    forall table values v,
      In (Insert table values) made -> In v values ->
      get "user_uid" v = Some (JString "alice").
Proof.
  destruct (product_body_cannot_set_other_columns example_runtime
              (authenticated alice product_body) alice product_body (world [])
              eq_refl eq_refl)
    as [made [Hcalls Hrows]].
  exists made. split; [exact Hcalls|].
  intros table values v Hin Hv.
  exact (proj1 (proj2 (Hrows table values v Hin Hv))).
Defined.
